(** * Kanban board: the board-state hook, the board filter and the column
      component, embedded and checked against the written specification.

    The embedding follows the TypeScript sources function by function:
    - [types/kanban]  : the row and view-model records;
    - [hooks/useBoard]: [fetchBoard] and the mutating operations, written in a
      small state-and-exception monad over the external store;
    - [hooks/useBoards]: [createBoard], [deleteBoard], [updateBoard];
    - [components/Board]: [filteredColumns], [handleToggleSubtask], the
      handlers of the arrows, of the forms, of the labels and of the card
      modal;
    - [components/Column]: the WIP-limit flags, the add-card button and the
      two forms;
    - [components/Card]: the arrows and the badges;
    - [components/SearchModal], [components/CardModal]: the search and the
      saving of a card;
    - [hooks/useKeyboardShortcuts]: [handleKeyDown].

    Rows carry the columns that the hooks and components read or write; the
    store-side bookkeeping columns nobody reads here (owner, board type,
    creation stamps of boards, columns, cards and subtasks) are left out.

    The external service is a store of rows together with the answers it
    will give: every round trip of the client is answered by acceptance or by
    an error, as the service pleases.  The client does not throw: it hands
    the error back in the [error] field of its result, and only the hooks'
    own [throw] statements raise exceptions.

    An asynchronous call is run to its end where it is made, whether the
    source awaits it or not ([fetchBoard()] at the end of [addComment] and
    its like); concurrent edits by other clients are outside the embedding.

    Contents: the embedding; the vocabulary of the claims and of the
    further properties; sample boards; the definitions of the program
    logic; then the lemmas and, claim by claim, the theorems, followed by
    the further properties of the code around them. *)

From Stdlib Require Import ZArith List String Ascii Bool Lia.
From Stdlib Require Import Sorted Permutation RelationClasses ZifyBool.
Import ListNotations.

Local Open Scope string_scope.
Local Open Scope Z_scope.
Local Open Scope list_scope.

(* ================================================================== *)
(** ** JavaScript primitives used by the sources *)

Module Js.

(** Truthiness of a string: only the empty string is falsy. *)
Definition truthy (s : string) : bool := negb (s =? "")%string.

(** Truthiness of [string | null]. *)
Definition truthy_opt (o : option string) : bool :=
  match o with
  | Some s => truthy s
  | None => false
  end.

(** [a || b] on strings: the first operand when truthy, else the second. *)
Definition or_else (a : option string) (b : string) : string :=
  match a with
  | Some s => if truthy s then s else b
  | None => b
  end.

(** [s.includes(q)] on strings. *)
Fixpoint includes (s q : string) : bool :=
  String.prefix q s ||
  match s with
  | EmptyString => false
  | String _ rest => includes rest q
  end.

(** [xs.includes(x)] on an array of strings. *)
Definition includes_str (xs : list string) (x : string) : bool :=
  existsb (fun y => (y =? x)%string) xs.

(** [xs || []] on an optional array. *)
Definition or_nil {A : Type} (xs : option (list A)) : list A :=
  match xs with
  | Some l => l
  | None => []
  end.

(** [Math.max(...xs)] guarded by [xs.length > 0 ? ... : -1], the form in
    which both [addColumn] and [addCard] use it. *)
Definition max_or_minus_one (xs : list Z) : Z :=
  match xs with
  | [] => -1
  | x :: rest => fold_left Z.max rest x
  end.

(** [name.split('.').pop()]: the text after the last dot, the whole name
    when it has no dot. *)
Fixpoint after_last_dot (s : string) : string :=
  match s with
  | EmptyString => EmptyString
  | String c rest =>
      if includes rest "." then after_last_dot rest
      else if (c =? ".")%char then rest
      else String c rest
  end.

(** An error value as a [catch] block sees it: whether it is an instance of
    [Error], and its [message]. *)
Record error := mk_error { instanceof_Error : bool; message : string }.

(** [err instanceof Error ? err.message : fallback] *)
Definition message_or (e : error) (fallback : string) : string :=
  if instanceof_Error e then message e else fallback.

(** The double-quote character, for the template strings that contain it. *)
Definition dquote : string := String (ascii_of_nat 34) EmptyString.

End Js.

(* ================================================================== *)
(** ** Rows of the external store ([types/kanban]) *)

Inductive Priority := low | medium | high | critical.

Definition Priority_eqb (a b : Priority) : bool :=
  match a, b with
  | low, low | medium, medium | high, high | critical, critical => true
  | _, _ => false
  end.

Module Subtask.
Record t := mk {
  id : string;
  card_id : string;
  title : string;
  is_completed : bool;
  position : Z
}.
End Subtask.

Module Card.
Record t := mk {
  id : string;
  column_id : string;
  title : string;
  description : option string;
  position : Z;
  due_date : option string;
  priority : Priority;
  assigned_to : option string;
  updated_at : string
}.
End Card.

Module Column.
Record t := mk {
  id : string;
  board_id : string;
  title : string;
  position : Z;
  wip_limit : option Z
}.
End Column.

Module Board.
Record t := mk {
  id : string;
  title : string;
  org_id : option string
}.
End Board.

Module Label.
Record t := mk {
  id : string;
  board_id : string;
  text : string;
  color : string
}.
End Label.

Module CardLabel.
Record t := mk {
  card_id : string;
  label_id : string
}.
End CardLabel.

Module Attachment.
Record t := mk {
  id : string;
  card_id : string;
  file_name : string;
  file_type : string;
  file_size : Z;
  storage_path : string;
  created_at : string
}.
End Attachment.

Module Comment.
Record t := mk {
  id : string;
  card_id : string;
  content : string;
  created_at : string;
  user_id : string
}.
End Comment.

(** The [details] object of an activity: a flat JSON object whose values are
    strings or [null]. *)
Inductive Json := JNull | JStr (s : string).

Module Activity.
Record t := mk {
  id : string;
  card_id : option string;
  board_id : option string;
  action_type : string;
  details : list (string * Json);
  created_at : string;
  user_id : string
}.
End Activity.

(** *** Extended types: the nested view model *)

Module CardWithLabels.
Record t := mk {
  card : Card.t;
  labels : list Label.t;
  subtasks : option (list Subtask.t);
  attachments : option (list Attachment.t);
  comments : option (list Comment.t);
  activities : option (list Activity.t)
}.
Definition id (c : t) : string := Card.id (card c).
End CardWithLabels.

Module ColumnWithCards.
Record t := mk {
  column : Column.t;
  cards : list CardWithLabels.t
}.
Definition id (c : t) : string := Column.id (column c).
Definition title (c : t) : string := Column.title (column c).
Definition position (c : t) : Z := Column.position (column c).
End ColumnWithCards.

(** *** Filter types *)

Module DateFilter.
Inductive t := all | today | week | overdue | no_date.
End DateFilter.

Record FilterState := mkFilterState {
  searchQuery : string;
  filter_labels : list string;
  priorities : list Priority;
  dateFilter : DateFilter.t
}.

Definition DEFAULT_FILTER_STATE : FilterState :=
  {| searchQuery := "";
     filter_labels := [];
     priorities := [];
     dateFilter := DateFilter.all |}.

(* ================================================================== *)
(** ** [fetchBoard]: combining the fetched rows (useBoard, lines 110-128) *)

Definition activity_of_card (cardId : string) (a : Activity.t) : bool :=
  match Activity.card_id a with
  | Some c => (c =? cardId)%string
  | None => false
  end.

Definition cardWithLabels
    (cardLabelsData : list CardLabel.t) (labelsData : list Label.t)
    (subtasksData : list Subtask.t) (attachmentsData : list Attachment.t)
    (commentsData : list Comment.t) (activitiesData : list Activity.t)
    (card : Card.t) : CardWithLabels.t :=
  let cardLabelIds :=
    map CardLabel.label_id
      (filter (fun cl => (CardLabel.card_id cl =? Card.id card)%string)
              cardLabelsData) in
  {| CardWithLabels.card := card;
     CardWithLabels.labels :=
       filter (fun l => Js.includes_str cardLabelIds (Label.id l)) labelsData;
     CardWithLabels.subtasks :=
       Some (filter (fun s => (Subtask.card_id s =? Card.id card)%string)
                    subtasksData);
     CardWithLabels.attachments :=
       Some (filter (fun a => (Attachment.card_id a =? Card.id card)%string)
                    attachmentsData);
     CardWithLabels.comments :=
       Some (filter (fun c => (Comment.card_id c =? Card.id card)%string)
                    commentsData);
     CardWithLabels.activities :=
       Some (filter (activity_of_card (Card.id card)) activitiesData) |}.

Definition columnsWithCards
    (columnsData : list Column.t) (cardsData : list Card.t)
    (cardLabelsData : list CardLabel.t) (labelsData : list Label.t)
    (subtasksData : list Subtask.t) (attachmentsData : list Attachment.t)
    (commentsData : list Comment.t) (activitiesData : list Activity.t)
    : list ColumnWithCards.t :=
  map (fun column =>
         {| ColumnWithCards.column := column;
            ColumnWithCards.cards :=
              map (cardWithLabels cardLabelsData labelsData subtasksData
                                  attachmentsData commentsData activitiesData)
                  (filter (fun card =>
                             (Card.column_id card =? Column.id column)%string)
                          cardsData) |})
      columnsData.

(* ================================================================== *)
(** ** The board filter ([components/Board], [filteredColumns]) *)

Section Filter.

(** What the JavaScript runtime supplies: [String.prototype.toLowerCase],
    and for the date filter one reading of the clock per evaluation:
    [today] is [new Date()] after [setHours(0,0,0,0)], [nextWeek] is
    [today] after [setDate(getDate() + 7)], and [startOfDay d] is
    [new Date(d)] after [setHours(0,0,0,0)], [None] standing for an invalid
    date, whose comparisons are all false. *)
Variable toLowerCase : string -> string.
Variable startOfDay : string -> option Z.
Variable today : Z.
Variable nextWeek : Z.

Definition date_ge (d : option Z) (t : Z) : bool :=
  match d with Some x => t <=? x | None => false end.
Definition date_lt (d : option Z) (t : Z) : bool :=
  match d with Some x => x <? t | None => false end.
Definition date_gt (d : option Z) (t : Z) : bool :=
  match d with Some x => t <? x | None => false end.
Definition date_neq (d : option Z) (t : Z) : bool :=
  match d with Some x => negb (x =? t) | None => true end.

(** The callback given to [col.cards.filter]: a chain of early
    [return false], then [return true]. *)
Definition cardPasses (filterState : FilterState) (c : CardWithLabels.t)
  : bool :=
  let card := CardWithLabels.card c in
  if Js.truthy (searchQuery filterState)
     && (let query := toLowerCase (searchQuery filterState) in
         let matchTitle := Js.includes (toLowerCase (Card.title card)) query in
         let matchDesc :=
           match Card.description card with
           | Some d => Js.includes (toLowerCase d) query
           | None => false
           end in
         negb matchTitle && negb matchDesc)
  then false
  else if (0 <? List.length (filter_labels filterState))%nat
     && (let cardLabelIds := map Label.id (CardWithLabels.labels c) in
         let hasMatchingLabel :=
           existsb (fun id => Js.includes_str cardLabelIds id)
                   (filter_labels filterState) in
         negb hasMatchingLabel)
  then false
  else if (0 <? List.length (priorities filterState))%nat
     && negb (existsb (Priority_eqb (Card.priority card))
                      (priorities filterState))
  then false
  else
    match dateFilter filterState with
    | DateFilter.all => true
    | DateFilter.no_date =>
        if Js.truthy_opt (Card.due_date card) then false else true
    | other =>
        match Card.due_date card with
        | None => false
        | Some due =>
            if negb (Js.truthy due) then false
            else
              let dueDateDay := startOfDay due in
              match other with
              | DateFilter.overdue =>
                  if date_ge dueDateDay today then false else true
              | DateFilter.today =>
                  if date_neq dueDateDay today then false else true
              | DateFilter.week =>
                  if date_lt dueDateDay today || date_gt dueDateDay nextWeek
                  then false else true
              | _ => true
              end
        end
    end.

Definition filteredColumns (filterState : FilterState)
    (columns : list ColumnWithCards.t) : list ColumnWithCards.t :=
  if negb (Js.truthy (searchQuery filterState))
     && (List.length (filter_labels filterState) =? 0)%nat
     && (List.length (priorities filterState) =? 0)%nat
     && match dateFilter filterState with DateFilter.all => true | _ => false end
  then columns
  else
    map (fun col =>
           {| ColumnWithCards.column := ColumnWithCards.column col;
              ColumnWithCards.cards :=
                filter (cardPasses filterState) (ColumnWithCards.cards col) |})
        columns.

(** *** The four predicates of the specification, one per filter *)

(** Search: no query, or the query occurs, case-insensitively, in the title
    or in the description. *)
Definition search_predicate (fs : FilterState) (c : CardWithLabels.t) : bool :=
  (searchQuery fs =? "")%string
  || Js.includes (toLowerCase (Card.title (CardWithLabels.card c)))
                 (toLowerCase (searchQuery fs))
  || match Card.description (CardWithLabels.card c) with
     | Some d => Js.includes (toLowerCase d) (toLowerCase (searchQuery fs))
     | None => false
     end.

(** Labels: none selected, or the card carries one of the selected. *)
Definition label_predicate (fs : FilterState) (c : CardWithLabels.t) : bool :=
  match filter_labels fs with
  | [] => true
  | selected =>
      existsb (fun l => Js.includes_str selected (Label.id l))
              (CardWithLabels.labels c)
  end.

(** Priorities: none selected, or the card's priority is selected. *)
Definition priority_predicate (fs : FilterState) (c : CardWithLabels.t) : bool :=
  match priorities fs with
  | [] => true
  | selected =>
      existsb (Priority_eqb (Card.priority (CardWithLabels.card c))) selected
  end.

(** Dates: by the selected window. *)
Definition date_predicate (fs : FilterState) (c : CardWithLabels.t) : bool :=
  let due := Card.due_date (CardWithLabels.card c) in
  match dateFilter fs with
  | DateFilter.all => true
  | DateFilter.no_date => negb (Js.truthy_opt due)
  | DateFilter.overdue =>
      Js.truthy_opt due
      && negb (date_ge (match due with Some d => startOfDay d | None => None end) today)
  | DateFilter.today =>
      Js.truthy_opt due
      && negb (date_neq (match due with Some d => startOfDay d | None => None end) today)
  | DateFilter.week =>
      Js.truthy_opt due
      && negb (date_lt (match due with Some d => startOfDay d | None => None end) today)
      && negb (date_gt (match due with Some d => startOfDay d | None => None end) nextWeek)
  end.

Definition all_predicates (fs : FilterState) (c : CardWithLabels.t) : bool :=
  search_predicate fs c && label_predicate fs c
  && priority_predicate fs c && date_predicate fs c.

End Filter.

(** A list obtained from another by dropping elements, order kept. *)
Inductive subsequence {A : Type} : list A -> list A -> Prop :=
| subseq_nil : subsequence [] []
| subseq_keep x l l' : subsequence l l' -> subsequence (x :: l) (x :: l')
| subseq_drop x l l' : subsequence l l' -> subsequence l (x :: l').

(* ================================================================== *)
(** ** The column component ([components/Column]) *)

Definition cardCount (column : ColumnWithCards.t) : Z :=
  Z.of_nat (List.length (ColumnWithCards.cards column)).

Definition isOverLimit (column : ColumnWithCards.t) : bool :=
  match Column.wip_limit (ColumnWithCards.column column) with
  | Some wipLimit => wipLimit <=? cardCount column
  | None => false
  end.

Definition isAtLimit (column : ColumnWithCards.t) : bool :=
  match Column.wip_limit (ColumnWithCards.column column) with
  | Some wipLimit => cardCount column =? wipLimit
  | None => false
  end.

Definition isNearLimit (column : ColumnWithCards.t) : bool :=
  match Column.wip_limit (ColumnWithCards.column column) with
  | Some wipLimit => cardCount column =? wipLimit - 1
  | None => false
  end.

(** The footer of a column: the add-card form while a card is being typed,
    else the add-card button with its [disabled] attribute. *)
Inductive ColumnFooter :=
| AddCardForm
| AddCardBtn (disabled : bool).

Definition columnFooter (column : ColumnWithCards.t) (isAddingCard : bool)
  : ColumnFooter :=
  if isAddingCard then AddCardForm else AddCardBtn (isOverLimit column).

(* ================================================================== *)
(** ** The external store and its client ([lib/supabase])

    The store is the third-party service behind [db.*()] and
    [supabase.storage]: tables of rows and one bucket of files.  It is not
    code of this repository; what follows is the part of its contract the
    hooks rely on. *)

Module Table.
Inductive t :=
| boards | columns | cards | labels | card_labels | subtasks
| attachments | comments | activities
| storage.
End Table.

Module Db.
Record t := mk {
  boards : list Board.t;
  columns : list Column.t;
  cards : list Card.t;
  labels : list Label.t;
  card_labels : list CardLabel.t;
  subtasks : list Subtask.t;
  attachments : list Attachment.t;
  comments : list Comment.t;
  activities : list Activity.t;
  files : list string
}.

Definition with_boards (f : list Board.t -> list Board.t) (d : t) : t :=
  mk (f (boards d)) (columns d) (cards d) (labels d) (card_labels d)
     (subtasks d) (attachments d) (comments d) (activities d) (files d).
Definition with_columns (f : list Column.t -> list Column.t) (d : t) : t :=
  mk (boards d) (f (columns d)) (cards d) (labels d) (card_labels d)
     (subtasks d) (attachments d) (comments d) (activities d) (files d).
Definition with_cards (f : list Card.t -> list Card.t) (d : t) : t :=
  mk (boards d) (columns d) (f (cards d)) (labels d) (card_labels d)
     (subtasks d) (attachments d) (comments d) (activities d) (files d).
Definition with_card_labels (f : list CardLabel.t -> list CardLabel.t) (d : t) : t :=
  mk (boards d) (columns d) (cards d) (labels d) (f (card_labels d))
     (subtasks d) (attachments d) (comments d) (activities d) (files d).
Definition with_subtasks (f : list Subtask.t -> list Subtask.t) (d : t) : t :=
  mk (boards d) (columns d) (cards d) (labels d) (card_labels d)
     (f (subtasks d)) (attachments d) (comments d) (activities d) (files d).
Definition with_attachments (f : list Attachment.t -> list Attachment.t) (d : t) : t :=
  mk (boards d) (columns d) (cards d) (labels d) (card_labels d)
     (subtasks d) (f (attachments d)) (comments d) (activities d) (files d).
Definition with_comments (f : list Comment.t -> list Comment.t) (d : t) : t :=
  mk (boards d) (columns d) (cards d) (labels d) (card_labels d)
     (subtasks d) (attachments d) (f (comments d)) (activities d) (files d).
Definition with_activities (f : list Activity.t -> list Activity.t) (d : t) : t :=
  mk (boards d) (columns d) (cards d) (labels d) (card_labels d)
     (subtasks d) (attachments d) (comments d) (f (activities d)) (files d).
Definition with_files (f : list string -> list string) (d : t) : t :=
  mk (boards d) (columns d) (cards d) (labels d) (card_labels d)
     (subtasks d) (attachments d) (comments d) (activities d) (f (files d)).

(** [.order(key)]: rows by ascending key, rows of equal key in table order
    (a stable insertion sort stands for the store's ORDER BY). *)
Fixpoint insert_sorted {A : Type} (le : A -> A -> bool) (x : A) (l : list A)
  : list A :=
  match l with
  | [] => [x]
  | y :: rest => if le x y then x :: l else y :: insert_sorted le x rest
  end.

Fixpoint order {A : Type} (le : A -> A -> bool) (l : list A) : list A :=
  match l with
  | [] => []
  | x :: rest => insert_sorted le x (order le rest)
  end.

(** [.update(patch).eq('id', id)] *)
Definition update_where {A : Type} (p : A -> bool) (patch : A -> A)
    (rows : list A) : list A :=
  map (fun r => if p r then patch r else r) rows.

(** [.delete().eq('id', id)] *)
Definition delete_where {A : Type} (p : A -> bool) (rows : list A) : list A :=
  filter (fun r => negb (p r)) rows.

(** Deleting a card takes its card-label rows with it, deleting a column
    takes its cards (ON DELETE CASCADE in the schema file). *)
Definition delete_card (cardId : string) (d : t) : t :=
  with_card_labels
    (delete_where (fun cl => (CardLabel.card_id cl =? cardId)%string))
    (with_cards (delete_where (fun c => (Card.id c =? cardId)%string)) d).

Definition delete_column (columnId : string) (d : t) : t :=
  let gone :=
    map Card.id
        (filter (fun c => (Card.column_id c =? columnId)%string) (cards d)) in
  with_columns
    (delete_where (fun c => (Column.id c =? columnId)%string))
    (fold_right delete_card d gone).
End Db.

(** The answer of the service to one request: accepted, with the identifiers
    the store generates for the rows the request inserts, or rejected with
    the error the client hands back in the [error] field of its result. *)
Inductive Reply :=
| Accepted (generated : nat -> string)
| Rejected (e : Js.error).

(** The result record [{ data, error }] of the client. *)
Inductive Response (A : Type) :=
| Data (data : A)
| Error (error : Js.error).
Arguments Data {A} data.
Arguments Error {A} error.

(** What the store answers to [.single()] when the rows are not exactly
    one: like every error of a table request, a plain object with a
    message, not an instance of [Error]. *)
Definition single_row_error : Js.error :=
  {| Js.instanceof_Error := false;
     Js.message := "JSON object requested, multiple (or no) rows returned" |}.

Definition single {A : Type} (r : Response (list A)) : Response A :=
  match r with
  | Data [row] => Data row
  | Data _ => Error single_row_error
  | Error e => Error e
  end.

(** [data || []] where the [error] field is not read. *)
Definition or_empty {A : Type} (r : Response (list A)) : list A :=
  match r with
  | Data rows => rows
  | Error _ => []
  end.

(* ================================================================== *)
(** ** State of the embedding *)

Record User := mkUser { user_id : string; email : option string }.
Record Profile := mkProfile { full_name : option string }.

(** What a call of a hook finds around it and does not change. *)
Record Env := mkEnv {
  service : nat -> Reply;         (* the service's answer to its n-th request *)
  clock : string;                 (* [new Date().toISOString()], store NOW() *)
  random : string;                (* [Math.random().toString(36).substring(2)] *)
  default_priority : Priority;    (* store default of cards.priority *)
  default_wip_limit : option Z;   (* store default of columns.wip_limit *)
  boardId : option string;        (* argument of [useBoard] *)
  user : option User;             (* [useAuth()] *)
  profile : option Profile
}.

(** The React state of [useBoard]. *)
Record Hook := mkHook {
  board : option Board.t;
  columns : list ColumnWithCards.t;
  loading : bool;
  error : option string
}.

(** What the embedding records of the effects: round trips to the service,
    calls of [fetchBoard], console lines, and the notifications of the board
    component. *)
Inductive Event :=
| Request (t : Table.t) (write : bool)
| FetchBoard
| ConsoleError (label : string) (e : Js.error)
| ConfettiFire
| ToastSuccess (msg : string).

Record State := mkState {
  env : Env;
  db : Db.t;
  requests : nat;                 (* requests sent to the service so far *)
  hook : Hook;
  boards_error : option string;   (* the [error] state of [useBoards] *)
  trace : list Event
}.

(** *** The monad: state, and exceptions for [throw] *)

Inductive Outcome (A : Type) :=
| Returned (a : A)
| Thrown (e : Js.error).
Arguments Returned {A} a.
Arguments Thrown {A} e.

Definition M (A : Type) : Type := State -> Outcome A * State.

Definition ret {A : Type} (a : A) : M A := fun s => (Returned a, s).

Definition bind {A B : Type} (m : M A) (k : A -> M B) : M B :=
  fun s =>
    match m s with
    | (Returned a, s') => k a s'
    | (Thrown e, s') => (Thrown e, s')
    end.

Definition throw {A : Type} (e : Js.error) : M A := fun s => (Thrown e, s).

Definition try_catch {A : Type} (body : M A) (handler : Js.error -> M A) : M A :=
  fun s =>
    match body s with
    | (Returned a, s') => (Returned a, s')
    | (Thrown e, s') => handler e s'
    end.

Definition finally {A : Type} (body : M A) (cleanup : M unit) : M A :=
  fun s =>
    match body s with
    | (r, s') =>
        match cleanup s' with
        | (Returned _, s'') => (r, s'')
        | (Thrown e, s'') => (Thrown e, s'')
        end
    end.

Declare Scope hook_scope.
Delimit Scope hook_scope with hook.
Notation "x <- m ;; k" := (bind m (fun x => k))
  (at level 61, m at next level, right associativity) : hook_scope.
Notation "m ;; k" := (bind m (fun _ => k))
  (at level 61, right associativity) : hook_scope.
Local Open Scope hook_scope.

Definition get : M State := fun s => (Returned s, s).
Definition modify (f : State -> State) : M unit := fun s => (Returned tt, f s).

Definition with_db (f : Db.t -> Db.t) (s : State) : State :=
  mkState (env s) (f (db s)) (requests s) (hook s) (boards_error s) (trace s).
Definition with_hook (f : Hook -> Hook) (s : State) : State :=
  mkState (env s) (db s) (requests s) (f (hook s)) (boards_error s) (trace s).
Definition with_trace (f : list Event -> list Event) (s : State) : State :=
  mkState (env s) (db s) (requests s) (hook s) (boards_error s) (f (trace s)).
Definition count_request (s : State) : State :=
  mkState (env s) (db s) (S (requests s)) (hook s) (boards_error s) (trace s).
Definition with_boards_error (e : option string) (s : State) : State :=
  mkState (env s) (db s) (requests s) (hook s) e (trace s).

Definition emit (e : Event) : M unit := modify (with_trace (fun t => t ++ [e])).

Definition setBoard (b : option Board.t) : M unit :=
  modify (with_hook (fun h => mkHook b (columns h) (loading h) (error h))).
Definition setColumns (c : list ColumnWithCards.t) : M unit :=
  modify (with_hook (fun h => mkHook (board h) c (loading h) (error h))).
Definition setLoading (l : bool) : M unit :=
  modify (with_hook (fun h => mkHook (board h) (columns h) l (error h))).
Definition setError (e : option string) : M unit :=
  modify (with_hook (fun h => mkHook (board h) (columns h) (loading h) e)).
Definition setBoardsError (e : option string) : M unit :=
  modify (with_boards_error e).

Definition console_error (label : string) (e : Js.error) : M unit :=
  emit (ConsoleError label e).

(** *** One round trip to the service *)

Definition request (t : Table.t) (write : bool) : M Reply :=
  fun s =>
    (Returned (service (env s) (requests s)),
     count_request (with_trace (fun tr => tr ++ [Request t write]) s)).

(** A read: the rows the query selects from the store as it is. *)
Definition select {A : Type} (t : Table.t) (query : Db.t -> list A)
  : M (Response (list A)) :=
  r <- request t false ;;
  match r with
  | Accepted _ => s <- get ;; ret (Data (query (db s)))
  | Rejected e => ret (Error e)
  end.

(** A write without returned rows: [update], [delete], batch [insert],
    [upload], [remove]. *)
Definition write (t : Table.t) (change : (nat -> string) -> Db.t -> Db.t)
  : M (Response unit) :=
  r <- request t true ;;
  match r with
  | Accepted generated => modify (with_db (change generated)) ;; ret (Data tt)
  | Rejected e => ret (Error e)
  end.

(** [.insert(row).select().single()]: the inserted row comes back. *)
Definition insert_returning {A : Type} (t : Table.t) (row : string -> A)
    (store_row : A -> Db.t -> Db.t) : M (Response A) :=
  r <- request t true ;;
  match r with
  | Accepted generated =>
      let inserted := row (generated 0%nat) in
      modify (with_db (store_row inserted)) ;; ret (Data inserted)
  | Rejected e => ret (Error e)
  end.

(** [if (error) throw error] *)
Definition or_throw {A : Type} (r : Response A) : M A :=
  match r with
  | Data d => ret d
  | Error e => throw e
  end.

(* ================================================================== *)
(** ** [useBoard]: fetching *)

(** The seven [let] arrays of [fetchBoard], all initially empty. *)
Record Fetched := mkFetched {
  cardsData : list Card.t;
  subtasksData : list Subtask.t;
  labelsData : list Label.t;
  cardLabelsData : list CardLabel.t;
  attachmentsData : list Attachment.t;
  commentsData : list Comment.t;
  activitiesData : list Activity.t
}.

Definition by_position {A : Type} (position : A -> Z) (a b : A) : bool :=
  position a <=? position b.

Definition latest_first {A : Type} (created_at : A -> string) (a b : A) : bool :=
  String.leb (created_at b) (created_at a).

Definition query_board (boardId : string) (d : Db.t) : list Board.t :=
  filter (fun b => (Board.id b =? boardId)%string) (Db.boards d).

Definition query_columns (boardId : string) (d : Db.t) : list Column.t :=
  Db.order (by_position Column.position)
    (filter (fun c => (Column.board_id c =? boardId)%string) (Db.columns d)).

Definition query_cards (columnIds : list string) (d : Db.t) : list Card.t :=
  Db.order (by_position Card.position)
    (filter (fun c => Js.includes_str columnIds (Card.column_id c)) (Db.cards d)).

Definition query_subtasks (cardIds : list string) (d : Db.t) : list Subtask.t :=
  Db.order (by_position Subtask.position)
    (filter (fun s => Js.includes_str cardIds (Subtask.card_id s)) (Db.subtasks d)).

Definition query_attachments (cardIds : list string) (d : Db.t)
  : list Attachment.t :=
  Db.order (latest_first Attachment.created_at)
    (filter (fun a => Js.includes_str cardIds (Attachment.card_id a))
            (Db.attachments d)).

Definition query_comments (cardIds : list string) (d : Db.t) : list Comment.t :=
  Db.order (latest_first Comment.created_at)
    (filter (fun c => Js.includes_str cardIds (Comment.card_id c))
            (Db.comments d)).

Definition query_activities (cardIds : list string) (d : Db.t)
  : list Activity.t :=
  Db.order (latest_first Activity.created_at)
    (filter (fun a => match Activity.card_id a with
                      | Some c => Js.includes_str cardIds c
                      | None => false
                      end)
            (Db.activities d)).

Definition query_labels (boardId : string) (d : Db.t) : list Label.t :=
  filter (fun l => (Label.board_id l =? boardId)%string) (Db.labels d).

Definition query_card_labels (cardIds : list string) (d : Db.t)
  : list CardLabel.t :=
  filter (fun cl => Js.includes_str cardIds (CardLabel.card_id cl))
         (Db.card_labels d).

(** The block guarded by [columnIds.length > 0]. *)
Definition fetch_cards_and_details (boardId : string) (columnIds : list string)
  : M Fetched :=
  cardsRes <- select Table.cards (query_cards columnIds) ;;
  cardsData <- or_throw cardsRes ;;
  let cardIds := map Card.id cardsData in
  details <-
    (if (0 <? List.length cardIds)%nat then
       subtasks <- select Table.subtasks (query_subtasks cardIds) ;;
       attachments <- select Table.attachments (query_attachments cardIds) ;;
       comments <- select Table.comments (query_comments cardIds) ;;
       activities <- select Table.activities (query_activities cardIds) ;;
       ret (or_empty subtasks, or_empty attachments, or_empty comments,
            or_empty activities)
     else ret ([], [], [], [])) ;;
  labels <- select Table.labels (query_labels boardId) ;;
  cardLabelsData <-
    (if (0 <? List.length cardIds)%nat then
       cardLabels <- select Table.card_labels (query_card_labels cardIds) ;;
       ret (or_empty cardLabels)
     else ret []) ;;
  let '(subtasksData, attachmentsData, commentsData, activitiesData) := details in
  ret (mkFetched cardsData subtasksData (or_empty labels) cardLabelsData
                 attachmentsData commentsData activitiesData).

Definition fetchBoard : M unit :=
  emit FetchBoard ;;
  s <- get ;;
  match boardId (env s) with
  | None => setBoard None ;; setColumns [] ;; setLoading false
  | Some boardId =>
      if negb (Js.truthy boardId) then
        setBoard None ;; setColumns [] ;; setLoading false
      else
        finally
          (try_catch
             (setLoading true ;;
              setError None ;;
              boardRes <- select Table.boards (query_board boardId) ;;
              boardData <- or_throw (single boardRes) ;;
              setBoard (Some boardData) ;;
              columnsRes <- select Table.columns (query_columns boardId) ;;
              columnsData <- or_throw columnsRes ;;
              let columnIds := map Column.id columnsData in
              f <- (if (0 <? List.length columnIds)%nat
                    then fetch_cards_and_details boardId columnIds
                    else ret (mkFetched [] [] [] [] [] [] [])) ;;
              setColumns
                (columnsWithCards columnsData (cardsData f) (cardLabelsData f)
                   (labelsData f) (subtasksData f) (attachmentsData f)
                   (commentsData f) (activitiesData f)))
             (fun err =>
                setError (Some (Js.message_or err "Failed to fetch board")) ;;
                console_error "Error fetching board:" err))
          (setLoading false)
  end.

(** The tables whose change notifications the hook listens to; each
    notification calls [fetchBoard]. *)
Definition subscribed_tables : list Table.t :=
  [Table.columns; Table.cards; Table.attachments; Table.comments;
   Table.activities].

(* ================================================================== *)
(** ** [useBoard]: the activity log *)

Definition logActivity (cardId : string) (actionType : string)
    (details : list (string * Json)) : M unit :=
  try_catch
    (s <- get ;;
     let userName :=
       Js.or_else (match profile (env s) with
                   | Some p => full_name p
                   | None => None
                   end)
         (Js.or_else (match user (env s) with
                      | Some u => email u
                      | None => None
                      end)
            "Bilinmeyen Kullanıcı") in
     let enrichedDetails := details ++ [("userName", JStr userName)] in
     let userId :=
       Js.or_else (match user (env s) with
                   | Some u => Some (user_id u)
                   | None => None
                   end) "anonymous" in
     _ <- write Table.activities
            (fun generated =>
               Db.with_activities
                 (fun rows =>
                    rows ++ [Activity.mk (generated 0%nat) (Some cardId)
                               (boardId (env s)) actionType enrichedDetails
                               (clock (env s)) userId])) ;;
     ret tt)
    (fun err => console_error "Failed to log activity:" err).

(* ================================================================== *)
(** ** [useBoard]: columns *)

Definition addColumn (title : string) : M (option Column.t) :=
  s <- get ;;
  match boardId (env s) with
  | None => ret None
  | Some boardId =>
      if negb (Js.truthy boardId) then ret None
      else
        try_catch
          (let maxPosition :=
             Js.max_or_minus_one
               (map ColumnWithCards.position (columns (hook s))) in
           res <- insert_returning Table.columns
                    (fun id => Column.mk id boardId title (maxPosition + 1)
                                 (default_wip_limit (env s)))
                    (fun row => Db.with_columns (fun rows => rows ++ [row])) ;;
           data <- or_throw res ;;
           fetchBoard ;;
           ret (Some data))
          (fun err =>
             setError (Some (Js.message_or err "Failed to add column")) ;;
             console_error "Error adding column:" err ;;
             ret None)
  end.

Definition updateColumn (columnId : string) (title : string) : M bool :=
  try_catch
    (res <- write Table.columns
              (fun _ =>
                 Db.with_columns
                   (Db.update_where
                      (fun c => (Column.id c =? columnId)%string)
                      (fun c => Column.mk (Column.id c) (Column.board_id c)
                                  title (Column.position c)
                                  (Column.wip_limit c)))) ;;
     or_throw res ;;
     ret true)
    (fun err =>
       setError (Some (Js.message_or err "Failed to update column")) ;;
       console_error "Error updating column:" err ;;
       ret false).

Definition deleteColumn (columnId : string) : M bool :=
  try_catch
    (res <- write Table.columns (fun _ => Db.delete_column columnId) ;;
     or_throw res ;;
     ret true)
    (fun err =>
       setError (Some (Js.message_or err "Failed to delete column")) ;;
       console_error "Error deleting column:" err ;;
       ret false).

Definition reorderColumns (columnId : string) (newPosition : Z) : M bool :=
  try_catch
    (res <- write Table.columns
              (fun _ =>
                 Db.with_columns
                   (Db.update_where
                      (fun c => (Column.id c =? columnId)%string)
                      (fun c => Column.mk (Column.id c) (Column.board_id c)
                                  (Column.title c) newPosition
                                  (Column.wip_limit c)))) ;;
     or_throw res ;;
     ret true)
    (fun err =>
       setError (Some (Js.message_or err "Failed to reorder column")) ;;
       console_error "Error reordering column:" err ;;
       ret false).

(* ================================================================== *)
(** ** [useBoard]: cards *)

Definition addCard (columnId : string) (title : string) : M (option Card.t) :=
  try_catch
    (s <- get ;;
     let column :=
       find (fun c => (ColumnWithCards.id c =? columnId)%string)
            (columns (hook s)) in
     let maxPosition :=
       match column with
       | Some column =>
           Js.max_or_minus_one
             (map (fun c => Card.position (CardWithLabels.card c))
                  (ColumnWithCards.cards column))
       | None => -1
       end in
     res <- insert_returning Table.cards
              (fun id => Card.mk id columnId title None (maxPosition + 1) None
                           (default_priority (env s)) None (clock (env s)))
              (fun row => Db.with_cards (fun rows => rows ++ [row])) ;;
     data <- or_throw res ;;
     logActivity (Card.id data) "create_card" [("title", JStr title)] ;;
     ret (Some data))
    (fun err =>
       setError (Some (Js.message_or err "Failed to add card")) ;;
       console_error "Error adding card:" err ;;
       ret None).

(** [Partial<Pick<Card, 'title' | 'description' | 'due_date' | 'priority'>>] *)
Record CardUpdates := mkCardUpdates {
  new_title : option string;
  new_description : option (option string);
  new_due_date : option (option string);
  new_priority : option Priority
}.

Definition or_keep {A : Type} (new : option A) (old : A) : A :=
  match new with Some v => v | None => old end.

Definition apply_updates (updates : CardUpdates) (now : string) (c : Card.t)
  : Card.t :=
  Card.mk (Card.id c) (Card.column_id c)
    (or_keep (new_title updates) (Card.title c))
    (or_keep (new_description updates) (Card.description c))
    (Card.position c)
    (or_keep (new_due_date updates) (Card.due_date c))
    (or_keep (new_priority updates) (Card.priority c))
    (Card.assigned_to c) now.

Definition json_of_nullable (v : option string) : Json :=
  match v with Some s => JStr s | None => JNull end.

Definition Priority_name (p : Priority) : string :=
  match p with
  | low => "low" | medium => "medium" | high => "high" | critical => "critical"
  end.

Definition json_of_updates (updates : CardUpdates) : list (string * Json) :=
  match new_title updates with Some t => [("title", JStr t)] | None => [] end
  ++ match new_description updates with
     | Some d => [("description", json_of_nullable d)] | None => [] end
  ++ match new_due_date updates with
     | Some d => [("due_date", json_of_nullable d)] | None => [] end
  ++ match new_priority updates with
     | Some p => [("priority", JStr (Priority_name p))] | None => [] end.

Definition updateCard (cardId : string) (updates : CardUpdates) : M bool :=
  try_catch
    (s <- get ;;
     res <- write Table.cards
              (fun _ =>
                 Db.with_cards
                   (Db.update_where
                      (fun c => (Card.id c =? cardId)%string)
                      (apply_updates updates (clock (env s))))) ;;
     or_throw res ;;
     logActivity cardId "update_card" (json_of_updates updates) ;;
     ret true)
    (fun err =>
       setError (Some (Js.message_or err "Failed to update card")) ;;
       console_error "Error updating card:" err ;;
       ret false).

Definition deleteCard (cardId : string) : M bool :=
  try_catch
    (res <- write Table.cards (fun _ => Db.delete_card cardId) ;;
     or_throw res ;;
     ret true)
    (fun err =>
       setError (Some (Js.message_or err "Failed to delete card")) ;;
       console_error "Error deleting card:" err ;;
       ret false).

(** The patch of [moveCard]: [{ column_id, position, updated_at }]. *)
Definition moved (targetColumnId : string) (newPosition : Z) (now : string)
    (c : Card.t) : Card.t :=
  Card.mk (Card.id c) targetColumnId (Card.title c) (Card.description c)
    newPosition (Card.due_date c) (Card.priority c) (Card.assigned_to c) now.

(** [c.cards.some(card => card.id === cardId)] *)
Definition holds_card (cardId : string) (c : ColumnWithCards.t) : bool :=
  existsb (fun card => (CardWithLabels.id card =? cardId)%string)
          (ColumnWithCards.cards c).

Definition moveCard (cardId : string) (targetColumnId : string)
    (newPosition : Z) : M bool :=
  try_catch
    (s <- get ;;
     let columns := columns (hook s) in
     res <- write Table.cards
              (fun _ =>
                 Db.with_cards
                   (Db.update_where
                      (fun c => (Card.id c =? cardId)%string)
                      (moved targetColumnId newPosition (clock (env s))))) ;;
     or_throw res ;;
     let fromCol := find (holds_card cardId) columns in
     let toCol :=
       find (fun c => (ColumnWithCards.id c =? targetColumnId)%string) columns in
     match fromCol, toCol with
     | Some fromCol, Some toCol =>
         if negb (ColumnWithCards.id fromCol =? ColumnWithCards.id toCol)%string
         then logActivity cardId "move_card"
                [("fromColumn", JStr (ColumnWithCards.title fromCol));
                 ("toColumn", JStr (ColumnWithCards.title toCol))]
         else ret tt
     | _, _ => ret tt
     end ;;
     fetchBoard ;;
     ret true)
    (fun err =>
       setError (Some (Js.message_or err "Failed to move card")) ;;
       console_error "Error moving card:" err ;;
       ret false).

Definition assignCard (cardId : string) (userId : option string) : M bool :=
  try_catch
    (res <- write Table.cards
              (fun _ =>
                 Db.with_cards
                   (Db.update_where
                      (fun c => (Card.id c =? cardId)%string)
                      (fun c =>
                         Card.mk (Card.id c) (Card.column_id c) (Card.title c)
                           (Card.description c) (Card.position c)
                           (Card.due_date c) (Card.priority c) userId
                           (Card.updated_at c)))) ;;
     or_throw res ;;
     logActivity cardId "card_assigned"
       [("assigned_to", json_of_nullable userId)] ;;
     ret true)
    (fun err =>
       setError (Some (Js.message_or err "Failed to assign card")) ;;
       console_error "Error assigning card:" err ;;
       ret false).

(* ================================================================== *)
(** ** [useBoard]: comments and attachments *)

Definition addComment (cardId : string) (content : string) : M unit :=
  try_catch
    (s <- get ;;
     res <- write Table.comments
              (fun generated =>
                 Db.with_comments
                   (fun rows =>
                      rows ++ [Comment.mk (generated 0%nat) cardId content
                                 (clock (env s)) "current-user"])) ;;
     or_throw res ;;
     logActivity cardId "add_comment" [("content", JStr content)] ;;
     fetchBoard)
    (fun error =>
       setError (Some (Js.message_or error "Failed to add comment")) ;;
       console_error "Error adding comment:" error ;;
       throw error).

Definition deleteComment (commentId : string) : M unit :=
  try_catch
    (res <- write Table.comments
              (fun _ =>
                 Db.with_comments
                   (Db.delete_where
                      (fun c => (Comment.id c =? commentId)%string))) ;;
     or_throw res ;;
     fetchBoard)
    (fun error =>
       setError (Some (Js.message_or error "Failed to delete comment")) ;;
       console_error "Error deleting comment:" error ;;
       throw error).

(** The fields of a browser [File] the hook reads. *)
Record File := mkFile {
  file_name : string;
  file_type : string;
  file_size : Z
}.

Definition uploadAttachment (cardId : string) (file : File) : M bool :=
  try_catch
    (s <- get ;;
     let fileExt := Js.after_last_dot (file_name file) in
     let fileName := (random (env s) ++ "." ++ fileExt)%string in
     let storagePath := (cardId ++ "/" ++ fileName)%string in
     uploaded <- write Table.storage
                   (fun _ => Db.with_files (fun fs => fs ++ [storagePath])) ;;
     or_throw uploaded ;;
     res <- write Table.attachments
              (fun generated =>
                 Db.with_attachments
                   (fun rows =>
                      rows ++ [Attachment.mk (generated 0%nat) cardId
                                 (file_name file) (file_type file)
                                 (file_size file) storagePath
                                 (clock (env s))])) ;;
     or_throw res ;;
     logActivity cardId "upload_attachment"
       [("fileName", JStr (file_name file))] ;;
     fetchBoard ;;
     ret true)
    (fun err =>
       setError (Some (Js.message_or err "Failed to upload attachment")) ;;
       console_error "Error uploading attachment:" err ;;
       ret false).

Definition deleteAttachment (attachmentId : string) (storagePath : string)
  : M bool :=
  try_catch
    (removed <- write Table.storage
                  (fun _ =>
                     Db.with_files
                       (Db.delete_where
                          (fun p => (p =? storagePath)%string))) ;;
     or_throw removed ;;
     res <- write Table.attachments
              (fun _ =>
                 Db.with_attachments
                   (Db.delete_where
                      (fun a => (Attachment.id a =? attachmentId)%string))) ;;
     or_throw res ;;
     logActivity "" "delete_attachment" [] ;;
     ret true)
    (fun err =>
       setError (Some (Js.message_or err "Failed to delete attachment")) ;;
       console_error "Error deleting attachment:" err ;;
       ret false).

(* ================================================================== *)
(** ** [useBoard]: toggling a subtask, and the automation *)

(** The result object [{ automationMessage?: string }]. *)
Record ToggleResult := mkToggleResult { automationMessage : option string }.

(** [card.subtasks?.find(s => s.id === subtaskId)] *)
Definition find_subtask (subtaskId : string) (card : CardWithLabels.t)
  : option Subtask.t :=
  match CardWithLabels.subtasks card with
  | Some subtasks =>
      find (fun s => (Subtask.id s =? subtaskId)%string) subtasks
  | None => None
  end.

(** The inner loop [for (const card of col.cards)]: at the first card that
    lists the subtask, assign [cardId] and [currentSubtasks] and break. *)
Fixpoint scan_cards (subtaskId : string) (cards : list CardWithLabels.t)
    (found : option string * list Subtask.t) : option string * list Subtask.t :=
  match cards with
  | [] => found
  | card :: rest =>
      match find_subtask subtaskId card with
      | Some _ =>
          (Some (CardWithLabels.id card),
           Js.or_nil (CardWithLabels.subtasks card))
      | None => scan_cards subtaskId rest found
      end
  end.

(** The outer loop [for (const col of columns)], left by [if (cardId) break]. *)
Fixpoint scan_columns (subtaskId : string) (columns : list ColumnWithCards.t)
    (found : option string * list Subtask.t) : option string * list Subtask.t :=
  match columns with
  | [] => found
  | col :: rest =>
      let found' := scan_cards subtaskId (ColumnWithCards.cards col) found in
      if Js.truthy_opt (fst found') then found'
      else scan_columns subtaskId rest found'
  end.

Definition automation_message (doneTitle : string) : string :=
  ("Tüm görevler bitti! Kart " ++ Js.dquote ++ doneTitle ++ Js.dquote
   ++ " sütununa taşındı. 🚀")%string.

Section Automation.

Variable toLowerCase : string -> string.

(** The predicate given to [columns.find] to pick the done column. *)
Definition is_done_column (c : ColumnWithCards.t) : bool :=
  Js.includes (toLowerCase (ColumnWithCards.title c)) "done"
  || Js.includes (toLowerCase (ColumnWithCards.title c)) "tamam"
  || Js.includes (toLowerCase (ColumnWithCards.title c)) "biten".

(** Step 2 of [toggleSubtask]: [Some] of the message when the card was sent
    to the done column, [None] when control falls through to the final
    [fetchBoard(); return {}]. *)
Definition automation (subtaskId : string) (columns : list ColumnWithCards.t)
  : M (option string) :=
  let '(cardId, currentSubtasks) := scan_columns subtaskId columns (None, []) in
  match cardId with
  | Some cardId =>
      if Js.truthy cardId && (0 <? List.length currentSubtasks)%nat then
        let allOthersCompleted :=
          forallb Subtask.is_completed
            (filter (fun s => negb (Subtask.id s =? subtaskId)%string)
                    currentSubtasks) in
        if allOthersCompleted then
          let doneColumn := find is_done_column columns in
          let currentColumn := find (holds_card cardId) columns in
          match doneColumn, currentColumn with
          | Some doneColumn, Some currentColumn =>
              if negb (ColumnWithCards.id doneColumn
                       =? ColumnWithCards.id currentColumn)%string
              then
                moveCard cardId (ColumnWithCards.id doneColumn) 0 ;;
                ret (Some (automation_message
                             (ColumnWithCards.title doneColumn)))
              else ret None
          | _, _ => ret None
          end
        else ret None
      else ret None
  | None => ret None
  end.

Definition toggleSubtask (subtaskId : string) (isCompleted : bool)
  : M ToggleResult :=
  try_catch
    (s <- get ;;
     res <- write Table.subtasks
              (fun _ =>
                 Db.with_subtasks
                   (Db.update_where
                      (fun t => (Subtask.id t =? subtaskId)%string)
                      (fun t => Subtask.mk (Subtask.id t) (Subtask.card_id t)
                                  (Subtask.title t) isCompleted
                                  (Subtask.position t)))) ;;
     or_throw res ;;
     moved_to <- (if isCompleted
                  then automation subtaskId (columns (hook s))
                  else ret None) ;;
     match moved_to with
     | Some message => ret (mkToggleResult (Some message))
     | None => fetchBoard ;; ret (mkToggleResult None)
     end)
    (fun error =>
       setError (Some (Js.message_or error "Failed to toggle subtask")) ;;
       console_error "Error toggling subtask:" error ;;
       ret (mkToggleResult None)).

(** [components/Board]: the handler behind the subtask checkbox. *)
Definition handleToggleSubtask (subtaskId : string) (isCompleted : bool)
  : M unit :=
  result <- toggleSubtask subtaskId isCompleted ;;
  match automationMessage result with
  | Some message =>
      if Js.truthy message
      then emit ConfettiFire ;; emit (ToastSuccess message)
      else ret tt
  | None => ret tt
  end.

(** *** The operations the hook returns, as one interface *)

Inductive Op :=
| op_refetch
| op_addColumn (title : string)
| op_updateColumn (columnId title : string)
| op_deleteColumn (columnId : string)
| op_addCard (columnId title : string)
| op_updateCard (cardId : string) (updates : CardUpdates)
| op_deleteCard (cardId : string)
| op_moveCard (cardId targetColumnId : string) (newPosition : Z)
| op_reorderColumns (columnId : string) (newPosition : Z)
| op_uploadAttachment (cardId : string) (file : File)
| op_deleteAttachment (attachmentId storagePath : string)
| op_addComment (cardId content : string)
| op_deleteComment (commentId : string)
| op_toggleSubtask (subtaskId : string) (isCompleted : bool)
| op_assignCard (cardId : string) (userId : option string).

(** What an operation hands back to its caller. *)
Inductive Value :=
| v_undefined
| v_bool (b : bool)
| v_column (c : option Column.t)
| v_card (c : option Card.t)
| v_toggle (r : ToggleResult).

Definition returning {A : Type} (wrap : A -> Value) (m : M A) : M Value :=
  a <- m ;; ret (wrap a).

Definition run (op : Op) : M Value :=
  match op with
  | op_refetch => returning (fun _ => v_undefined) fetchBoard
  | op_addColumn title => returning v_column (addColumn title)
  | op_updateColumn columnId title =>
      returning v_bool (updateColumn columnId title)
  | op_deleteColumn columnId => returning v_bool (deleteColumn columnId)
  | op_addCard columnId title => returning v_card (addCard columnId title)
  | op_updateCard cardId updates =>
      returning v_bool (updateCard cardId updates)
  | op_deleteCard cardId => returning v_bool (deleteCard cardId)
  | op_moveCard cardId targetColumnId newPosition =>
      returning v_bool (moveCard cardId targetColumnId newPosition)
  | op_reorderColumns columnId newPosition =>
      returning v_bool (reorderColumns columnId newPosition)
  | op_uploadAttachment cardId file =>
      returning v_bool (uploadAttachment cardId file)
  | op_deleteAttachment attachmentId storagePath =>
      returning v_bool (deleteAttachment attachmentId storagePath)
  | op_addComment cardId content =>
      returning (fun _ => v_undefined) (addComment cardId content)
  | op_deleteComment commentId =>
      returning (fun _ => v_undefined) (deleteComment commentId)
  | op_toggleSubtask subtaskId isCompleted =>
      returning v_toggle (toggleSubtask subtaskId isCompleted)
  | op_assignCard cardId userId =>
      returning v_bool (assignCard cardId userId)
  end.

End Automation.

(** The mutating operations: all but the plain refetch. *)
Definition mutating (op : Op) : bool :=
  match op with
  | op_refetch => false
  | _ => true
  end.

(* ================================================================== *)
(** ** [useBoards]: creating a board *)

Definition defaultColumns (boardId : string) (generated : nat -> string)
    (wip : option Z) : list Column.t :=
  [ Column.mk (generated 0%nat) boardId "To Do" 0 wip;
    Column.mk (generated 1%nat) boardId "In Progress" 1 wip;
    Column.mk (generated 2%nat) boardId "Done" 2 wip ].

(** After [if (createError) throw createError] the inserted row [data] is
    there, so the guard [if (data)] of the source is passed.  The result of
    the second insert is awaited and not looked at. *)
Definition createBoard (title : string) (orgId : option string)
  : M (option Board.t) :=
  try_catch
    (s <- get ;;
     let org_id := if Js.truthy_opt orgId then orgId else None in
     res <- insert_returning Table.boards
              (fun id => Board.mk id title org_id)
              (fun row => Db.with_boards (fun rows => rows ++ [row])) ;;
     data <- or_throw res ;;
     _ <- write Table.columns
            (fun generated =>
               Db.with_columns
                 (fun rows =>
                    rows ++ defaultColumns (Board.id data) generated
                              (default_wip_limit (env s)))) ;;
     ret (Some data))
    (fun err =>
       setBoardsError (Some (Js.message_or err "Failed to create board")) ;;
       console_error "Error creating board:" err ;;
       ret None).


(* ================================================================== *)
(** * The rest of the hooks and the components around the board

    What follows embeds the code next to the operations above: the other
    two operations of [useBoards], the handlers of the board component, the
    column and card components, the card modal, the search modal and the
    keyboard shortcuts.  A component's own [useState] cells are a record
    that its handlers take and give back; callbacks handed down as props
    are arguments. *)

(** ** More JavaScript primitives *)

(** [xs.findIndex(p)]: the index of the first element that satisfies [p],
    -1 when there is none. *)
Fixpoint findIndex {A : Type} (p : A -> bool) (xs : list A) : Z :=
  match xs with
  | [] => -1
  | x :: rest =>
      if p x then 0
      else let i := findIndex p rest in
           if i =? -1 then -1 else i + 1
  end.

(** [xs[i]]: [undefined] outside the array. *)
Definition at_index {A : Type} (xs : list A) (i : Z) : option A :=
  if i <? 0 then None else nth_error xs (Z.to_nat i).

(** [s.split('T')[0]]: the text before the first [T]. *)
Fixpoint before_T (s : string) : string :=
  match s with
  | EmptyString => EmptyString
  | String c rest =>
      if (c =? "T")%char then EmptyString else String c (before_T rest)
  end.

(** What [new Date(text).toISOString()] throws on an invalid date. *)
Definition invalid_time_value : Js.error :=
  {| Js.instanceof_Error := true; Js.message := "Invalid time value" |}.

(* ================================================================== *)
(** ** [useBoards]: deleting and renaming a board *)

(** Deleting a board takes its columns, with their cards, and its labels,
    with their card-label rows (ON DELETE CASCADE in the schema file). *)
Definition delete_board (boardId : string) (d : Db.t) : Db.t :=
  let gone_columns :=
    map Column.id
        (filter (fun c => (Column.board_id c =? boardId)%string)
                (Db.columns d)) in
  let d1 := fold_right Db.delete_column d gone_columns in
  let gone_labels :=
    map Label.id
        (filter (fun l => (Label.board_id l =? boardId)%string)
                (Db.labels d1)) in
  Db.mk
    (Db.delete_where (fun b => (Board.id b =? boardId)%string) (Db.boards d1))
    (Db.columns d1) (Db.cards d1)
    (Db.delete_where (fun l => (Label.board_id l =? boardId)%string)
                     (Db.labels d1))
    (Db.delete_where (fun cl => Js.includes_str gone_labels
                                  (CardLabel.label_id cl))
                     (Db.card_labels d1))
    (Db.subtasks d1) (Db.attachments d1) (Db.comments d1) (Db.activities d1)
    (Db.files d1).

Definition deleteBoard (id : string) : M bool :=
  try_catch
    (res <- write Table.boards (fun _ => delete_board id) ;;
     or_throw res ;;
     ret true)
    (fun err =>
       setBoardsError (Some (Js.message_or err "Failed to delete board")) ;;
       console_error "Error deleting board:" err ;;
       ret false).

(** The patch is [{ title, updated_at }]; board rows carry no stamp here. *)
Definition updateBoard (id : string) (title : string) : M bool :=
  try_catch
    (res <- write Table.boards
              (fun _ =>
                 Db.with_boards
                   (Db.update_where
                      (fun b => (Board.id b =? id)%string)
                      (fun b => Board.mk (Board.id b) title (Board.org_id b)))) ;;
     or_throw res ;;
     ret true)
    (fun err =>
       setBoardsError (Some (Js.message_or err "Failed to update board")) ;;
       console_error "Error updating board:" err ;;
       ret false).

(** The three operations [useBoards] returns, as one interface. *)
Inductive BoardsOp :=
| op_createBoard (title : string) (orgId : option string)
| op_deleteBoard (id : string)
| op_updateBoard (id title : string).

Inductive BoardsValue :=
| v_board (b : option Board.t)
| v_done (b : bool).

Definition run_boards (op : BoardsOp) : M BoardsValue :=
  match op with
  | op_createBoard title orgId =>
      b <- createBoard title orgId ;; ret (v_board b)
  | op_deleteBoard id => b <- deleteBoard id ;; ret (v_done b)
  | op_updateBoard id title => b <- updateBoard id title ;; ret (v_done b)
  end.

(* ================================================================== *)
(** ** The board component ([components/Board]): state and handlers *)

Module BoardUi.
Record t := mk {
  isAddingColumn : bool;
  newColumnTitle : string;
  selectedCardId : option string;
  isSearchOpen : bool;
  isDeadlineOpen : bool;
  filterState : FilterState;
  boardLabels : list Label.t
}.
End BoardUi.

Definition setIsAddingColumn (v : bool) (ui : BoardUi.t) : BoardUi.t :=
  BoardUi.mk v (BoardUi.newColumnTitle ui) (BoardUi.selectedCardId ui)
    (BoardUi.isSearchOpen ui) (BoardUi.isDeadlineOpen ui)
    (BoardUi.filterState ui) (BoardUi.boardLabels ui).
Definition setNewColumnTitle (v : string) (ui : BoardUi.t) : BoardUi.t :=
  BoardUi.mk (BoardUi.isAddingColumn ui) v (BoardUi.selectedCardId ui)
    (BoardUi.isSearchOpen ui) (BoardUi.isDeadlineOpen ui)
    (BoardUi.filterState ui) (BoardUi.boardLabels ui).
Definition setSelectedCardId (v : option string) (ui : BoardUi.t) : BoardUi.t :=
  BoardUi.mk (BoardUi.isAddingColumn ui) (BoardUi.newColumnTitle ui) v
    (BoardUi.isSearchOpen ui) (BoardUi.isDeadlineOpen ui)
    (BoardUi.filterState ui) (BoardUi.boardLabels ui).
Definition setIsSearchOpen (v : bool) (ui : BoardUi.t) : BoardUi.t :=
  BoardUi.mk (BoardUi.isAddingColumn ui) (BoardUi.newColumnTitle ui)
    (BoardUi.selectedCardId ui) v (BoardUi.isDeadlineOpen ui)
    (BoardUi.filterState ui) (BoardUi.boardLabels ui).
Definition setBoardLabels (f : list Label.t -> list Label.t) (ui : BoardUi.t)
  : BoardUi.t :=
  BoardUi.mk (BoardUi.isAddingColumn ui) (BoardUi.newColumnTitle ui)
    (BoardUi.selectedCardId ui) (BoardUi.isSearchOpen ui)
    (BoardUi.isDeadlineOpen ui) (BoardUi.filterState ui)
    (f (BoardUi.boardLabels ui)).

(** [columns.reduce((sum, col) => sum + col.cards.length, 0)], the count
    behind both [totalCards] and [filteredCards]. *)
Definition count_cards (columns : list ColumnWithCards.t) : Z :=
  fold_left
    (fun sum col => sum + Z.of_nat (List.length (ColumnWithCards.cards col)))
    columns 0.

Definition totalCards (columns : list ColumnWithCards.t) : Z :=
  count_cards columns.

(** The loop of [findCard]: the first column that has a card of this id
    gives it. *)
Fixpoint findCard (id : string) (columns : list ColumnWithCards.t)
  : option CardWithLabels.t :=
  match columns with
  | [] => None
  | column :: rest =>
      match find (fun c => (CardWithLabels.id c =? id)%string)
                 (ColumnWithCards.cards column) with
      | Some card => Some card
      | None => findCard id rest
      end
  end.

Definition findColumnById (columnId : string)
    (columns : list ColumnWithCards.t) : option ColumnWithCards.t :=
  find (fun col => (ColumnWithCards.id col =? columnId)%string) columns.

Definition handleCardSelect (cardId : string) (ui : BoardUi.t) : BoardUi.t :=
  setIsSearchOpen false (setSelectedCardId (Some cardId) ui).

(** The [onSearch] handler given to the keyboard shortcuts, also behind the
    search button of the header. *)
Definition Board_onSearch (ui : BoardUi.t) : BoardUi.t :=
  setIsSearchOpen true ui.

Inductive Direction := to_left | to_right.

Definition moved_message (columnTitle : string) : string :=
  ("Kart " ++ Js.dquote ++ columnTitle ++ Js.dquote
   ++ " sütununa taşındı")%string.

Definition fetchLabels (ui : BoardUi.t) : M BoardUi.t :=
  s <- get ;;
  match boardId (env s) with
  | None => ret ui
  | Some boardId =>
      if negb (Js.truthy boardId) then ret ui
      else
        res <- select Table.labels (query_labels boardId) ;;
        match res with
        | Data data => ret (setBoardLabels (fun _ => data) ui)
        | Error _ => ret ui
        end
  end.

Definition handleAddCard (columnId : string) (title : string) : M unit :=
  result <- addCard columnId title ;;
  match result with
  | Some _ => emit (ToastSuccess "Kart eklendi")
  | None => ret tt
  end.

(** The card-label row of a card and a label: the store holds at most one
    (primary key). *)
Definition is_card_label (cardId labelId : string) (cl : CardLabel.t) : bool :=
  (CardLabel.card_id cl =? cardId)%string
  && (CardLabel.label_id cl =? labelId)%string.

Definition insert_card_label (cardId labelId : string) (d : Db.t) : Db.t :=
  Db.with_card_labels (fun rows => rows ++ [CardLabel.mk cardId labelId]) d.

(** Neither result is looked at: "Refresh will happen via real-time". *)
Definition handleToggleLabel (cardId labelId : string)
    (currentLabels : list Label.t) : M unit :=
  let hasLabel :=
    existsb (fun l => (Label.id l =? labelId)%string) currentLabels in
  if hasLabel then
    _ <- write Table.card_labels
           (fun _ =>
              Db.with_card_labels
                (Db.delete_where (is_card_label cardId labelId))) ;;
    ret tt
  else
    _ <- write Table.card_labels
           (fun _ => insert_card_label cardId labelId) ;;
    ret tt.

(** Deleting a label takes its card-label rows with it (ON DELETE CASCADE);
    the local list drops the label whatever the store answered. *)
Definition delete_label (labelId : string) (d : Db.t) : Db.t :=
  Db.mk (Db.boards d) (Db.columns d) (Db.cards d)
    (Db.delete_where (fun l => (Label.id l =? labelId)%string) (Db.labels d))
    (Db.delete_where (fun cl => (CardLabel.label_id cl =? labelId)%string)
                     (Db.card_labels d))
    (Db.subtasks d) (Db.attachments d) (Db.comments d) (Db.activities d)
    (Db.files d).

Definition handleDeleteLabel (labelId : string) (ui : BoardUi.t)
  : M BoardUi.t :=
  _ <- write Table.labels (fun _ => delete_label labelId) ;;
  ret (setBoardLabels
         (filter (fun l => negb (Label.id l =? labelId)%string)) ui).

Definition handleDeleteSubtask (subtaskId : string) : M unit :=
  _ <- write Table.subtasks
         (fun _ =>
            Db.with_subtasks
              (Db.delete_where (fun t => (Subtask.id t =? subtaskId)%string))) ;;
  ret tt.

(** The [onSave], [onDelete] and [onAssign] props of the card modal: the
    result of the operation is awaited and not looked at. *)
Definition Board_onSave (cardId : string) (updates : CardUpdates) : M unit :=
  _ <- updateCard cardId updates ;;
  emit (ToastSuccess "Kart güncellendi").

Definition Board_onDelete (cardId : string) : M unit :=
  _ <- deleteCard cardId ;;
  emit (ToastSuccess "Kart silindi").

Definition Board_onAssign (cardId : string) (userId : option string) : M unit :=
  _ <- assignCard cardId userId ;;
  emit (ToastSuccess (if Js.truthy_opt userId then "Kart atandı"
                      else "Atama kaldırıldı")).

Section BoardComponent.

(** [String.prototype.toLowerCase] and [String.prototype.trim], supplied by
    the runtime. *)
Variable toLowerCase : string -> string.
Variable trim : string -> string.

(** The callbacks of one render close over that render's [columns]. *)
Definition checkCardCompletion (columns : list ColumnWithCards.t)
    (_cardId : string) (targetColumnId : string) : M unit :=
  match findColumnById targetColumnId columns with
  | Some targetColumn =>
      if Js.includes (toLowerCase (ColumnWithCards.title targetColumn)) "done"
      then emit ConfettiFire ;; emit (ToastSuccess "🎉 Görev tamamlandı!")
      else ret tt
  | None => ret tt
  end.

Definition handleMoveCardToColumn (cardId : string) (direction : Direction)
  : M unit :=
  s <- get ;;
  let columns := columns (hook s) in
  let currentColumnIndex := findIndex (holds_card cardId) columns in
  if currentColumnIndex =? -1 then ret tt
  else
    let targetColumnIndex :=
      match direction with
      | to_left => currentColumnIndex - 1
      | to_right => currentColumnIndex + 1
      end in
    if (targetColumnIndex <? 0)
       || (Z.of_nat (List.length columns) <=? targetColumnIndex)
    then ret tt
    else
      match at_index columns targetColumnIndex with
      | None => ret tt
      | Some targetColumn =>
          success <- moveCard cardId (ColumnWithCards.id targetColumn) 0 ;;
          if success then
            checkCardCompletion columns cardId
              (ColumnWithCards.id targetColumn) ;;
            emit (ToastSuccess
                    (moved_message (ColumnWithCards.title targetColumn)))
          else ret tt
      end.

Definition handleAddColumn (ui : BoardUi.t) : M BoardUi.t :=
  if Js.truthy (trim (BoardUi.newColumnTitle ui)) then
    result <- addColumn (trim (BoardUi.newColumnTitle ui)) ;;
    match result with
    | Some _ => emit (ToastSuccess "Sütun eklendi")
    | None => ret tt
    end ;;
    ret (setIsAddingColumn false (setNewColumnTitle "" ui))
  else ret ui.

End BoardComponent.

(* ================================================================== *)
(** ** The column component ([components/Column]): its two forms *)

Module ColumnUi.
Record t := mk {
  isEditing : bool;
  title : string;
  isAddingCard : bool;
  newCardTitle : string
}.
End ColumnUi.

Section ColumnComponent.

Variable trim : string -> string.

(** The column as rendered, and the two callbacks the board hands down. *)
Variable column : ColumnWithCards.t.
Variable onUpdateTitle : string -> M unit.
Variable onAddCard : string -> M unit.

Definition Column_handleTitleSave (ui : ColumnUi.t) : M ColumnUi.t :=
  ui' <- (if Js.truthy (trim (ColumnUi.title ui))
             && negb (ColumnUi.title ui =? ColumnWithCards.title column)%string
          then onUpdateTitle (trim (ColumnUi.title ui)) ;; ret ui
          else ret (ColumnUi.mk (ColumnUi.isEditing ui)
                      (ColumnWithCards.title column)
                      (ColumnUi.isAddingCard ui) (ColumnUi.newCardTitle ui))) ;;
  ret (ColumnUi.mk false (ColumnUi.title ui') (ColumnUi.isAddingCard ui')
         (ColumnUi.newCardTitle ui')).

Definition Column_handleAddCard (ui : ColumnUi.t) : M ColumnUi.t :=
  if Js.truthy (trim (ColumnUi.newCardTitle ui)) then
    onAddCard (trim (ColumnUi.newCardTitle ui)) ;;
    ret (ColumnUi.mk (ColumnUi.isEditing ui) (ColumnUi.title ui) false "")
  else ret ui.

End ColumnComponent.

(** The props the board gives to the column it renders:
    [onUpdateTitle={(title) => updateColumn(column.id, title)}] and
    [onAddCard={(title) => handleAddCard(column.id, title)}]. *)
Definition Board_onUpdateTitle (column : ColumnWithCards.t) (title : string)
  : M unit :=
  _ <- updateColumn (ColumnWithCards.id column) title ;;
  ret tt.

Definition Board_onAddCard (column : ColumnWithCards.t) (title : string)
  : M unit :=
  handleAddCard (ColumnWithCards.id column) title.

(* ================================================================== *)
(** ** The card component ([components/Card]) *)

Definition canMoveLeft (columnIndex : Z) : bool := 0 <? columnIndex.

Definition canMoveRight (columnIndex totalColumns : Z) : bool :=
  columnIndex <? totalColumns - 1.

(** [handleMoveLeft] and [handleMoveRight]: the callback runs when the arrow
    is enabled. *)
Definition handleMoveLeft (columnIndex : Z) (onMoveLeft : M unit) : M unit :=
  if canMoveLeft columnIndex then onMoveLeft else ret tt.

Definition handleMoveRight (columnIndex totalColumns : Z)
    (onMoveRight : M unit) : M unit :=
  if canMoveRight columnIndex totalColumns then onMoveRight else ret tt.

(** The subtask badge [completedSubtasks/subtasks.length] and its
    [complete] class. *)
Definition completedSubtasks (card : CardWithLabels.t) : nat :=
  List.length
    (filter Subtask.is_completed (Js.or_nil (CardWithLabels.subtasks card))).

Definition hasSubtasks (card : CardWithLabels.t) : bool :=
  (0 <? List.length (Js.or_nil (CardWithLabels.subtasks card)))%nat.

Definition subtasks_complete (card : CardWithLabels.t) : bool :=
  (completedSubtasks card
   =? List.length (Js.or_nil (CardWithLabels.subtasks card)))%nat.

Module DueDate.
Record t := mk {
  text : string;
  isOverdue : bool;
  isToday : bool
}.
End DueDate.

Section CardComponent.

(** From the runtime, as for the board filter: [startOfDay d] and [today]
    are times in milliseconds; [toLocaleDateString d] is
    [new Date(d).toLocaleDateString('tr-TR', ...)]. *)
Variable startOfDay : string -> option Z.
Variable today : Z.
Variable toLocaleDateString : string -> string.

(** [a.getTime() === t]: false for an invalid date. *)
Definition date_eq (d : option Z) (t : Z) : bool :=
  match d with Some x => x =? t | None => false end.

Definition formatDueDate (date : option string) : option DueDate.t :=
  match date with
  | None => None
  | Some date =>
      if negb (Js.truthy date) then None
      else
        let dueDay := startOfDay date in
        let isOverdue := date_lt dueDay today in
        let isToday := date_eq dueDay today in
        let isTomorrow := date_eq dueDay (today + 86400000) in
        let text := toLocaleDateString date in
        let text := if isToday then "Bugün" else text in
        let text := if isTomorrow then "Yarın" else text in
        Some (DueDate.mk text isOverdue isToday)
  end.

End CardComponent.

(* ================================================================== *)
(** ** The card modal ([components/CardModal]): the draft and its saving *)

Inductive Tab := details | activity.

Module CardDraft.
Record t := mk {
  title : string;
  description : string;
  priority : Priority;
  dueDate : string;
  hasUnsavedChanges : bool;
  activeTab : Tab;
  selectedLabelIds : list string
}.
End CardDraft.

(** [card.due_date?.split('T')[0] || ''] *)
Definition date_part (due_date : option string) : string :=
  Js.or_else (option_map before_T due_date) "".

(** The effect that runs when the modal opens: the draft is the card. *)
Definition CardModal_open (card : CardWithLabels.t) : CardDraft.t :=
  {| CardDraft.title := Card.title (CardWithLabels.card card);
     CardDraft.description :=
       Js.or_else (Card.description (CardWithLabels.card card)) "";
     CardDraft.priority := Card.priority (CardWithLabels.card card);
     CardDraft.dueDate := date_part (Card.due_date (CardWithLabels.card card));
     CardDraft.hasUnsavedChanges := false;
     CardDraft.activeTab := details;
     CardDraft.selectedLabelIds := map Label.id (CardWithLabels.labels card) |}.

(** The argument of [handleChange]: a field with its new value. *)
Inductive Change :=
| change_title (value : string)
| change_description (value : string)
| change_priority (value : Priority)
| change_date (value : string).

Definition handleChange (change : Change) (d : CardDraft.t) : CardDraft.t :=
  match change with
  | change_title v =>
      CardDraft.mk v (CardDraft.description d) (CardDraft.priority d)
        (CardDraft.dueDate d) true (CardDraft.activeTab d)
        (CardDraft.selectedLabelIds d)
  | change_description v =>
      CardDraft.mk (CardDraft.title d) v (CardDraft.priority d)
        (CardDraft.dueDate d) true (CardDraft.activeTab d)
        (CardDraft.selectedLabelIds d)
  | change_priority v =>
      CardDraft.mk (CardDraft.title d) (CardDraft.description d) v
        (CardDraft.dueDate d) true (CardDraft.activeTab d)
        (CardDraft.selectedLabelIds d)
  | change_date v =>
      CardDraft.mk (CardDraft.title d) (CardDraft.description d)
        (CardDraft.priority d) v true (CardDraft.activeTab d)
        (CardDraft.selectedLabelIds d)
  end.

Section CardModal.

(** [new Date(text).toISOString()], supplied by the runtime: [None] when
    the text is no date, where the call throws a [RangeError]. *)
Variable toISOString : string -> option string.

(** The object handed to [onSave]: the title and the priority always, the
    description when it is not empty, the due date or [null]. *)
Definition draft_updates (d : CardDraft.t) (due_date : option string)
  : CardUpdates :=
  {| new_title := Some (CardDraft.title d);
     new_description :=
       if Js.truthy (CardDraft.description d)
       then Some (Some (CardDraft.description d)) else None;
     new_due_date := Some due_date;
     new_priority := Some (CardDraft.priority d) |}.

Definition draft_changed (card : CardWithLabels.t) (d : CardDraft.t) : bool :=
  let titleChanged :=
    negb (CardDraft.title d =? Card.title (CardWithLabels.card card))%string in
  let descChanged :=
    negb (CardDraft.description d
          =? Js.or_else (Card.description (CardWithLabels.card card)) "")%string in
  let priorityChanged :=
    negb (Priority_eqb (CardDraft.priority d)
                       (Card.priority (CardWithLabels.card card))) in
  let dateChanged :=
    negb (CardDraft.dueDate d
          =? date_part (Card.due_date (CardWithLabels.card card)))%string in
  titleChanged || descChanged || priorityChanged || dateChanged.

Definition CardModal_handleSave (card : CardWithLabels.t)
    (onSave : string -> CardUpdates -> M unit)
    (onClose : BoardUi.t -> BoardUi.t)
    (d : CardDraft.t) (ui : BoardUi.t) : M (CardDraft.t * BoardUi.t) :=
  (if draft_changed card d then
     due_date <-
       (if Js.truthy (CardDraft.dueDate d) then
          match toISOString (CardDraft.dueDate d) with
          | Some iso => ret (Some iso)
          | None => throw invalid_time_value
          end
        else ret None) ;;
     onSave (CardWithLabels.id card) (draft_updates d due_date)
   else ret tt) ;;
  ret (CardDraft.mk (CardDraft.title d) (CardDraft.description d)
         (CardDraft.priority d) (CardDraft.dueDate d) false
         (CardDraft.activeTab d) (CardDraft.selectedLabelIds d),
       onClose ui).

(** The save button of the footer, [onClick={handleSave}] with
    [disabled={!hasUnsavedChanges}], the only caller of [handleSave]: a
    click on the disabled button does nothing. *)
Definition CardModal_saveButton (card : CardWithLabels.t)
    (onSave : string -> CardUpdates -> M unit)
    (onClose : BoardUi.t -> BoardUi.t)
    (d : CardDraft.t) (ui : BoardUi.t) : M (CardDraft.t * BoardUi.t) :=
  if CardDraft.hasUnsavedChanges d
  then CardModal_handleSave card onSave onClose d ui
  else ret (d, ui).

End CardModal.

(** [onClose={() => setSelectedCardId(null)}] *)
Definition Board_onClose (ui : BoardUi.t) : BoardUi.t :=
  setSelectedCardId None ui.

(* ================================================================== *)
(** ** The search modal ([components/SearchModal]) *)

Module SearchResult.
Record t := mk {
  card : CardWithLabels.t;
  columnTitle : string
}.
End SearchResult.

Module SearchUi.
Record t := mk {
  query : string;
  results : list SearchResult.t;
  selectedIndex : Z
}.
End SearchUi.

Inductive Key := ArrowDown | ArrowUp | Enter | Escape | OtherKey.

Section SearchModal.

Variable toLowerCase : string -> string.
Variable trim : string -> string.

(** The two nested [forEach] loops with their [push]. *)
Definition matchingCards (searchQuery : string)
    (columns : list ColumnWithCards.t) : list SearchResult.t :=
  fold_left
    (fun acc column =>
       fold_left
         (fun acc card =>
            let titleMatch :=
              Js.includes
                (toLowerCase (Card.title (CardWithLabels.card card)))
                searchQuery in
            let descMatch :=
              match Card.description (CardWithLabels.card card) with
              | Some d => Js.includes (toLowerCase d) searchQuery
              | None => false
              end in
            if titleMatch || descMatch
            then acc ++ [SearchResult.mk card (ColumnWithCards.title column)]
            else acc)
         (ColumnWithCards.cards column) acc)
    columns [].

(** The effect on [query] and [columns]. *)
Definition SearchModal_search (columns : list ColumnWithCards.t)
    (ui : SearchUi.t) : SearchUi.t :=
  if negb (Js.truthy (trim (SearchUi.query ui))) then
    SearchUi.mk (SearchUi.query ui) [] (SearchUi.selectedIndex ui)
  else
    SearchUi.mk (SearchUi.query ui)
      (matchingCards (toLowerCase (SearchUi.query ui)) columns) 0.

(** The effect on [isOpen], followed by the search effect its [setQuery]
    sets off. *)
Definition SearchModal_open (columns : list ColumnWithCards.t) : SearchUi.t :=
  SearchModal_search columns (SearchUi.mk "" [] 0).

(** [onChange={(e) => setQuery(e.target.value)}], with the search effect. *)
Definition SearchModal_setQuery (columns : list ColumnWithCards.t)
    (value : string) (ui : SearchUi.t) : SearchUi.t :=
  SearchModal_search columns
    (SearchUi.mk value (SearchUi.results ui) (SearchUi.selectedIndex ui)).

Definition SearchModal_handleKeyDown
    (onCardSelect : string -> BoardUi.t -> BoardUi.t)
    (onClose : BoardUi.t -> BoardUi.t)
    (key : Key) (ui : SearchUi.t) (board : BoardUi.t)
  : SearchUi.t * BoardUi.t :=
  match key with
  | ArrowDown =>
      (SearchUi.mk (SearchUi.query ui) (SearchUi.results ui)
         (let prev := SearchUi.selectedIndex ui in
          if prev <? Z.of_nat (List.length (SearchUi.results ui)) - 1
          then prev + 1 else prev),
       board)
  | ArrowUp =>
      (SearchUi.mk (SearchUi.query ui) (SearchUi.results ui)
         (let prev := SearchUi.selectedIndex ui in
          if 0 <? prev then prev - 1 else prev),
       board)
  | Enter =>
      match at_index (SearchUi.results ui) (SearchUi.selectedIndex ui) with
      | Some result =>
          (ui, onClose (onCardSelect
                          (CardWithLabels.id (SearchResult.card result)) board))
      | None => (ui, board)
      end
  | Escape => (ui, onClose board)
  | OtherKey => (ui, board)
  end.

Definition SearchModal_handleResultClick
    (onCardSelect : string -> BoardUi.t -> BoardUi.t)
    (onClose : BoardUi.t -> BoardUi.t)
    (cardId : string) (board : BoardUi.t) : BoardUi.t :=
  onClose (onCardSelect cardId board).

(** The board renders the modal with
    [onClose={() => setIsSearchOpen(false)}] and
    [onCardSelect={handleCardSelect}]. *)
Definition Board_closeSearch (ui : BoardUi.t) : BoardUi.t :=
  setIsSearchOpen false ui.

(** What can happen to the search modal of a board: it is opened, text is
    typed, a key is pressed, the [i]-th result shown is clicked, and the
    board's columns change under it. *)
Inductive SearchEvent :=
| Opened
| Typed (value : string)
| Pressed (key : Key)
| Clicked (i : nat)
| Refetched (columns : list ColumnWithCards.t).

(** One event: the effects run whether the modal shows or not, the input
    and the results take events only while it shows
    ([if (!isOpen) return null]). *)
Definition SearchModal_step (ev : SearchEvent)
    (st : list ColumnWithCards.t * SearchUi.t * BoardUi.t)
  : list ColumnWithCards.t * SearchUi.t * BoardUi.t :=
  let '(columns, ui, board) := st in
  match ev with
  | Opened =>
      if BoardUi.isSearchOpen board then st
      else (columns, SearchModal_open columns, Board_onSearch board)
  | Refetched columns' => (columns', SearchModal_search columns' ui, board)
  | Typed value =>
      if BoardUi.isSearchOpen board
      then (columns, SearchModal_setQuery columns value ui, board)
      else st
  | Pressed key =>
      if BoardUi.isSearchOpen board then
        let '(ui', board') :=
          SearchModal_handleKeyDown handleCardSelect Board_closeSearch
            key ui board in
        (columns, ui', board')
      else st
  | Clicked i =>
      if BoardUi.isSearchOpen board then
        match nth_error (SearchUi.results ui) i with
        | Some result =>
            (columns, ui,
             SearchModal_handleResultClick handleCardSelect Board_closeSearch
               (CardWithLabels.id (SearchResult.card result)) board)
        | None => st
        end
      else st
  end.

End SearchModal.

(* ================================================================== *)
(** ** The keyboard shortcuts ([hooks/useKeyboardShortcuts]) *)

Module KeyboardEvent.
Record t := mk {
  key : string;
  ctrlKey : bool;
  metaKey : bool;
  shiftKey : bool;
  target_tagName : string;
  target_isContentEditable : bool
}.
End KeyboardEvent.

(** [ShortcutHandlers]: every handler is optional, and the components that
    use the hook give some of them only.  A handler is a callback of the
    component, acting on the state [St] of that component. *)
Module ShortcutHandlers.
Record t (St : Type) := mk {
  onNewBoard : option (St -> St);
  onNewCard : option (St -> St);
  onSearch : option (St -> St);
  onToggleTheme : option (St -> St);
  onEscape : option (St -> St);
  onUndo : option (St -> St);
  onRedo : option (St -> St)
}.
Arguments mk {St}.
Arguments onNewBoard {St}.
Arguments onNewCard {St}.
Arguments onSearch {St}.
Arguments onToggleTheme {St}.
Arguments onEscape {St}.
Arguments onUndo {St}.
Arguments onRedo {St}.
End ShortcutHandlers.

(** [handlers.onX?.()] *)
Definition call_if_given {St : Type} (handler : option (St -> St)) (st : St)
  : St :=
  match handler with
  | Some f => f st
  | None => st
  end.

(** What [handleKeyDown] does with an event: the state after the handler it
    called, if it called one, and whether it called
    [event.preventDefault()]. *)
Definition handleKeyDown {St : Type} (handlers : ShortcutHandlers.t St)
    (event : KeyboardEvent.t) (st : St) : St * bool :=
  let isInputFocused :=
    (KeyboardEvent.target_tagName event =? "INPUT")%string
    || (KeyboardEvent.target_tagName event =? "TEXTAREA")%string
    || KeyboardEvent.target_isContentEditable event in
  let key := KeyboardEvent.key event in
  if (key =? "Escape")%string
  then (call_if_given (ShortcutHandlers.onEscape handlers) st, false)
  else if isInputFocused then (st, false)
  else
    let isCtrlOrCmd :=
      KeyboardEvent.ctrlKey event || KeyboardEvent.metaKey event in
    if isCtrlOrCmd && (key =? "b")%string
    then (call_if_given (ShortcutHandlers.onNewBoard handlers) st, true)
    else if isCtrlOrCmd && (key =? "n")%string
    then (call_if_given (ShortcutHandlers.onNewCard handlers) st, true)
    else if (isCtrlOrCmd && (key =? "k")%string) || (key =? "/")%string
    then (call_if_given (ShortcutHandlers.onSearch handlers) st, true)
    else if isCtrlOrCmd && (key =? "d")%string
    then (call_if_given (ShortcutHandlers.onToggleTheme handlers) st, true)
    else if isCtrlOrCmd && (key =? "z")%string
            && negb (KeyboardEvent.shiftKey event)
    then (call_if_given (ShortcutHandlers.onUndo handlers) st, true)
    else if (isCtrlOrCmd && KeyboardEvent.shiftKey event && (key =? "z")%string)
            || (isCtrlOrCmd && (key =? "y")%string)
    then (call_if_given (ShortcutHandlers.onRedo handlers) st, true)
    else (st, false).

(** A component that gives no handler at all. *)
Definition no_handlers {St : Type} : ShortcutHandlers.t St :=
  ShortcutHandlers.mk None None None None None None None.

(* ================================================================== *)
(** * Vocabulary of the claims *)

(** ** Order *)

(** Ascending by a key: every element is at most every later one. *)
Definition ascending {A : Type} (key : A -> Z) (l : list A) : Prop :=
  StronglySorted (fun a b => key a <= key b) l.

(** The view model is ordered: its columns by position, and within each
    column its cards by position. *)
Definition view_ordered (view : list ColumnWithCards.t) : Prop :=
  ascending ColumnWithCards.position view
  /\ Forall (fun col =>
               ascending (fun w => Card.position (CardWithLabels.card w))
                         (ColumnWithCards.cards col))
            view.

(** [p] is one more than the greatest of [ps], and 0 when there is none. *)
Definition next_position (ps : list Z) (p : Z) : Prop :=
  match ps with
  | [] => p = 0
  | _ => exists m, In m ps /\ (forall x, In x ps -> x <= m) /\ p = m + 1
  end.

(** The service accepts whatever it is asked. *)
Definition accepts_all (s : State) : Prop :=
  forall n, exists generated, service (env s) n = Accepted generated.

(** The view model of a board as the store has it: what [fetchBoard] combines
    when every query is answered. *)
Definition view_of_store (boardId : string) (d : Db.t)
  : list ColumnWithCards.t :=
  let columnsData := query_columns boardId d in
  let columnIds := map Column.id columnsData in
  if (0 <? List.length columnIds)%nat then
    let cardsData := query_cards columnIds d in
    let cardIds := map Card.id cardsData in
    if (0 <? List.length cardIds)%nat then
      columnsWithCards columnsData cardsData (query_card_labels cardIds d)
        (query_labels boardId d) (query_subtasks cardIds d)
        (query_attachments cardIds d) (query_comments cardIds d)
        (query_activities cardIds d)
    else
      columnsWithCards columnsData cardsData [] (query_labels boardId d)
        [] [] [] []
  else columnsWithCards columnsData [] [] [] [] [] [] [].

(** The hook shows the store: its view model is the view of the board as the
    store has it (when the store has the board). *)
Definition shows_store (s : State) : Prop :=
  forall board b,
    boardId (env s) = Some board -> Js.truthy board = true ->
    query_board board (db s) = [b] ->
    columns (hook s) = view_of_store board (db s).

(** ** Boards and limits *)

(** The three rows are the default columns of board [b]. *)
Definition default_columns_of (b : Board.t) (c1 c2 c3 : Column.t) : Prop :=
  Column.board_id c1 = Board.id b /\ Column.title c1 = "To Do"
  /\ Column.position c1 = 0
  /\ Column.board_id c2 = Board.id b /\ Column.title c2 = "In Progress"
  /\ Column.position c2 = 1
  /\ Column.board_id c3 = Board.id b /\ Column.title c3 = "Done"
  /\ Column.position c3 = 2.

(** The cards the store holds in a column. *)
Definition cards_in (d : Db.t) (column : Column.t) : list Card.t :=
  filter (fun c => (Card.column_id c =? Column.id column)%string) (Db.cards d).

(** No limited column holds more cards than its limit. *)
Definition within_wip_limits (d : Db.t) : Prop :=
  forall column limit,
    In column (Db.columns d) ->
    Column.wip_limit column = Some limit ->
    Z.of_nat (List.length (cards_in d column)) <= limit.

(** ** The subtask automation *)

(** The card lists the subtask. *)
Definition lists_subtask (subtaskId : string) (card : CardWithLabels.t) : Prop :=
  In subtaskId (map Subtask.id (Js.or_nil (CardWithLabels.subtasks card))).

(** All the subtasks of the card other than the given one are complete. *)
Definition siblings_complete (subtaskId : string) (card : CardWithLabels.t)
  : Prop :=
  forall t, In t (Js.or_nil (CardWithLabels.subtasks card)) ->
            Subtask.id t <> subtaskId -> Subtask.is_completed t = true.

(** The case in which the automation moves the card: some card of the
    board lists the subtask, its other subtasks are complete, and the
    first column whose title matches is not a column that holds the
    card. *)
Definition automation_case (toLowerCase : string -> string)
    (columns : list ColumnWithCards.t) (subtaskId : string) : Prop :=
  exists card done current,
    (exists col, In col columns /\ In card (ColumnWithCards.cards col))
    /\ lists_subtask subtaskId card
    /\ siblings_complete subtaskId card
    /\ find (is_done_column toLowerCase) columns = Some done
    /\ In current columns
    /\ holds_card (CardWithLabels.id card) current = true
    /\ ColumnWithCards.id done <> ColumnWithCards.id current.

(** ** Operations of the hook *)

(** The operations that call [fetchBoard] themselves. *)
Definition refetches (op : Op) : bool :=
  match op with
  | op_refetch | op_addColumn _ | op_moveCard _ _ _
  | op_addComment _ _ | op_deleteComment _
  | op_uploadAttachment _ _ | op_toggleSubtask _ _ => true
  | _ => false
  end.

(** The table a non-refetching operation writes to. *)
Definition written_table (op : Op) : Table.t :=
  match op with
  | op_updateColumn _ _ | op_deleteColumn _ | op_reorderColumns _ _ =>
      Table.columns
  | op_deleteAttachment _ _ => Table.attachments
  | _ => Table.cards
  end.

(** The events recorded between two states. *)
Definition new_events (s s' : State) : list Event :=
  skipn (List.length (trace s)) (trace s').

(** The two operations whose [catch] block ends in [throw error]. *)
Definition rethrows (op : Op) : bool :=
  match op with
  | op_addComment _ _ | op_deleteComment _ => true
  | _ => false
  end.

(** What an operation hands back from its [catch] block. *)
Definition failure_value (op : Op) : Value :=
  match op with
  | op_refetch | op_addComment _ _ | op_deleteComment _ => v_undefined
  | op_addColumn _ => v_column None
  | op_addCard _ _ => v_card None
  | op_toggleSubtask _ _ => v_toggle {| automationMessage := None |}
  | _ => v_bool false
  end.

(** The message an operation falls back on when the error carries none. *)
Definition failure_message (op : Op) : string :=
  match op with
  | op_refetch => "Failed to fetch board"
  | op_addColumn _ => "Failed to add column"
  | op_updateColumn _ _ => "Failed to update column"
  | op_deleteColumn _ => "Failed to delete column"
  | op_addCard _ _ => "Failed to add card"
  | op_updateCard _ _ => "Failed to update card"
  | op_deleteCard _ => "Failed to delete card"
  | op_moveCard _ _ _ => "Failed to move card"
  | op_reorderColumns _ _ => "Failed to reorder column"
  | op_uploadAttachment _ _ => "Failed to upload attachment"
  | op_deleteAttachment _ _ => "Failed to delete attachment"
  | op_addComment _ _ => "Failed to add comment"
  | op_deleteComment _ => "Failed to delete comment"
  | op_toggleSubtask _ _ => "Failed to toggle subtask"
  | op_assignCard _ _ => "Failed to assign card"
  end.

(** The label of the console line an operation writes. *)
Definition console_label (op : Op) : string :=
  match op with
  | op_refetch => "Error fetching board:"
  | op_addColumn _ => "Error adding column:"
  | op_updateColumn _ _ => "Error updating column:"
  | op_deleteColumn _ => "Error deleting column:"
  | op_addCard _ _ => "Error adding card:"
  | op_updateCard _ _ => "Error updating card:"
  | op_deleteCard _ => "Error deleting card:"
  | op_moveCard _ _ _ => "Error moving card:"
  | op_reorderColumns _ _ => "Error reordering column:"
  | op_uploadAttachment _ _ => "Error uploading attachment:"
  | op_deleteAttachment _ _ => "Error deleting attachment:"
  | op_addComment _ _ => "Error adding comment:"
  | op_deleteComment _ => "Error deleting comment:"
  | op_toggleSubtask _ _ => "Error toggling subtask:"
  | op_assignCard _ _ => "Error assigning card:"
  end.

(** [fetchBoard] and [addColumn] return at once, without a request, when
    the hook has no board id; the other operations always send their first
    request. *)
Definition sends_requests (op : Op) (s : State) : bool :=
  match op with
  | op_refetch | op_addColumn _ => Js.truthy_opt (boardId (env s))
  | _ => true
  end.

(** The board row of the hook's board id comes back alone, so that
    [.single()] hands it over. *)
Definition board_row_found (s : State) : bool :=
  match boardId (env s) with
  | Some id =>
      match query_board id (db s) with
      | [_] => true
      | _ => false
      end
  | None => false
  end.

Definition board_has_columns (s : State) : bool :=
  match boardId (env s) with
  | Some id => (0 <? List.length (query_columns id (db s)))%nat
  | None => false
  end.

(** The requests whose [error] field an operation reads and throws,
    counted from 0 in the order the operation sends them: the first
    request of every operation; in [fetchBoard] also the query for the
    columns (sent once the board row is there) and the query for the cards
    (sent when there are columns); in [uploadAttachment] and
    [deleteAttachment] also the insert and the deletion of the row, which
    follow the storage step. *)
Definition reads_error (op : Op) (s : State) (k : nat) : bool :=
  match k, op with
  | O, _ => true
  | 1%nat, op_refetch => board_row_found s
  | 2%nat, op_refetch => board_row_found s && board_has_columns s
  | 1%nat, op_uploadAttachment _ _ => true
  | 1%nat, op_deleteAttachment _ _ => true
  | _, _ => false
  end.

(** ** The claims that do not hold, as the specification words them *)

(** C1 as the specification words it: it is enough that some column whose
    title matches differs from the column of the card. *)
Definition automation_moves_to_any_match (toLowerCase : string -> string)
  : Prop :=
  forall s subtaskId col card done generated generated',
    In col (columns (hook s)) -> In card (ColumnWithCards.cards col) ->
    lists_subtask subtaskId card ->
    siblings_complete subtaskId card ->
    In done (columns (hook s)) ->
    is_done_column toLowerCase done = true ->
    ColumnWithCards.id done <> ColumnWithCards.id col ->
    service (env s) (requests s) = Accepted generated ->
    service (env s) (S (requests s)) = Accepted generated' ->
    fst (toggleSubtask toLowerCase subtaskId true s)
    = Returned {| automationMessage :=
                    Some (automation_message (ColumnWithCards.title done)) |}
    /\ forall c,
         In c (Db.cards (db (snd (toggleSubtask toLowerCase subtaskId true s)))) ->
         Card.id c = CardWithLabels.id card ->
         Card.column_id c = ColumnWithCards.id done /\ Card.position c = 0.

(** C3 as the specification words it: every mutating operation, when it
    succeeds, calls for a refetch. *)
Definition every_mutation_refetches (toLowerCase : string -> string) : Prop :=
  forall op s,
    mutating op = true -> accepts_all s ->
    Js.truthy_opt (boardId (env s)) = true ->
    In FetchBoard (new_events s (snd (run toLowerCase op s))).

(** C4 as the specification words it, for [moveCard]: a move never fills a
    column beyond its limit. *)
Definition moveCard_respects_wip_limits : Prop :=
  forall s cardId targetColumnId newPosition,
    within_wip_limits (db s) ->
    within_wip_limits
      (db (snd (moveCard cardId targetColumnId newPosition s))).

(** C5 as the specification words it, in its last part: no operation lets
    an exception reach its caller. *)
Definition no_operation_rethrows (toLowerCase : string -> string) : Prop :=
  forall op s, exists v, fst (run toLowerCase op s) = Returned v.

(** C10 as the specification words it: whenever [createBoard] hands back a
    board, exactly three default columns have been created with it. *)
Definition createBoard_always_adds_defaults : Prop :=
  forall s title orgId b,
    fst (createBoard title orgId s) = Returned (Some b) ->
    exists c1 c2 c3,
      Db.columns (db (snd (createBoard title orgId s)))
      = Db.columns (db s) ++ [c1; c2; c3]
      /\ default_columns_of b c1 c2 c3.


(* ================================================================== *)
(** * Vocabulary of the further properties *)

(** What the client hands back for a query the service answered with [r]. *)
Definition response {A : Type} (r : Reply) (rows : list A)
  : Response (list A) :=
  match r with
  | Accepted _ => Data rows
  | Rejected e => Error e
  end.

(** The state after one round trip. *)
Definition asked (t : Table.t) (write : bool) (s : State) : State :=
  count_request (with_trace (fun tr => tr ++ [Request t write]) s).

(** What the hook shows, error message and columns. *)
Definition shown (s : State) : option string * list ColumnWithCards.t :=
  (error (hook s), columns (hook s)).

(** The operations whose last step, once their write is accepted, is to
    log the activity. *)
Definition logs_last (op : Op) : bool :=
  match op with
  | op_addCard _ _ | op_updateCard _ _ | op_assignCard _ _ => true
  | _ => false
  end.

(** What an operation of [useBoards] hands back from its [catch] block, the
    message it falls back on, and the label of its console line. *)
Definition boards_failure_value (op : BoardsOp) : BoardsValue :=
  match op with
  | op_createBoard _ _ => v_board None
  | _ => v_done false
  end.

Definition boards_failure_message (op : BoardsOp) : string :=
  match op with
  | op_createBoard _ _ => "Failed to create board"
  | op_deleteBoard _ => "Failed to delete board"
  | op_updateBoard _ _ => "Failed to update board"
  end.

Definition boards_console_label (op : BoardsOp) : string :=
  match op with
  | op_createBoard _ _ => "Error creating board:"
  | op_deleteBoard _ => "Error deleting board:"
  | op_updateBoard _ _ => "Error updating board:"
  end.

(** The column beside a column of the view, given the columns before it
    and after it. *)
Definition neighbour (direction : Direction)
    (before after : list ColumnWithCards.t) : option ColumnWithCards.t :=
  match direction with
  | to_left => hd_error (rev before)
  | to_right => hd_error after
  end.

(** The target column that [handleMoveCardToColumn] computes, when it
    finds one. *)
Definition move_target (columns : list ColumnWithCards.t) (cardId : string)
    (direction : Direction) : option ColumnWithCards.t :=
  let currentColumnIndex := findIndex (holds_card cardId) columns in
  if currentColumnIndex =? -1 then None
  else
    let targetColumnIndex :=
      match direction with
      | to_left => currentColumnIndex - 1
      | to_right => currentColumnIndex + 1
      end in
    if (targetColumnIndex <? 0)
       || (Z.of_nat (List.length columns) <=? targetColumnIndex)
    then None
    else at_index columns targetColumnIndex.

(** The notifications among the events: confetti and toasts. *)
Definition is_notice (e : Event) : bool :=
  match e with
  | ConfettiFire | ToastSuccess _ => true
  | _ => false
  end.

Definition notices (evs : list Event) : list Event := filter is_notice evs.

Definition quiet (e : Event) : Prop := is_notice e = false.

(** The celebration of [checkCardCompletion] for a target column, as a list
    of events: the first column of the view with the target's id decides. *)
Definition celebration (toLowerCase : string -> string)
    (columns : list ColumnWithCards.t) (targetColumn : ColumnWithCards.t)
  : list Event :=
  match findColumnById (ColumnWithCards.id targetColumn) columns with
  | Some column =>
      if Js.includes (toLowerCase (ColumnWithCards.title column)) "done"
      then [ConfettiFire; ToastSuccess "🎉 Görev tamamlandı!"]
      else []
  | None => []
  end.

(** Whether the card component enables the arrow of a direction. *)
Definition arrow_enabled (direction : Direction) (columnIndex totalColumns : Z)
  : bool :=
  match direction with
  | to_left => canMoveLeft columnIndex
  | to_right => canMoveRight columnIndex totalColumns
  end.

(** No column of the store has an empty title. *)
Definition columns_titled (d : Db.t) : Prop :=
  forall c, In c (Db.columns d) -> Js.truthy (Column.title c) = true.

(** A run of the search modal: the events in order. *)
Definition search_run (toLowerCase trim : string -> string)
    (events : list SearchEvent)
    (st : list ColumnWithCards.t * SearchUi.t * BoardUi.t)
  : list ColumnWithCards.t * SearchUi.t * BoardUi.t :=
  fold_left (fun st ev => SearchModal_step toLowerCase trim ev st) events st.

(** The selection of the search modal points at one of its results, when
    it has any, and the results are cards of the columns it was given. *)
Definition search_consistent
    (st : list ColumnWithCards.t * SearchUi.t * BoardUi.t) : Prop :=
  let '(columns, ui, _) := st in
  0 <= SearchUi.selectedIndex ui
  /\ (SearchUi.results ui <> [] ->
      SearchUi.selectedIndex ui
      < Z.of_nat (List.length (SearchUi.results ui)))
  /\ Forall (fun r =>
               exists column,
                 In column columns
                 /\ In (SearchResult.card r) (ColumnWithCards.cards column)
                 /\ SearchResult.columnTitle r = ColumnWithCards.title column)
            (SearchUi.results ui).

(** A click on an arrow of a card: the card's own handler, with the
    callback the board hands down. *)
Definition arrow_click (direction : Direction) (columnIndex totalColumns : Z)
    (onMove : M unit) : M unit :=
  match direction with
  | to_left => handleMoveLeft columnIndex onMove
  | to_right => handleMoveRight columnIndex totalColumns onMove
  end.


(* ================================================================== *)
(** ** Sample boards, for the examples below *)

(** Lower-casing of the letters A-Z, which is what [toLowerCase] does on
    titles written in ASCII. *)
Definition lower_ascii (c : ascii) : ascii :=
  let n := nat_of_ascii c in
  if (65 <=? n)%nat && (n <=? 90)%nat then ascii_of_nat (n + 32) else c.

Fixpoint ascii_toLowerCase (s : string) : string :=
  match s with
  | EmptyString => EmptyString
  | String c rest => String (lower_ascii c) (ascii_toLowerCase rest)
  end.

Module Sample.

(** The identifier the store gives to the [k]-th row of its [n]-th
    request. *)
Definition generated (n k : nat) : string :=
  String (ascii_of_nat (97 + n)) (String (ascii_of_nat (48 + k)) EmptyString).

(** A service that accepts every request. *)
Definition accepting (n : nat) : Reply := Accepted (generated n).

Definition refusal : Js.error :=
  {| Js.instanceof_Error := true; Js.message := "permission denied" |}.

(** A service that rejects its [k]-th request and accepts the others. *)
Definition rejecting (k n : nat) : Reply :=
  if (n =? k)%nat then Rejected refusal else accepting n.

(** The error of a rejected table request: a plain object. *)
Definition denial : Js.error :=
  {| Js.instanceof_Error := false;
     Js.message := "new row violates row-level security policy" |}.

(** A service that answers its [k]-th request with that error. *)
Definition denying (k n : nat) : Reply :=
  if (n =? k)%nat then Rejected denial else accepting n.

Definition environment (service : nat -> Reply) : Env :=
  {| service := service;
     clock := "2026-01-01T00:00:00.000Z";
     random := "k3j9x2";
     default_priority := medium;
     default_wip_limit := None;
     boardId := Some "b1";
     user := Some (mkUser "u1" (Some "ada@example.org"));
     profile := Some (mkProfile (Some "Ada")) |}.

Definition card (id column : string) (position : Z) : Card.t :=
  Card.mk id column id None position None medium None
          "2025-12-31T00:00:00.000Z".

(** One board of three columns, stored out of order; the title of the
    middle column varies.  The last column takes one card at most. *)
Definition store (middle : string) : Db.t :=
  {| Db.boards := [Board.mk "b1" "Sprint" None];
     Db.columns :=
       [Column.mk "c3" "b1" "Done" 2 (Some 1);
        Column.mk "c1" "b1" "To Do" 0 None;
        Column.mk "c2" "b1" middle 1 None];
     Db.cards :=
       [card "k4" "c1" 1; card "k1" "c1" 0; card "k2" "c2" 0;
        card "k3" "c3" 0];
     Db.labels := [Label.mk "l1" "b1" "bug" "#ef4444"];
     Db.card_labels := [CardLabel.mk "k1" "l1"];
     Db.subtasks :=
       [Subtask.mk "s1" "k1" "write" false 0;
        Subtask.mk "s2" "k1" "review" true 1;
        Subtask.mk "s3" "k2" "decide" false 0];
     Db.attachments := [];
     Db.comments :=
       [Comment.mk "m1" "k1" "first" "2025-12-30T10:00:00.000Z" "u1"];
     Db.activities := [];
     Db.files := [] |}.

Definition unloaded (service : nat -> Reply) (middle : string) : State :=
  {| env := environment service;
     db := store middle;
     requests := 0;
     hook := mkHook None [] true None;
     boards_error := None;
     trace := [] |}.

(** The board on screen: the hook holds the view of the store, and the
    next request is the service's request number 0. *)
Definition on_screen (service : nat -> Reply) (middle : string) : State :=
  {| env := environment service;
     db := store middle;
     requests := 0;
     hook := hook (snd (fetchBoard (unloaded accepting middle)));
     boards_error := None;
     trace := [] |}.

End Sample.

(** A board of two columns already on screen, one card in each; the store
    holds the same rows. *)
Module Small.

Definition shown_card (id column : string) : CardWithLabels.t :=
  {| CardWithLabels.card := Sample.card id column 0;
     CardWithLabels.labels := [];
     CardWithLabels.subtasks := Some [];
     CardWithLabels.attachments := Some [];
     CardWithLabels.comments := Some [];
     CardWithLabels.activities := Some [] |}.

Definition todo : ColumnWithCards.t :=
  {| ColumnWithCards.column := Column.mk "c1" "b1" "To Do" 0 None;
     ColumnWithCards.cards := [shown_card "k1" "c1"] |}.

Definition finished : ColumnWithCards.t :=
  {| ColumnWithCards.column := Column.mk "c2" "b1" "Done" 1 (Some 2);
     ColumnWithCards.cards := [shown_card "k2" "c2"] |}.

Definition store : Db.t :=
  {| Db.boards := [Board.mk "b1" "Sprint" None];
     Db.columns := [ColumnWithCards.column todo;
                    ColumnWithCards.column finished];
     Db.cards := [Sample.card "k1" "c1" 0; Sample.card "k2" "c2" 0];
     Db.labels := [];
     Db.card_labels := [];
     Db.subtasks := [];
     Db.attachments := [];
     Db.comments := [];
     Db.activities := [];
     Db.files := [] |}.

Definition state (service : nat -> Reply) : State :=
  {| env := Sample.environment service;
     db := store;
     requests := 0;
     hook := mkHook (Some (Board.mk "b1" "Sprint" None)) [todo; finished]
                    false None;
     boards_error := None;
     trace := [] |}.

(** The board component as it starts. *)
Definition ui : BoardUi.t :=
  {| BoardUi.isAddingColumn := false;
     BoardUi.newColumnTitle := "";
     BoardUi.selectedCardId := None;
     BoardUi.isSearchOpen := false;
     BoardUi.isDeadlineOpen := false;
     BoardUi.filterState := DEFAULT_FILTER_STATE;
     BoardUi.boardLabels := [] |}.

End Small.

(* ================================================================== *)
(** * Reasoning about the hooks: definitions *)

(** [wp m Q s]: running [m] from [s] ends in an outcome and a state that
    satisfy [Q].  Every computation of [M] terminates, so this is total
    correctness. *)
Definition wp {A : Type} (m : M A) (Q : Outcome A -> State -> Prop) (s : State)
  : Prop :=
  Q (fst (m s)) (snd (m s)).

(** [on_return P m]: whenever [m] returns, the value and the state satisfy
    [P]. *)
Definition on_return {A : Type} (P : A -> State -> Prop) (m : M A) : Prop :=
  forall s,
    match fst (m s) with
    | Returned a => P a (snd (m s))
    | Thrown _ => True
    end.

Definition returns {A : Type} (m : M A) : Prop :=
  forall s, exists a, fst (m s) = Returned a.

(** [keeps m]: whatever [m] does, its final state is [R]-related to the
    state it started from. *)
Definition keeps (R : State -> State -> Prop) {A : Type} (m : M A) : Prop :=
  forall s, R s (snd (m s)).

(** A projection of the state is unchanged. *)
Definition unchanged {T : Type} (proj : State -> T) (s s' : State) : Prop :=
  proj s' = proj s.

(** The trace grows, by events that all satisfy [ok]. *)
Definition grows (ok : Event -> Prop) (s s' : State) : Prop :=
  exists evs, trace s' = trace s ++ evs /\ Forall ok evs.

Definition not_a_fetch (e : Event) : Prop := e <> FetchBoard.

(** [fetchBoard] reads: the store, the environment and the other hook's
    state are as before. *)
Definition only_read (s s' : State) : Prop :=
  unchanged env s s' /\ unchanged db s s' /\ unchanged boards_error s s'
  /\ grows (fun _ => True) s s'.

(** [logActivity] writes to the activity table only, never calls
    [fetchBoard] and leaves the hook's state alone. *)
Definition all_but_activities (s : State) :=
  (Db.boards (db s), Db.columns (db s), Db.cards (db s), Db.labels (db s),
   Db.card_labels (db s), Db.subtasks (db s), Db.attachments (db s),
   Db.comments (db s), Db.files (db s)).

Definition only_logged (s s' : State) : Prop :=
  unchanged env s s' /\ unchanged hook s s' /\ unchanged boards_error s s'
  /\ unchanged all_but_activities s s' /\ grows not_a_fetch s s'.

(** What a call of [fetchBoard] amounts to for the rest of the state. *)
Definition fetched (s s' : State) : Prop :=
  env s' = env s /\ db s' = db s /\ boards_error s' = boards_error s
  /\ (exists evs, trace s' = trace s ++ FetchBoard :: evs)
  /\ (accepts_all s -> shows_store s').

(** What an accepted [moveCard] has done. *)
Definition card_moved (cardId targetColumnId : string) (newPosition : Z)
    (s s' : State) : Prop :=
  env s' = env s
  /\ Db.cards (db s')
     = Db.update_where (fun c => (Card.id c =? cardId)%string)
         (moved targetColumnId newPosition (clock (env s))) (Db.cards (db s))
  /\ Db.columns (db s') = Db.columns (db s)
  /\ (accepts_all s -> shows_store s')
  /\ exists evs evs',
       trace s' = trace s ++ Request Table.cards true :: evs ++ FetchBoard :: evs'
       /\ Forall not_a_fetch evs.

(** The rows whose key is [k]. *)
Definition with_key {A : Type} (key : A -> string) (k : string) (xs : list A)
  : list A :=
  filter (fun x => (key x =? k)%string) xs.


(* ================================================================== *)
(** * Lemmas on lists *)
(** ** Filtering *)

Lemma filter_subsequence {A : Type} (p : A -> bool) (l : list A) :
  subsequence (filter p l) l.
Proof.
  induction l as [|x l IH]; simpl.
  - constructor.
  - destruct (p x); constructor; exact IH.
Qed.

Lemma filter_all_true {A : Type} (p : A -> bool) (l : list A) :
  (forall x, In x l -> p x = true) -> filter p l = l.
Proof.
  induction l as [|x l IH]; simpl; intros H.
  - reflexivity.
  - rewrite (H x (or_introl eq_refl)), IH; auto.
Qed.
(** ** Grouping rows by a key *)

Lemma flat_map_agree {A B : Type} (f g : A -> list B) (l : list A) :
  (forall x, In x l -> f x = g x) -> flat_map f l = flat_map g l.
Proof.
  induction l as [|x l IH]; simpl; intros H.
  - reflexivity.
  - rewrite (H x (or_introl eq_refl)), IH; auto.
Qed.

Lemma flat_map_map {A B C : Type} (g : A -> B) (f : B -> list C) (l : list A) :
  flat_map f (map g l) = flat_map (fun x => f (g x)) l.
Proof.
  induction l as [|x l IH]; simpl; [reflexivity|now rewrite IH].
Qed.

Lemma map_flat_map {A B C : Type} (f : A -> list B) (g : B -> C) (l : list A) :
  map g (flat_map f l) = flat_map (fun x => map g (f x)) l.
Proof.
  induction l as [|x l IH]; simpl; [reflexivity|].
  now rewrite map_app, IH.
Qed.

Section GroupByKey.

Context {A : Type}.
Variable key : A -> string.

Lemma split_by_predicate (p : A -> bool) (xs : list A) :
  Permutation (filter p xs ++ filter (fun x => negb (p x)) xs) xs.
Proof.
  induction xs as [|x xs IH]; simpl.
  - constructor.
  - destruct (p x); simpl.
    + now constructor.
    + symmetry. apply Permutation_cons_app. now symmetry.
Qed.

Lemma with_key_without (k k' : string) (xs : list A) :
  k' <> k ->
  with_key key k' (filter (fun x => negb (key x =? k)%string) xs) = with_key key k' xs.
Proof.
  intros Hk. unfold with_key.
  induction xs as [|x xs IH]; simpl.
  - reflexivity.
  - destruct (key x =? k)%string eqn:E; simpl.
    + apply String.eqb_eq in E.
      destruct (key x =? k')%string eqn:E'.
      * apply String.eqb_eq in E'. congruence.
      * exact IH.
    + destruct (key x =? k')%string; now rewrite IH.
Qed.

(** Grouping by the keys of a duplicate-free list that covers every row
    neither repeats nor loses a row. *)
Lemma group_by_key_permutation (ks : list string) :
  NoDup ks ->
  forall xs,
    (forall x, In x xs -> In (key x) ks) ->
    Permutation (flat_map (fun k => with_key key k xs) ks) xs.
Proof.
  induction 1 as [|k ks Hk Hnd IH]; intros xs Hcover; simpl.
  - destruct xs as [|x xs]; [constructor|].
    destruct (Hcover x (or_introl eq_refl)).
  - set (others := filter (fun x => negb (key x =? k)%string) xs).
    assert (Hsame : flat_map (fun k' => with_key key k' xs) ks
                    = flat_map (fun k' => with_key key k' others) ks).
    { apply flat_map_agree. intros k' Hk'. symmetry.
      apply with_key_without. intros ->. contradiction. }
    rewrite Hsame.
    transitivity (with_key key k xs ++ others).
    + apply Permutation_app_head. apply IH.
      intros x Hx. apply filter_In in Hx as [Hx Hne].
      destruct (Hcover x Hx) as [Heq|Hin]; [|exact Hin].
      apply negb_true_iff, String.eqb_neq in Hne. congruence.
    + apply split_by_predicate.
Qed.

End GroupByKey.
(** ** Ordering rows *)

Section Ascending.

Context {A : Type}.
Variable key : A -> Z.

Lemma in_insert_sorted (le : A -> A -> bool) (x a : A) (l : list A) :
  In a (Db.insert_sorted le x l) <-> a = x \/ In a l.
Proof.
  induction l as [|y l IH]; simpl.
  - intuition.
  - destruct (le x y); simpl; [intuition|].
    rewrite IH. intuition.
Qed.

Lemma insert_sorted_ascending (x : A) (l : list A) :
  ascending key l ->
  ascending key (Db.insert_sorted (by_position key) x l).
Proof.
  unfold ascending, by_position.
  induction 1 as [|y l Hl IH Hy]; simpl.
  - repeat constructor.
  - destruct (key x <=? key y) eqn:E.
    + apply Z.leb_le in E. constructor.
      * now constructor.
      * constructor; [exact E|].
        eapply Forall_impl; [|exact Hy]. simpl. intros; lia.
    + apply Z.leb_gt in E. constructor; [exact IH|].
      apply Forall_forall. intros a Ha.
      apply in_insert_sorted in Ha as [->|Ha]; [lia|].
      rewrite Forall_forall in Hy. auto.
Qed.

Lemma order_ascending (l : list A) :
  ascending key (Db.order (by_position key) l).
Proof.
  induction l as [|x l IH]; simpl.
  - constructor.
  - now apply insert_sorted_ascending.
Qed.

Lemma filter_ascending (p : A -> bool) (l : list A) :
  ascending key l -> ascending key (filter p l).
Proof.
  unfold ascending.
  induction 1 as [|x l Hl IH Hx]; simpl.
  - constructor.
  - destruct (p x); [|exact IH].
    constructor; [exact IH|].
    apply Forall_forall. intros a Ha. apply filter_In in Ha as [Ha _].
    rewrite Forall_forall in Hx. auto.
Qed.

Lemma map_ascending {B : Type} (key' : B -> Z) (f : A -> B) (l : list A) :
  (forall x, key' (f x) = key x) ->
  ascending key l -> ascending key' (map f l).
Proof.
  unfold ascending. intros Hkey.
  induction 1 as [|x l Hl IH Hx]; simpl; constructor; auto.
  apply Forall_forall. intros b Hb.
  apply in_map_iff in Hb as (a & <- & Ha).
  rewrite !Hkey. rewrite Forall_forall in Hx. auto.
Qed.

End Ascending.

Lemma insert_sorted_permutation {A : Type} (le : A -> A -> bool) x l :
  Permutation (Db.insert_sorted le x l) (x :: l).
Proof.
  induction l as [|y l IH]; simpl.
  - reflexivity.
  - destruct (le x y); [reflexivity|].
    rewrite IH. apply perm_swap.
Qed.

Lemma order_permutation {A : Type} (le : A -> A -> bool) (l : list A) :
  Permutation (Db.order le l) l.
Proof.
  induction l as [|x l IH]; simpl.
  - constructor.
  - rewrite insert_sorted_permutation. now constructor.
Qed.

Section UniqueKeys.

Context {Row Key : Type} (key : Row -> Key).

Lemma selected_keys_unique (keep : Row -> bool) (rows : list Row) :
  NoDup (map key rows) -> NoDup (map key (filter keep rows)).
Proof.
  induction rows as [|row rows IH]; simpl; [constructor|].
  rewrite NoDup_cons_iff. intros [Hfresh Hrest].
  destruct (keep row); simpl; [|now apply IH].
  constructor; [|now apply IH].
  contradict Hfresh.
  rewrite in_map_iff in *.
  destruct Hfresh as (other & Hkey & Hother).
  exists other. split; [exact Hkey|].
  now apply filter_In in Hother.
Qed.

Lemma NoDup_map_selected (le : Row -> Row -> bool) (keep : Row -> bool)
    (rows : list Row) :
  NoDup (map key rows) -> NoDup (map key (Db.order le (filter keep rows))).
Proof.
  intros H.
  eapply Permutation_NoDup.
  - symmetry. apply Permutation_map. apply order_permutation.
  - now apply selected_keys_unique.
Qed.

End UniqueKeys.

Lemma in_selected {A : Type} (le : A -> A -> bool) (p : A -> bool) (l : list A) x :
  In x (Db.order le (filter p l)) -> In x l /\ p x = true.
Proof.
  intros H. apply filter_In.
  eapply Permutation_in; [apply order_permutation|exact H].
Qed.

Lemma includes_str_In (xs : list string) (x : string) :
  Js.includes_str xs x = true <-> In x xs.
Proof.
  unfold Js.includes_str. rewrite existsb_exists. split.
  - intros (y & Hy & Heq). apply String.eqb_eq in Heq. now subst.
  - intros H. exists x. split; [exact H|apply String.eqb_refl].
Qed.

(* ================================================================== *)
(** * The program logic *)
(** ** Weakest preconditions *)

Lemma wp_ret {A : Type} (a : A) Q s : Q (Returned a) s -> wp (ret a) Q s.
Proof. exact (fun H => H). Qed.

Lemma wp_throw {A : Type} (e : Js.error) (Q : Outcome A -> State -> Prop) s :
  Q (Thrown e) s -> wp (throw e) Q s.
Proof. exact (fun H => H). Qed.

Lemma wp_bind {A B : Type} (m : M A) (k : A -> M B) Q s :
  wp m (fun r s' =>
          match r with
          | Returned a => wp (k a) Q s'
          | Thrown e => Q (Thrown e) s'
          end) s ->
  wp (bind m k) Q s.
Proof.
  unfold wp, bind. destruct (m s) as [[a|e] s']; simpl; auto.
Qed.

Lemma wp_try_catch {A : Type} (body : M A) (handler : Js.error -> M A) Q s :
  wp body (fun r s' =>
             match r with
             | Returned a => Q (Returned a) s'
             | Thrown e => wp (handler e) Q s'
             end) s ->
  wp (try_catch body handler) Q s.
Proof.
  unfold wp, try_catch. destruct (body s) as [[a|e] s']; simpl; auto.
Qed.

Lemma wp_finally {A : Type} (body : M A) (cleanup : M unit) Q s :
  wp body (fun r s' =>
             wp cleanup (fun r' s'' =>
                           match r' with
                           | Returned _ => Q r s''
                           | Thrown e => Q (Thrown e) s''
                           end) s') s ->
  wp (finally body cleanup) Q s.
Proof.
  unfold wp, finally. destruct (body s) as [r s']; simpl.
  destruct (cleanup s') as [[u|e] s'']; simpl; auto.
Qed.

Lemma wp_get Q s : Q (Returned s) s -> wp get Q s.
Proof. exact (fun H => H). Qed.

Lemma wp_modify (f : State -> State) Q s :
  Q (Returned tt) (f s) -> wp (modify f) Q s.
Proof. exact (fun H => H). Qed.

Lemma wp_request (t : Table.t) (w : bool) Q s :
  Q (Returned (service (env s) (requests s)))
    (count_request (with_trace (fun tr => tr ++ [Request t w]) s)) ->
  wp (request t w) Q s.
Proof. exact (fun H => H). Qed.

Lemma wp_weaken {A : Type} (m : M A) (Q Q' : Outcome A -> State -> Prop) s :
  wp m Q s -> (forall r s', Q r s' -> Q' r s') -> wp m Q' s.
Proof. unfold wp. auto. Qed.

Lemma wp_run {A : Type} (m : M A) Q s :
  wp m Q s -> Q (fst (m s)) (snd (m s)).
Proof. exact (fun H => H). Qed.

(** One step of symbolic execution: the outermost construct of the program
    is consumed, case distinctions of the program are followed. *)
Ltac wp_straight :=
  lazymatch goal with
  | |- wp (bind _ _) _ _ => apply wp_bind
  | |- wp (ret _) _ _ => apply wp_ret
  | |- wp (throw _) _ _ => apply wp_throw
  | |- wp (try_catch _ _) _ _ => apply wp_try_catch
  | |- wp (finally _ _) _ _ => apply wp_finally
  | |- wp get _ _ => apply wp_get
  | |- wp (modify _) _ _ => apply wp_modify
  | |- wp (emit _) _ _ => unfold emit
  | |- wp (console_error _ _) _ _ => unfold console_error
  | |- wp (setBoard _) _ _ => unfold setBoard
  | |- wp (setColumns _) _ _ => unfold setColumns
  | |- wp (setLoading _) _ _ => unfold setLoading
  | |- wp (setError _) _ _ => unfold setError
  | |- wp (setBoardsError _) _ _ => unfold setBoardsError
  | |- wp (select _ _) _ _ => unfold select
  | |- wp (write _ _) _ _ => unfold write
  | |- wp (insert_returning _ _ _) _ _ => unfold insert_returning
  | |- wp (or_throw ?r) _ _ => unfold or_throw
  end.

Ltac wp_step :=
  first
    [ wp_straight
    | lazymatch goal with
      | |- wp (match ?x with _ => _ end) _ _ => destruct x eqn:?
      | |- wp (if ?x then _ else _) _ _ => destruct x eqn:?
      | |- wp (let '(_, _) := ?x in _) _ _ => destruct x eqn:?
      end ].

Ltac wp_steps := repeat (wp_step; cbv beta iota).

(** A round trip whose answer is known: [H] tells what the service answers
    to the request about to be sent. *)
Ltac wp_reply H :=
  apply wp_request;
  match goal with
  | |- context [service ?e ?n] =>
      let e' := eval simpl in e in
      let n' := eval simpl in n in
      change (service e n) with (service e' n')
  end;
  rewrite H; cbv beta iota.

(** A round trip to a service that accepts everything: [Hall] is
    [accepts_all] of the state the operation started from. *)
Ltac wp_accept Hall :=
  apply wp_request;
  match goal with
  | |- context [service ?e ?n] =>
      let e' := eval simpl in e in
      let n' := eval simpl in n in
      change (service e n) with (service e' n')
  end;
  repeat match goal with
         | H : env _ = env _ |- _ => rewrite H
         end;
  match goal with
  | |- context [service (env ?s) ?n] =>
      let generated := fresh "generated" in
      let Hg := fresh "Hg" in
      destruct (Hall n) as [generated Hg]; rewrite Hg; clear Hg
  end;
  cbv beta iota.
(** ** Results of computations *)

Lemma on_return_bind {A B : Type} (P1 : A -> Prop) (P : B -> State -> Prop)
    (m : M A) (k : A -> M B) :
  on_return (fun a _ => P1 a) m ->
  (forall a, P1 a -> on_return P (k a)) ->
  on_return P (bind m k).
Proof.
  intros Hm Hk s. unfold bind. specialize (Hm s).
  destruct (m s) as [[a|e] s']; simpl in *; [|exact I].
  apply Hk. exact Hm.
Qed.

Lemma on_return_any {A : Type} (m : M A) : on_return (fun _ _ => True) m.
Proof. intros s. now destruct (fst (m s)). Qed.

Lemma on_return_ret {A : Type} (P : A -> State -> Prop) (a : A) :
  (forall s, P a s) -> on_return P (ret a).
Proof. intros H s. apply H. Qed.

Lemma on_return_modify (P : unit -> State -> Prop) (f : State -> State) :
  (forall s, P tt (f s)) -> on_return P (modify f).
Proof. intros H s. apply H. Qed.

Lemma on_return_select {A : Type} (P : list A -> Prop) (t : Table.t)
    (query : Db.t -> list A) :
  (forall d, P (query d)) ->
  on_return (fun res _ => forall rows, res = Data rows -> P rows)
            (select t query).
Proof.
  intros H s. unfold select, bind, request. simpl.
  destruct (service (env s) (requests s)); simpl.
  - intros rows [= <-]. apply H.
  - discriminate.
Qed.

Lemma on_return_or_throw {A : Type} (P : A -> Prop) (r : Response A) :
  (forall d, r = Data d -> P d) ->
  on_return (fun a _ => P a) (or_throw r).
Proof.
  intros H s. destruct r; simpl; auto.
Qed.

Lemma on_return_wp {A : Type} (P : A -> State -> Prop) (m : M A)
    (Q : Outcome A -> State -> Prop) s :
  on_return P m ->
  (forall a s', P a s' -> Q (Returned a) s') ->
  (forall e s', Q (Thrown e) s') ->
  wp m Q s.
Proof.
  intros Hm Hr Ht. unfold wp. specialize (Hm s).
  destruct (fst (m s)); auto.
Qed.
(** ** Computations that never throw *)

Lemma returns_ret {A : Type} (a : A) : returns (ret a).
Proof. intros s. now exists a. Qed.

Lemma returns_get : returns get.
Proof. intros s. now exists s. Qed.

Lemma returns_modify (f : State -> State) : returns (modify f).
Proof. intros s. now exists tt. Qed.

Lemma returns_request (t : Table.t) (w : bool) : returns (request t w).
Proof. intros s. eexists. reflexivity. Qed.

Lemma returns_bind {A B : Type} (m : M A) (k : A -> M B) :
  returns m -> (forall a, returns (k a)) -> returns (bind m k).
Proof.
  intros Hm Hk s. unfold bind. destruct (Hm s) as [a Ha].
  destruct (m s) as [r s']; simpl in *. subst r. apply Hk.
Qed.

Lemma returns_try_catch {A : Type} (body : M A) (handler : Js.error -> M A) :
  (forall e, returns (handler e)) -> returns (try_catch body handler).
Proof.
  intros Hh s. unfold try_catch.
  destruct (body s) as [[a|e] s']; simpl; [now exists a|apply Hh].
Qed.

Lemma returns_finally {A : Type} (body : M A) (cleanup : M unit) :
  returns body -> returns cleanup -> returns (finally body cleanup).
Proof.
  intros Hb Hc s. unfold finally. destruct (Hb s) as [a Ha].
  destruct (body s) as [r s']; simpl in *. subst r.
  destruct (Hc s') as [u Hu].
  destruct (cleanup s') as [r' s'']; simpl in *. subst r'. now exists a.
Qed.

Ltac returns_auto :=
  repeat
    lazymatch goal with
    | |- returns (bind _ _) => apply returns_bind; [|intro]
    | |- returns (ret _) => apply returns_ret
    | |- returns get => apply returns_get
    | |- returns (modify _) => apply returns_modify
    | |- returns (request _ _) => apply returns_request
    | |- returns (try_catch _ _) => apply returns_try_catch; intro
    | |- returns (finally _ _) => apply returns_finally
    | |- returns (emit _) => unfold emit
    | |- returns (console_error _ _) => unfold console_error, emit
    | |- returns (setBoard _) => unfold setBoard
    | |- returns (setColumns _) => unfold setColumns
    | |- returns (setLoading _) => unfold setLoading
    | |- returns (setError _) => unfold setError
    | |- returns (setBoardsError _) => unfold setBoardsError
    | |- returns (select _ _) => unfold select
    | |- returns (write _ _) => unfold write
    | |- returns (insert_returning _ _ _) => unfold insert_returning
    | |- returns (match ?x with _ => _ end) => destruct x
    | |- returns (if ?x then _ else _) => destruct x
    end.
(** ** Frames: what a computation leaves related *)

Section Keeps.

Context (R : State -> State -> Prop) `{!PreOrder R}.

Lemma keeps_ret {A : Type} (a : A) : keeps R (ret a).
Proof. intros s. reflexivity. Qed.

Lemma keeps_throw {A : Type} (e : Js.error) : keeps R (@throw A e).
Proof. intros s. reflexivity. Qed.

Lemma keeps_get : keeps R get.
Proof. intros s. reflexivity. Qed.

Lemma keeps_bind {A B : Type} (m : M A) (k : A -> M B) :
  keeps R m -> (forall a, keeps R (k a)) -> keeps R (bind m k).
Proof.
  intros Hm Hk s. unfold bind. specialize (Hm s).
  destruct (m s) as [[a|e] s']; simpl in *; [|exact Hm].
  etransitivity; [exact Hm|apply Hk].
Qed.

Lemma keeps_try_catch {A : Type} (body : M A) (handler : Js.error -> M A) :
  keeps R body -> (forall e, keeps R (handler e)) -> keeps R (try_catch body handler).
Proof.
  intros Hb Hh s. unfold try_catch. specialize (Hb s).
  destruct (body s) as [[a|e] s']; simpl in *; [exact Hb|].
  etransitivity; [exact Hb|apply Hh].
Qed.

Lemma keeps_finally {A : Type} (body : M A) (cleanup : M unit) :
  keeps R body -> keeps R cleanup -> keeps R (finally body cleanup).
Proof.
  intros Hb Hc s. unfold finally. specialize (Hb s).
  destruct (body s) as [r s']; simpl in *. specialize (Hc s').
  destruct (cleanup s') as [[u|e] s'']; simpl in *;
    etransitivity; eauto.
Qed.

Lemma keeps_or_throw {A : Type} (r : Response A) : keeps R (or_throw r).
Proof. destruct r; [apply keeps_ret|apply keeps_throw]. Qed.

Lemma keeps_modify (f : State -> State) :
  (forall s, R s (f s)) -> keeps R (modify f).
Proof. intros H s. apply H. Qed.

Lemma keeps_request (t : Table.t) (w : bool) :
  (forall s, R s (count_request (with_trace (fun tr => tr ++ [Request t w]) s))) ->
  keeps R (request t w).
Proof. intros H s. apply H. Qed.

End Keeps.

(** Structural part of a frame proof; what remains are the state changes
    themselves. *)
Ltac keeps_structure :=
  repeat
    lazymatch goal with
    | |- keeps _ (bind _ _) => apply keeps_bind; [exact _| |intro]
    | |- keeps _ (ret _) => apply keeps_ret; exact _
    | |- keeps _ (throw _) => apply keeps_throw; exact _
    | |- keeps _ get => apply keeps_get; exact _
    | |- keeps _ (or_throw _) => apply keeps_or_throw; exact _
    | |- keeps _ (try_catch _ _) =>
        apply keeps_try_catch; [exact _| |intro]
    | |- keeps _ (finally _ _) => apply keeps_finally; [exact _| |]
    | |- keeps _ (emit _) => unfold emit
    | |- keeps _ (console_error _ _) => unfold console_error, emit
    | |- keeps _ (setBoard _) => unfold setBoard
    | |- keeps _ (setColumns _) => unfold setColumns
    | |- keeps _ (setLoading _) => unfold setLoading
    | |- keeps _ (setError _) => unfold setError
    | |- keeps _ (setBoardsError _) => unfold setBoardsError
    | |- keeps _ (select _ _) => unfold select
    | |- keeps _ (write _ _) => unfold write
    | |- keeps _ (insert_returning _ _ _) => unfold insert_returning
    | |- keeps _ (match ?x with _ => _ end) => destruct x
    | |- keeps _ (if ?x then _ else _) => destruct x
    | |- keeps _ (modify _) => apply keeps_modify; intro
    | |- keeps _ (request _ _) => apply keeps_request; intro
    end.

#[export] Instance unchanged_preorder {T : Type} (proj : State -> T) :
  PreOrder (unchanged proj).
Proof.
  split.
  - intros s. reflexivity.
  - intros a b c. unfold unchanged. congruence.
Qed.

#[export] Instance grows_preorder (ok : Event -> Prop) : PreOrder (grows ok).
Proof.
  split.
  - intros s. exists []. split; [now rewrite app_nil_r|constructor].
  - intros a b c (e1 & H1 & F1) (e2 & H2 & F2). exists (e1 ++ e2). split.
    + now rewrite H2, H1, app_assoc.
    + apply Forall_app. auto.
Qed.

(** Both at once. *)
#[export] Instance and_preorder (R1 R2 : State -> State -> Prop)
    `{!PreOrder R1} `{!PreOrder R2} :
  PreOrder (fun s s' => R1 s s' /\ R2 s s').
Proof.
  split.
  - intros s. split; reflexivity.
  - intros a b c [H1 H2] [H3 H4]. split; etransitivity; eauto.
Qed.

Ltac keeps_leaf :=
  lazymatch goal with
  | |- unchanged _ _ _ => reflexivity
  | |- grows _ _ _ =>
      first
        [ exists []; split; [simpl; symmetry; apply app_nil_r|constructor]
        | eexists; split;
          [simpl; reflexivity|repeat constructor; try discriminate] ]
  | |- _ /\ _ => split; keeps_leaf
  | |- _ => idtac
  end.

Ltac keeps_auto := keeps_structure; keeps_leaf.

(** Calling a computation that returns and keeps [R]. *)
Lemma wp_call {A : Type} (R : State -> State -> Prop) (m : M A)
    (Q : Outcome A -> State -> Prop) s :
  returns m -> keeps R m ->
  (forall a s', R s s' -> Q (Returned a) s') ->
  wp m Q s.
Proof.
  intros Hr Hk HQ. unfold wp. destruct (Hr s) as [a Ha]. rewrite Ha.
  apply HQ. apply Hk.
Qed.

(* ================================================================== *)
(** * The calls inside an operation *)
(** ** [fetchBoard] and [logActivity] *)

Lemma fetchBoard_only_reads : keeps only_read fetchBoard.
Proof.
  unfold fetchBoard, fetch_cards_and_details, only_read.
  keeps_auto.
Qed.

Lemma fetchBoard_returns : returns fetchBoard.
Proof. unfold fetchBoard. returns_auto. Qed.

Lemma logActivity_returns cardId actionType details :
  returns (logActivity cardId actionType details).
Proof. unfold logActivity. returns_auto. Qed.

Lemma logActivity_only_logs cardId actionType details :
  keeps only_logged (logActivity cardId actionType details).
Proof.
  unfold logActivity, only_logged. keeps_auto.
Qed.

Lemma unpack_only_logged s s' :
  only_logged s s' ->
  env s' = env s /\ hook s' = hook s
  /\ Db.cards (db s') = Db.cards (db s)
  /\ Db.columns (db s') = Db.columns (db s)
  /\ Db.subtasks (db s') = Db.subtasks (db s)
  /\ exists evs, trace s' = trace s ++ evs /\ Forall not_a_fetch evs.
Proof.
  intros (Henv & Hhook & _ & Hdb & Htrace).
  unfold unchanged, all_but_activities in *.
  inversion Hdb. auto 10.
Qed.

Lemma accepts_all_env s s' : env s' = env s -> accepts_all s -> accepts_all s'.
Proof. unfold accepts_all. intros ->. auto. Qed.

(** When the service answers every query and the store has the board,
    [fetchBoard] leaves the hook with the board and the view of the store. *)
Lemma fetchBoard_rebuilds s board b :
  accepts_all s ->
  boardId (env s) = Some board -> Js.truthy board = true ->
  query_board board (db s) = [b] ->
  hook (snd (fetchBoard s))
  = mkHook (Some b) (view_of_store board (db s)) false None.
Proof.
  intros Hall Hid Htruthy Hrow.
  change (wp fetchBoard
            (fun _ s' => hook s'
                         = mkHook (Some b) (view_of_store board (db s)) false
                                  None) s).
  unfold fetchBoard, fetch_cards_and_details.
  repeat (wp_straight; cbv beta iota).
  simpl boardId. rewrite Hid, Htruthy. simpl negb. cbv iota.
  repeat (wp_straight; cbv beta iota).
  wp_accept Hall.
  repeat (wp_straight; cbv beta iota).
  simpl db. rewrite Hrow. simpl single. cbv iota.
  repeat (first [wp_step | wp_accept Hall]; cbv beta iota).
  all: simpl in *; unfold view_of_store.
  all: repeat match goal with
         | H : (0 <? _)%nat = _ |- _ => rewrite H; clear H
         end.
  all: reflexivity.
Qed.

Lemma fetchBoard_fetched s : fetched s (snd (fetchBoard s)).
Proof.
  assert (Hold : wp fetchBoard
                   (fun _ s' =>
                      env s' = env s /\ db s' = db s
                      /\ boards_error s' = boards_error s
                      /\ exists evs, trace s' = trace s ++ FetchBoard :: evs) s).
  { unfold fetchBoard.
    apply wp_bind. unfold emit. apply wp_modify.
    match goal with |- wp ?rest _ ?s1 =>
      assert (Hret : returns rest) by returns_auto;
      assert (Hkeep : keeps only_read rest)
        by (unfold fetch_cards_and_details, only_read; keeps_auto)
    end.
    eapply wp_call; [exact Hret|exact Hkeep|].
    intros [] s' (Henv & Hdb & Hboards & evs & Htrace & _).
    unfold unchanged in *. simpl in *.
    repeat split; auto.
    exists evs. rewrite Htrace, <- app_assoc. reflexivity. }
  destruct Hold as (Henv & Hdb & Hboards & Htrace).
  repeat split; auto.
  intros Hall board b Hid Htruthy Hrow.
  rewrite Henv in Hid. rewrite Hdb in Hrow. rewrite Hdb.
  now rewrite (fetchBoard_rebuilds s board b Hall Hid Htruthy Hrow).
Qed.

Lemma fetchBoard_wp (Q : Outcome unit -> State -> Prop) s :
  (forall s', fetched s s' -> Q (Returned tt) s') -> wp fetchBoard Q s.
Proof.
  intros HQ. unfold wp.
  destruct (fetchBoard_returns s) as [[] Hreturned]. rewrite Hreturned.
  apply HQ. apply fetchBoard_fetched.
Qed.

Lemma logActivity_wp cardId actionType details
    (Q : Outcome unit -> State -> Prop) s :
  (forall s', only_logged s s' -> Q (Returned tt) s') ->
  wp (logActivity cardId actionType details) Q s.
Proof.
  intros HQ.
  eapply wp_call;
    [apply logActivity_returns|apply logActivity_only_logs|].
  intros [] s'. apply HQ.
Qed.
(** ** [moveCard] *)

Ltac wp_calls :=
  repeat (first [ wp_step
                | apply fetchBoard_wp; intros ? ?
                | apply logActivity_wp; intros ? ? ];
          cbv beta iota).

Lemma moveCard_accepted cardId targetColumnId newPosition generated
    (Q : Outcome bool -> State -> Prop) s :
  service (env s) (requests s) = Accepted generated ->
  (forall s', card_moved cardId targetColumnId newPosition s s' ->
              Q (Returned true) s') ->
  wp (moveCard cardId targetColumnId newPosition) Q s.
Proof.
  intros Haccepted HQ. unfold moveCard.
  wp_steps. wp_reply Haccepted. wp_calls.
  all: apply HQ; unfold card_moved.
  all: repeat match goal with
         | H : only_logged _ _ |- _ =>
             apply unpack_only_logged in H;
             destruct H as (? & ? & ? & ? & ? & ? & ? & ?)
         | H : fetched _ _ |- _ => destruct H as (? & ? & ? & (? & ?) & Hshows)
         end.
  all: split; [|split; [|split; [|split]]].
  all: try (intros Hall; apply Hshows;
            eapply accepts_all_env; [|exact Hall];
            repeat match goal with
                   | H : env _ = _ |- _ => rewrite H
                   end; reflexivity).
  all: repeat match goal with
         | H : env _ = _ |- _ => rewrite H
         | H : db _ = _ |- _ => rewrite H
         | H : Db.cards _ = _ |- _ => rewrite H
         | H : Db.columns _ = _ |- _ => rewrite H
         | H : trace _ = _ |- _ => rewrite H
         end; simpl.
  all: try reflexivity.
  all: rewrite <- ?app_assoc; simpl.
  all: try (eexists; eexists; split; [reflexivity|assumption]).
  all: try (exists []; eexists; split; [reflexivity|constructor]).
Qed.
(** ** Operations on a service that accepts everything *)

Ltac wp_go Hall :=
  repeat (first [ wp_step
                | wp_accept Hall
                | apply fetchBoard_wp; intros ? ?
                | apply logActivity_wp; intros ? ? ];
          cbv beta iota).

Ltac unpack_calls :=
  repeat match goal with
         | H : only_logged _ _ |- _ =>
             apply unpack_only_logged in H;
             destruct H as (? & ? & ? & ? & ? & ? & ? & ?)
         | H : fetched _ _ |- _ => destruct H as (? & ? & ? & (? & ?) & ?)
         | H : card_moved _ _ _ _ _ |- _ =>
             destruct H as (? & ? & ? & ? & ? & ? & ? & ?)
         end.

Ltac rewrite_traces :=
  repeat match goal with
         | H : trace _ = _ |- _ => rewrite H; clear H
         | H : hook _ = _ |- _ => rewrite H; clear H
         end;
  simpl; rewrite <- ?app_assoc; simpl.

Lemma new_events_of s s' evs : trace s' = trace s ++ evs -> new_events s s' = evs.
Proof.
  intros H. unfold new_events. rewrite H.
  rewrite skipn_app, skipn_all, Nat.sub_diag. reflexivity.
Qed.

Lemma not_a_fetch_absent evs : Forall not_a_fetch evs -> ~ In FetchBoard evs.
Proof.
  intros H Hin. rewrite Forall_forall in H. now apply (H _ Hin).
Qed.

(* ================================================================== *)
(** * The claims *)
(** ** The view model of [fetchBoard]: what it holds *)

Section Denormalize.

Variable columnsData : list Column.t.
Variable cardsData : list Card.t.
Variable cardLabelsData : list CardLabel.t.
Variable labelsData : list Label.t.
Variable subtasksData : list Subtask.t.
Variable attachmentsData : list Attachment.t.
Variable commentsData : list Comment.t.
Variable activitiesData : list Activity.t.

Let view :=
  columnsWithCards columnsData cardsData cardLabelsData labelsData
    subtasksData attachmentsData commentsData activitiesData.
Let nest :=
  cardWithLabels cardLabelsData labelsData subtasksData attachmentsData
    commentsData activitiesData.

(** The cards in the order in which the view lists them. *)
Let listed : list Card.t :=
  flat_map (fun column => with_key Card.column_id (Column.id column) cardsData)
           columnsData.

Lemma view_columns : map ColumnWithCards.column view = columnsData.
Proof.
  unfold view, columnsWithCards. rewrite map_map. simpl. apply map_id.
Qed.

Lemma view_cards : flat_map ColumnWithCards.cards view = map nest listed.
Proof.
  unfold view, columnsWithCards, listed.
  rewrite flat_map_map, map_flat_map. reflexivity.
Qed.

Lemma in_view (col : ColumnWithCards.t) (w : CardWithLabels.t) :
  In col view -> In w (ColumnWithCards.cards col) ->
  exists c, In c cardsData /\ w = nest c
            /\ Card.column_id c = ColumnWithCards.id col.
Proof.
  unfold view, columnsWithCards. intros Hcol Hw.
  apply in_map_iff in Hcol as (column & <- & _). simpl in Hw.
  apply in_map_iff in Hw as (c & <- & Hc).
  apply filter_In in Hc as [Hc Heq]. apply String.eqb_eq in Heq.
  exists c. auto.
Qed.

Hypothesis columns_unique : NoDup (map Column.id columnsData).
Hypothesis cards_in_columns :
  forall c, In c cardsData -> In (Card.column_id c) (map Column.id columnsData).

Lemma listed_permutation : Permutation listed cardsData.
Proof.
  unfold listed.
  rewrite <- (flat_map_map Column.id
                (fun k => with_key Card.column_id k cardsData)).
  now apply group_by_key_permutation.
Qed.

Hypothesis cards_unique : NoDup (map Card.id cardsData).

(** Rows that hang on a card, grouped card by card in view order. *)
Lemma details_permutation {A : Type} (card_id : A -> string) (rows : list A)
    (project : CardWithLabels.t -> list A) :
  (forall c, project (nest c) = with_key card_id (Card.id c) rows) ->
  (forall r, In r rows -> In (card_id r) (map Card.id cardsData)) ->
  Permutation (flat_map project (flat_map ColumnWithCards.cards view)) rows.
Proof.
  intros Hproject Hcover.
  rewrite view_cards, flat_map_map.
  rewrite (flat_map_agree _ (fun c => with_key card_id (Card.id c) rows))
    by auto.
  rewrite listed_permutation.
  rewrite <- (flat_map_map Card.id (fun k => with_key card_id k rows)).
  now apply group_by_key_permutation.
Qed.

End Denormalize.

(** C6: [fetchBoard] denormalizes correctly.  For fetched rows whose column
    and card identifiers are unique, whose cards point to fetched columns and
    whose subtasks, attachments and comments point to fetched cards (what the
    primary keys and the [.in(...)] filters of the queries give): the view
    keeps the columns; every card sits under the column named by its
    [column_id], and the cards of the view are the fetched cards, none twice
    and none lost; every card carries exactly the fetched labels joined to it
    by a card-label row, and exactly the subtasks, attachments, comments and
    activities whose [card_id] is its own; and over the whole view no
    subtask, attachment or comment is repeated or lost. *)
Theorem columnsWithCards_denormalizes
    (columnsData : list Column.t) (cardsData : list Card.t)
    (cardLabelsData : list CardLabel.t) (labelsData : list Label.t)
    (subtasksData : list Subtask.t) (attachmentsData : list Attachment.t)
    (commentsData : list Comment.t) (activitiesData : list Activity.t) :
  NoDup (map Column.id columnsData) ->
  NoDup (map Card.id cardsData) ->
  (forall c, In c cardsData ->
             In (Card.column_id c) (map Column.id columnsData)) ->
  (forall s, In s subtasksData ->
             In (Subtask.card_id s) (map Card.id cardsData)) ->
  (forall a, In a attachmentsData ->
             In (Attachment.card_id a) (map Card.id cardsData)) ->
  (forall c, In c commentsData ->
             In (Comment.card_id c) (map Card.id cardsData)) ->
  let view :=
    columnsWithCards columnsData cardsData cardLabelsData labelsData
      subtasksData attachmentsData commentsData activitiesData in
  let shown := flat_map ColumnWithCards.cards view in
  map ColumnWithCards.column view = columnsData
  /\ (forall col w,
         In col view -> In w (ColumnWithCards.cards col) ->
         Card.column_id (CardWithLabels.card w) = ColumnWithCards.id col)
  /\ Permutation (map CardWithLabels.card shown) cardsData
  /\ (forall w,
         In w shown ->
         (forall l, In l (CardWithLabels.labels w) <->
                    In l labelsData
                    /\ exists cl, In cl cardLabelsData
                                  /\ CardLabel.card_id cl = CardWithLabels.id w
                                  /\ CardLabel.label_id cl = Label.id l)
         /\ subsequence (CardWithLabels.labels w) labelsData
         /\ (forall s, In s (Js.or_nil (CardWithLabels.subtasks w)) <->
                       In s subtasksData
                       /\ Subtask.card_id s = CardWithLabels.id w)
         /\ (forall a, In a (Js.or_nil (CardWithLabels.attachments w)) <->
                       In a attachmentsData
                       /\ Attachment.card_id a = CardWithLabels.id w)
         /\ (forall c, In c (Js.or_nil (CardWithLabels.comments w)) <->
                       In c commentsData
                       /\ Comment.card_id c = CardWithLabels.id w)
         /\ (forall a, In a (Js.or_nil (CardWithLabels.activities w)) <->
                       In a activitiesData
                       /\ Activity.card_id a = Some (CardWithLabels.id w)))
  /\ Permutation
       (flat_map (fun w => Js.or_nil (CardWithLabels.subtasks w)) shown)
       subtasksData
  /\ Permutation
       (flat_map (fun w => Js.or_nil (CardWithLabels.attachments w)) shown)
       attachmentsData
  /\ Permutation
       (flat_map (fun w => Js.or_nil (CardWithLabels.comments w)) shown)
       commentsData.
Proof.
  intros Hcols Hcards Hfk Hsub Hatt Hcom view shown.
  split; [apply view_columns|].
  split.
  { intros col w Hcol Hw.
    destruct (in_view _ _ _ _ _ _ _ _ col w Hcol Hw) as (c & _ & -> & Hc).
    exact Hc. }
  split.
  { unfold shown, view. rewrite view_cards, map_map. simpl. rewrite map_id.
    now apply listed_permutation. }
  split.
  { intros w Hw. unfold shown in Hw.
    apply in_flat_map in Hw as (col & Hcol & Hw).
    destruct (in_view _ _ _ _ _ _ _ _ col w Hcol Hw) as (c & _ & -> & _).
    unfold cardWithLabels, CardWithLabels.id; simpl.
    repeat split.
    - apply filter_In in H. tauto.
    - apply filter_In in H as [_ H].
      unfold Js.includes_str in H.
      apply existsb_exists in H as (i & Hi & Heq).
      apply String.eqb_eq in Heq. subst i.
      apply in_map_iff in Hi as (cl & Hid & Hcl).
      apply filter_In in Hcl as [Hcl Hc]. apply String.eqb_eq in Hc.
      exists cl. auto.
    - intros (Hl & cl & Hcl & Hc & Hid).
      apply filter_In. split; [exact Hl|].
      unfold Js.includes_str. apply existsb_exists.
      exists (CardLabel.label_id cl). split.
      + apply in_map. apply filter_In. split; [exact Hcl|].
        now apply String.eqb_eq.
      + now apply String.eqb_eq.
    - apply filter_subsequence.
    - apply filter_In in H. tauto.
    - apply filter_In in H as [_ H]. now apply String.eqb_eq in H.
    - intros [Hs Hc]. apply filter_In. split; [exact Hs|].
      now apply String.eqb_eq.
    - apply filter_In in H. tauto.
    - apply filter_In in H as [_ H]. now apply String.eqb_eq in H.
    - intros [Hs Hc]. apply filter_In. split; [exact Hs|].
      now apply String.eqb_eq.
    - apply filter_In in H. tauto.
    - apply filter_In in H as [_ H]. now apply String.eqb_eq in H.
    - intros [Hs Hc]. apply filter_In. split; [exact Hs|].
      now apply String.eqb_eq.
    - apply filter_In in H. tauto.
    - apply filter_In in H as [_ H]. unfold activity_of_card in H.
      destruct (Activity.card_id a); [|discriminate].
      apply String.eqb_eq in H. now subst.
    - intros [Hs Hc]. apply filter_In. split; [exact Hs|].
      unfold activity_of_card. rewrite Hc. apply String.eqb_refl. }
  split; [|split].
  - apply (details_permutation _ _ _ _ _ _ _ _ Hcols Hfk Hcards Subtask.card_id);
      [reflexivity | exact Hsub].
  - apply (details_permutation _ _ _ _ _ _ _ _ Hcols Hfk Hcards
             Attachment.card_id); [reflexivity | exact Hatt].
  - apply (details_permutation _ _ _ _ _ _ _ _ Hcols Hfk Hcards Comment.card_id);
      [reflexivity | exact Hcom].
Qed.

(** On a store whose column and card identifiers are unique, the rows that
    [fetchBoard] fetches satisfy what the combining step needs: the [.in]
    filters make every card point to a fetched column, and every subtask,
    attachment and comment to a fetched card. *)
Lemma fetched_rows_well_formed (d : Db.t) (boardId : string) :
  NoDup (map Column.id (Db.columns d)) ->
  NoDup (map Card.id (Db.cards d)) ->
  let columnsData := query_columns boardId d in
  let cardsData := query_cards (map Column.id columnsData) d in
  let cardIds := map Card.id cardsData in
  NoDup (map Column.id columnsData)
  /\ NoDup (map Card.id cardsData)
  /\ (forall c, In c cardsData ->
                In (Card.column_id c) (map Column.id columnsData))
  /\ (forall s, In s (query_subtasks cardIds d) ->
                In (Subtask.card_id s) cardIds)
  /\ (forall a, In a (query_attachments cardIds d) ->
                In (Attachment.card_id a) cardIds)
  /\ (forall c, In c (query_comments cardIds d) ->
                In (Comment.card_id c) cardIds).
Proof.
  intros Hcolumns Hcards columnsData cardsData cardIds.
  split; [now apply NoDup_map_selected|].
  split; [now apply NoDup_map_selected|].
  repeat split.
  - intros c Hc. apply in_selected in Hc as [_ Hc].
    now apply includes_str_In.
  - intros s Hs. apply in_selected in Hs as [_ Hs].
    now apply includes_str_In.
  - intros a Ha. apply in_selected in Ha as [_ Ha].
    now apply includes_str_In.
  - intros c Hc. apply in_selected in Hc as [_ Hc].
    now apply includes_str_In.
Qed.

Lemma columnsWithCards_denormalizes_witness :
  let d := Sample.store "In Progress" in
  let columnsData := query_columns "b1" d in
  let cardsData := query_cards (map Column.id columnsData) d in
  let cardIds := map Card.id cardsData in
  let view :=
    columnsWithCards columnsData cardsData (query_card_labels cardIds d)
      (query_labels "b1" d) (query_subtasks cardIds d)
      (query_attachments cardIds d) (query_comments cardIds d)
      (query_activities cardIds d) in
  NoDup (map Column.id columnsData)
  /\ NoDup (map Card.id cardsData)
  /\ map ColumnWithCards.column view = columnsData
  /\ Permutation
       (map CardWithLabels.card (flat_map ColumnWithCards.cards view))
       cardsData
  /\ Permutation
       (flat_map (fun w => Js.or_nil (CardWithLabels.subtasks w))
                 (flat_map ColumnWithCards.cards view))
       (query_subtasks cardIds d).
Proof.
  intros d columnsData cardsData cardIds view.
  assert (Hcolumns : map Column.id columnsData = ["c1"; "c2"; "c3"])
    by (vm_compute; reflexivity).
  assert (Hcards : map Card.id cardsData = ["k1"; "k2"; "k3"; "k4"])
    by (vm_compute; reflexivity).
  assert (Hnd1 : NoDup (map Column.id columnsData)).
  { rewrite Hcolumns.
    repeat (constructor; [simpl; intuition discriminate|]). constructor. }
  assert (Hnd2 : NoDup (map Card.id cardsData)).
  { rewrite Hcards.
    repeat (constructor; [simpl; intuition discriminate|]). constructor. }
  assert (Hfk : forall c, In c cardsData ->
                          In (Card.column_id c) (map Column.id columnsData)).
  { intros c Hc. rewrite Hcolumns.
    assert (Hrows : cardsData = Db.order (by_position Card.position)
                                  (Db.cards d))
      by (vm_compute; reflexivity).
    rewrite Hrows in Hc.
    assert (Hin : In c (Db.cards d)).
    { clear - Hc. simpl in Hc.
      repeat match type of Hc with
             | _ \/ _ => destruct Hc as [Hc|Hc]
             | False => destruct Hc
             end; subst c; simpl; auto. }
    simpl in Hin.
    repeat match type of Hin with
           | _ \/ _ => destruct Hin as [Hin|Hin]
           | False => destruct Hin
           end; subst c; simpl; auto. }
  assert (Hsub : forall t, In t (query_subtasks cardIds d) ->
                           In (Subtask.card_id t) (map Card.id cardsData)).
  { intros t Ht. rewrite Hcards.
    assert (Hrows : query_subtasks cardIds d
                    = Db.order (by_position Subtask.position) (Db.subtasks d))
      by (vm_compute; reflexivity).
    rewrite Hrows in Ht. simpl in Ht.
    repeat match type of Ht with
           | _ \/ _ => destruct Ht as [Ht|Ht]
           | False => destruct Ht
           end; subst t; simpl; auto. }
  assert (Hatt : forall a, In a (query_attachments cardIds d) ->
                           In (Attachment.card_id a) (map Card.id cardsData)).
  { intros a Ha.
    assert (Hrows : query_attachments cardIds d = [])
      by (vm_compute; reflexivity).
    rewrite Hrows in Ha. destruct Ha. }
  assert (Hcom : forall c, In c (query_comments cardIds d) ->
                           In (Comment.card_id c) (map Card.id cardsData)).
  { intros c Hc. rewrite Hcards.
    assert (Hrows : query_comments cardIds d = Db.comments d)
      by (vm_compute; reflexivity).
    rewrite Hrows in Hc. simpl in Hc.
    destruct Hc as [<-|[]]. simpl. auto. }
  destruct (columnsWithCards_denormalizes columnsData cardsData
              (query_card_labels cardIds d) (query_labels "b1" d)
              (query_subtasks cardIds d) (query_attachments cardIds d)
              (query_comments cardIds d) (query_activities cardIds d)
              Hnd1 Hnd2 Hfk Hsub Hatt Hcom)
    as (Hview & _ & Hperm & _ & Hsubtasks & _).
  split; [exact Hnd1|]. split; [exact Hnd2|]. split; [exact Hview|].
  split; [exact Hperm|exact Hsubtasks].
Defined.
(** ** The view model of [fetchBoard]: its order *)

(** Rows that come ordered by position give an ordered view. *)
Lemma columnsWithCards_ordered
    (columnsData : list Column.t) (cardsData : list Card.t)
    cardLabelsData labelsData subtasksData attachmentsData commentsData
    activitiesData :
  ascending Column.position columnsData ->
  ascending Card.position cardsData ->
  view_ordered
    (columnsWithCards columnsData cardsData cardLabelsData labelsData
       subtasksData attachmentsData commentsData activitiesData).
Proof.
  intros Hcols Hcards. unfold columnsWithCards. split.
  - apply (map_ascending Column.position); [reflexivity|exact Hcols].
  - apply Forall_forall. intros col Hcol.
    apply in_map_iff in Hcol as (column & <- & _). simpl.
    apply (map_ascending Card.position); [reflexivity|].
    now apply filter_ascending.
Qed.

Lemma fetch_cards_and_details_ordered (boardId : string) (columnIds : list string) :
  on_return (fun f _ => ascending Card.position (cardsData f))
            (fetch_cards_and_details boardId columnIds).
Proof.
  unfold fetch_cards_and_details.
  eapply on_return_bind.
  { apply (on_return_select (ascending Card.position)).
    intros d. apply order_ascending. }
  intros cardsRes HcardsRes.
  eapply on_return_bind.
  { apply (on_return_or_throw (ascending Card.position)). exact HcardsRes. }
  intros cards Hcards.
  eapply on_return_bind; [apply on_return_any|]. intros details _.
  eapply on_return_bind; [apply on_return_any|]. intros labels _.
  eapply on_return_bind; [apply on_return_any|]. intros cardLabels _.
  destruct details as [[[subtasks attachments] comments] activities].
  apply on_return_ret. intros _. exact Hcards.
Qed.

(** C7: in the view model produced by [fetchBoard] the columns appear in
    ascending position order, and within each column the cards appear in
    ascending position order.  ([fetchBoard] produces a view model when it
    ends without an error message; otherwise it leaves the old one.) *)
Theorem fetchBoard_view_ordered (s : State) :
  error (hook (snd (fetchBoard s))) = None ->
  view_ordered (columns (hook (snd (fetchBoard s)))).
Proof.
  change (wp fetchBoard
            (fun _ s' => error (hook s') = None ->
                         view_ordered (columns (hook s'))) s).
  unfold fetchBoard.
  apply wp_bind. unfold emit. apply wp_modify.
  apply wp_bind. apply wp_get.
  assert (Hnone : forall s0,
             wp (setBoard None;; setColumns [];; setLoading false)
                (fun _ s' => error (hook s') = None ->
                             view_ordered (columns (hook s'))) s0).
  { intros s0. wp_steps. simpl. intros _. split; constructor. }
  simpl.
  destruct (boardId (env s)) as [boardId|]; [|apply Hnone].
  destruct (negb (Js.truthy boardId)); [apply Hnone|].
  apply wp_finally. apply wp_try_catch.
  eapply (on_return_wp (fun _ s' => view_ordered (columns (hook s')))).
  - eapply on_return_bind; [apply on_return_any|]. intros _ _.
    eapply on_return_bind; [apply on_return_any|]. intros _ _.
    eapply on_return_bind; [apply on_return_any|]. intros boardRes _.
    eapply on_return_bind; [apply on_return_any|]. intros boardData _.
    eapply on_return_bind; [apply on_return_any|]. intros _ _.
    eapply on_return_bind.
    { apply (on_return_select (ascending Column.position)).
      intros d. apply order_ascending. }
    intros columnsRes HcolumnsRes.
    eapply on_return_bind.
    { apply (on_return_or_throw (ascending Column.position)).
      exact HcolumnsRes. }
    intros columnsData HcolumnsData.
    eapply (on_return_bind
              (fun f => ascending Card.position (cardsData f))).
    { destruct (0 <? List.length (map Column.id columnsData))%nat.
      - apply fetch_cards_and_details_ordered.
      - apply on_return_ret. intros _. constructor. }
    intros f Hf.
    unfold setColumns. apply on_return_modify. intros s0. simpl.
    now apply columnsWithCards_ordered.
  - intros [] s' Hordered. wp_steps. simpl. auto.
  - intros e s'. wp_steps. simpl. discriminate.
Qed.

Lemma fetchBoard_view_ordered_witness :
  let s := Sample.unloaded Sample.accepting "In Progress" in
  error (hook (snd (fetchBoard s))) = None
  /\ map ColumnWithCards.id (columns (hook (snd (fetchBoard s))))
     = ["c1"; "c2"; "c3"]
  /\ view_ordered (columns (hook (snd (fetchBoard s)))).
Proof.
  intros s.
  assert (Herror : error (hook (snd (fetchBoard s))) = None)
    by (vm_compute; reflexivity).
  split; [exact Herror|]. split; [vm_compute; reflexivity|].
  exact (fetchBoard_view_ordered s Herror).
Defined.
(** ** The board filter *)

Section FilterFacts.

Variable toLowerCase : string -> string.
Variable startOfDay : string -> option Z.
Variable today : Z.
Variable nextWeek : Z.

Let passes := cardPasses toLowerCase startOfDay today nextWeek.
Let wanted := all_predicates toLowerCase startOfDay today nextWeek.

Lemma label_check_agrees (selected : list string) (labels : list Label.t) :
  existsb (fun id => Js.includes_str (map Label.id labels) id) selected
  = existsb (fun l => Js.includes_str selected (Label.id l)) labels.
Proof.
  unfold Js.includes_str.
  apply Bool.eq_iff_eq_true.
  rewrite !existsb_exists.
  split.
  - intros (i & Hi & H).
    apply existsb_exists in H as (y & Hy & H).
    apply String.eqb_eq in H. subst y.
    apply in_map_iff in Hy as (l & Hl & Hin).
    exists l. split; [exact Hin|].
    apply existsb_exists. exists i. split; [exact Hi|].
    apply String.eqb_eq. now symmetry.
  - intros (l & Hl & H).
    apply existsb_exists in H as (i & Hi & H).
    apply String.eqb_eq in H.
    exists i. split; [exact Hi|].
    apply existsb_exists. exists (Label.id l). split.
    + now apply in_map.
    + apply String.eqb_eq. now symmetry.
Qed.

Lemma cardPasses_all_predicates (fs : FilterState) (c : CardWithLabels.t) :
  passes fs c = wanted fs c.
Proof.
  unfold passes, wanted, cardPasses, all_predicates, search_predicate,
    label_predicate, priority_predicate, date_predicate, Js.truthy_opt,
    Js.truthy.
  destruct fs as [q sel prios df]; simpl.
  rewrite (label_check_agrees sel (CardWithLabels.labels c)).
  destruct (CardWithLabels.card c) as [cid ccol ctitle cdesc cpos cdue cprio cass cupd];
    simpl.
  destruct (q =? "")%string; simpl;
    destruct sel as [|i sel']; simpl;
    destruct prios as [|p prios']; simpl;
    destruct cdesc as [d|]; simpl;
    destruct cdue as [due|]; simpl;
    destruct df; simpl;
    repeat match goal with
           | |- context [Js.includes ?a ?b] => destruct (Js.includes a b); simpl
           | |- context [existsb ?f ?l] => destruct (existsb f l); simpl
           | |- context [Priority_eqb ?a ?b] => destruct (Priority_eqb a b); simpl
           | |- context [(?a =? ?b)%string] => destruct (a =? b)%string; simpl
           | |- context [date_ge ?a ?b] => destruct (date_ge a b); simpl
           | |- context [date_lt ?a ?b] => destruct (date_lt a b); simpl
           | |- context [date_gt ?a ?b] => destruct (date_gt a b); simpl
           | |- context [date_neq ?a ?b] => destruct (date_neq a b); simpl
           end;
    try reflexivity.
Qed.

End FilterFacts.

(** C8: with the default filter state [filteredColumns] is the identity; for
    every filter state it keeps the columns and their order, and the cards it
    leaves in a column are a subsequence of the column's cards: exactly
    those that satisfy the search, label, priority and date predicates
    together. *)
Theorem filteredColumns_conservative
    (toLowerCase : string -> string) (startOfDay : string -> option Z)
    (today nextWeek : Z) :
  (forall columns,
      filteredColumns toLowerCase startOfDay today nextWeek
        DEFAULT_FILTER_STATE columns = columns)
  /\ (forall filterState columns,
        Forall2
          (fun col shown =>
             ColumnWithCards.column shown = ColumnWithCards.column col
             /\ subsequence (ColumnWithCards.cards shown)
                            (ColumnWithCards.cards col)
             /\ ColumnWithCards.cards shown
                = filter (all_predicates toLowerCase startOfDay today nextWeek
                            filterState)
                         (ColumnWithCards.cards col))
          columns
          (filteredColumns toLowerCase startOfDay today nextWeek
             filterState columns)).
Proof.
  split.
  - intros columns. reflexivity.
  - intros fs columns. unfold filteredColumns.
    match goal with |- context [if ?b then _ else _] => destruct b eqn:Hdefault end.
    + (* no filter is active: every card satisfies the four predicates *)
      assert (Hall : forall c,
                 all_predicates toLowerCase startOfDay today nextWeek fs c = true).
      { intros c. destruct fs as [q sel prios df]; simpl in Hdefault.
        apply andb_prop in Hdefault as [Hdefault Hdf].
        apply andb_prop in Hdefault as [Hdefault Hp].
        apply andb_prop in Hdefault as [Hq Hs].
        unfold Js.truthy in Hq. apply negb_true_iff, negb_false_iff in Hq.
        destruct sel; [|discriminate]. destruct prios; [|discriminate].
        destruct df; try discriminate.
        unfold all_predicates, search_predicate, label_predicate,
          priority_predicate, date_predicate; simpl.
        now rewrite Hq. }
      induction columns as [|col rest IH]; constructor; auto.
      split; [reflexivity|]. split.
      * rewrite <- (filter_all_true _ (ColumnWithCards.cards col)
                      (fun c _ => Hall c)) at 1.
        apply filter_subsequence.
      * symmetry. apply filter_all_true. auto.
    + clear Hdefault.
      induction columns as [|col rest IH]; simpl; constructor; auto.
      simpl. split; [reflexivity|]. split.
      * apply filter_subsequence.
      * apply filter_ext. intros c.
        apply cardPasses_all_predicates.
Qed.
(** ** New rows go to the end *)

Lemma fold_max_greatest (rest : list Z) (x : Z) :
  In (fold_left Z.max rest x) (x :: rest)
  /\ forall y, In y (x :: rest) -> y <= fold_left Z.max rest x.
Proof.
  revert x. induction rest as [|z rest IH]; intros x; simpl.
  - split; [auto|]. intros y [->|[]]. lia.
  - destruct (IH (Z.max x z)) as [Hin Hle]. split.
    + destruct Hin as [Heq|Hin]; [|auto].
      rewrite <- Heq. destruct (Z.max_spec x z) as [[_ ->]|[_ ->]]; auto.
    + intros y Hy.
      assert (Z.max x z <= fold_left Z.max rest (Z.max x z))
        by (apply Hle; now left).
      destruct Hy as [->|[->|Hy]]; [lia|lia|].
      apply Hle. now right.
Qed.

Lemma max_or_minus_one_next (ps : list Z) :
  next_position ps (Js.max_or_minus_one ps + 1).
Proof.
  destruct ps as [|x rest]; simpl; [reflexivity|].
  destruct (fold_max_greatest rest x) as [Hin Hle].
  exists (fold_left Z.max rest x). auto.
Qed.

(** C9: new columns and cards are appended at the end.  When the store
    accepts the insert, [addColumn] adds one column row whose position is one
    more than the greatest position among the columns of the view (0 when
    the view has no column), and [addCard] adds one card row whose position
    is one more than the greatest position among the cards of the target
    column (0 when that column is empty). *)
Theorem new_rows_positioned_last :
  (forall s title board generated,
      boardId (env s) = Some board -> Js.truthy board = true ->
      service (env s) (requests s) = Accepted generated ->
      exists row,
        fst (addColumn title s) = Returned (Some row)
        /\ Db.columns (db (snd (addColumn title s))) = Db.columns (db s) ++ [row]
        /\ Column.board_id row = board /\ Column.title row = title
        /\ next_position (map ColumnWithCards.position (columns (hook s)))
                         (Column.position row))
  /\ (forall s columnId title column generated,
         find (fun c => (ColumnWithCards.id c =? columnId)%string)
              (columns (hook s)) = Some column ->
         service (env s) (requests s) = Accepted generated ->
         exists row,
           fst (addCard columnId title s) = Returned (Some row)
           /\ Db.cards (db (snd (addCard columnId title s)))
              = Db.cards (db s) ++ [row]
           /\ Card.column_id row = columnId /\ Card.title row = title
           /\ next_position
                (map (fun c => Card.position (CardWithLabels.card c))
                     (ColumnWithCards.cards column))
                (Card.position row)).
Proof.
  split.
  - intros s title board generated Hboard Htruthy Haccepted.
    set (row := Column.mk (generated 0%nat) board title
                  (Js.max_or_minus_one
                     (map ColumnWithCards.position (columns (hook s))) + 1)
                  (default_wip_limit (env s))).
    exists row.
    change (wp (addColumn title)
              (fun r s' =>
                 r = Returned (Some row)
                 /\ Db.columns (db s') = Db.columns (db s) ++ [row]
                 /\ Column.board_id row = board /\ Column.title row = title
                 /\ next_position
                      (map ColumnWithCards.position (columns (hook s)))
                      (Column.position row)) s).
    unfold addColumn.
    apply wp_bind, wp_get. rewrite Hboard, Htruthy. simpl.
    apply wp_try_catch, wp_bind.
    unfold insert_returning. apply wp_bind, wp_request.
    rewrite Haccepted. wp_steps.
    apply (wp_call only_read);
      [apply fetchBoard_returns|apply fetchBoard_only_reads|].
    intros [] s' (_ & Hdb & _). wp_steps.
    split; [reflexivity|]. split; [rewrite Hdb; reflexivity|].
    simpl. repeat split. apply max_or_minus_one_next.
  - intros s columnId title column generated Hfind Haccepted.
    set (positions := map (fun c => Card.position (CardWithLabels.card c))
                          (ColumnWithCards.cards column)).
    set (row := Card.mk (generated 0%nat) columnId title None
                  (Js.max_or_minus_one positions + 1) None
                  (default_priority (env s)) None (clock (env s))).
    exists row.
    change (wp (addCard columnId title)
              (fun r s' =>
                 r = Returned (Some row)
                 /\ Db.cards (db s') = Db.cards (db s) ++ [row]
                 /\ Card.column_id row = columnId /\ Card.title row = title
                 /\ next_position positions (Card.position row)) s).
    unfold addCard.
    apply wp_try_catch, wp_bind, wp_get. rewrite Hfind.
    apply wp_bind.
    unfold insert_returning. apply wp_bind, wp_request.
    rewrite Haccepted. wp_steps.
    apply (wp_call only_logged);
      [apply logActivity_returns|apply logActivity_only_logs|].
    intros [] s' (_ & _ & _ & Hdb & _). wp_steps.
    split; [reflexivity|]. split.
    + unfold unchanged, all_but_activities in Hdb. simpl in Hdb.
      now inversion Hdb.
    + simpl. repeat split. apply max_or_minus_one_next.
Qed.

Lemma new_rows_positioned_last_witness :
  let s := Sample.on_screen Sample.accepting "In Progress" in
  boardId (env s) = Some "b1" /\ Js.truthy "b1" = true
  /\ service (env s) (requests s) = Accepted (Sample.generated 0)
  /\ exists row,
       fst (addColumn "Review" s) = Returned (Some row)
       /\ Db.columns (db (snd (addColumn "Review" s)))
          = Db.columns (db s) ++ [row]
       /\ Column.board_id row = "b1" /\ Column.title row = "Review"
       /\ next_position (map ColumnWithCards.position (columns (hook s)))
                        (Column.position row).
Proof.
  intros s.
  split; [reflexivity|]. split; [reflexivity|]. split; [reflexivity|].
  exact (proj1 new_rows_positioned_last s "Review" "b1" (Sample.generated 0)
               eq_refl eq_refl eq_refl).
Defined.
(** ** Creating a board *)

(** X29: when the store accepts the insert of the board and the insert of
    its default columns, [createBoard] hands back the new board and exactly
    three columns have been created for it: 'To Do', 'In Progress' and
    'Done', at positions 0, 1 and 2. *)
Theorem createBoard_adds_defaults s title orgId generated generated' :
  service (env s) (requests s) = Accepted generated ->
  service (env s) (S (requests s)) = Accepted generated' ->
  exists b c1 c2 c3,
    fst (createBoard title orgId s) = Returned (Some b)
    /\ Board.title b = title
    /\ Db.boards (db (snd (createBoard title orgId s))) = Db.boards (db s) ++ [b]
    /\ Db.columns (db (snd (createBoard title orgId s)))
       = Db.columns (db s) ++ [c1; c2; c3]
    /\ default_columns_of b c1 c2 c3.
Proof.
  intros Hboard Hcolumns.
  change (wp (createBoard title orgId)
            (fun r s' =>
               exists b c1 c2 c3,
                 r = Returned (Some b)
                 /\ Board.title b = title
                 /\ Db.boards (db s') = Db.boards (db s) ++ [b]
                 /\ Db.columns (db s') = Db.columns (db s) ++ [c1; c2; c3]
                 /\ default_columns_of b c1 c2 c3) s).
  unfold createBoard.
  wp_steps. wp_reply Hboard. wp_steps. wp_reply Hcolumns. wp_steps.
  simpl. do 4 eexists. split; [reflexivity|].
  unfold default_columns_of, defaultColumns. simpl.
  repeat split.
Qed.

Lemma createBoard_adds_defaults_witness :
  let s := Sample.unloaded Sample.accepting "In Progress" in
  service (env s) (requests s) = Accepted (Sample.generated 0)
  /\ service (env s) (S (requests s)) = Accepted (Sample.generated 1)
  /\ exists b c1 c2 c3,
       fst (createBoard "Plans" None s) = Returned (Some b)
       /\ Board.title b = "Plans"
       /\ Db.boards (db (snd (createBoard "Plans" None s)))
          = Db.boards (db s) ++ [b]
       /\ Db.columns (db (snd (createBoard "Plans" None s)))
          = Db.columns (db s) ++ [c1; c2; c3]
       /\ default_columns_of b c1 c2 c3.
Proof.
  intros s.
  split; [reflexivity|]. split; [reflexivity|].
  apply (createBoard_adds_defaults s "Plans" None
           (Sample.generated 0) (Sample.generated 1));
    reflexivity.
Defined.

(** C10, where the code misses it: the store accepts the board and rejects
    the columns.  [createBoard] reads the error of the first insert and
    throws it, but awaits the insert of the columns without reading its
    answer: it hands the board back, and the board has no column. *)
Lemma createBoard_without_columns : ~ createBoard_always_adds_defaults.
Proof.
  intros H.
  destruct (H (Sample.unloaded (Sample.rejecting 1) "In Progress") "Plans" None
              (Board.mk (Sample.generated 0 0) "Plans" None) eq_refl)
    as (c1 & c2 & c3 & Hcolumns & _).
  vm_compute in Hcolumns. discriminate Hcolumns.
Qed.
(** ** WIP limits *)

(** C4, amended: the add-card button of a column is disabled exactly when
    the column has a limit and the number of cards it shows has reached it;
    [moveCard] checks no limit: whenever the store accepts the update, the
    card is in the target column afterwards, however full that column is. *)
Theorem wip_limit_guards_the_add_button_only :
  (forall column,
      columnFooter column false = AddCardBtn true <->
      exists limit,
        Column.wip_limit (ColumnWithCards.column column) = Some limit
        /\ limit <= cardCount column)
  /\ (forall s cardId targetColumnId newPosition generated,
         service (env s) (requests s) = Accepted generated ->
         let s' := snd (moveCard cardId targetColumnId newPosition s) in
         fst (moveCard cardId targetColumnId newPosition s) = Returned true
         /\ Db.cards (db s')
            = Db.update_where (fun c => (Card.id c =? cardId)%string)
                (moved targetColumnId newPosition (clock (env s)))
                (Db.cards (db s))
         /\ forall c, In c (Db.cards (db s')) -> Card.id c = cardId ->
                      Card.column_id c = targetColumnId
                      /\ Card.position c = newPosition).
Proof.
  split.
  - intros column. unfold columnFooter, isOverLimit.
    destruct (Column.wip_limit (ColumnWithCards.column column)) as [limit|].
    + split.
      * intros [= H]. exists limit. split; [reflexivity|now apply Z.leb_le].
      * intros (l & [= <-] & H). f_equal. now apply Z.leb_le.
    + split; [discriminate|]. intros (l & H & _). discriminate.
  - intros s cardId targetColumnId newPosition generated Haccepted s'.
    subst s'.
    apply (wp_run (moveCard cardId targetColumnId newPosition)
             (fun r s' =>
                r = Returned true
                /\ Db.cards (db s') = _
                /\ forall c, In c (Db.cards (db s')) -> Card.id c = cardId ->
                             Card.column_id c = targetColumnId
                             /\ Card.position c = newPosition)).
    eapply moveCard_accepted; [exact Haccepted|].
    intros s' (_ & Hcards & _). split; [reflexivity|]. split; [exact Hcards|].
    intros c Hc Hid. rewrite Hcards in Hc. unfold Db.update_where in Hc.
    apply in_map_iff in Hc as (old & Hc & _).
    destruct (Card.id old =? cardId)%string eqn:E.
    + subst c. split; reflexivity.
    + subst c. apply String.eqb_neq in E. contradiction.
Qed.

Lemma wip_limit_guards_the_add_button_only_witness :
  let s := Sample.on_screen Sample.accepting "In Progress" in
  let s' := snd (moveCard "k1" "c3" 0 s) in
  service (env s) (requests s) = Accepted (Sample.generated 0)
  /\ fst (moveCard "k1" "c3" 0 s) = Returned true
  /\ forall c, In c (Db.cards (db s')) -> Card.id c = "k1" ->
               Card.column_id c = "c3" /\ Card.position c = 0.
Proof.
  intros s s'. split; [reflexivity|].
  destruct (proj2 wip_limit_guards_the_add_button_only s "k1" "c3" 0
              (Sample.generated 0) eq_refl) as (Hret & _ & Hmoved).
  split; [exact Hret|exact Hmoved].
Defined.

(** C4 fails as worded: the last column of the sample board takes one card
    and holds one; moving a second card into it is accepted, and the column
    then holds two. *)
Lemma moveCard_overfills_column : ~ moveCard_respects_wip_limits.
Proof.
  intros H.
  specialize (H (Sample.on_screen Sample.accepting "In Progress") "k1" "c3" 0).
  assert (Hbefore : within_wip_limits
                      (db (Sample.on_screen Sample.accepting "In Progress"))).
  { intros column limit Hin Hlimit. simpl in Hin.
    destruct Hin as [<-|[<-|[<-|[]]]]; try discriminate Hlimit.
    injection Hlimit as <-. vm_compute. discriminate. }
  specialize (H Hbefore (Column.mk "c3" "b1" "Done" 2 (Some 1)) 1).
  assert (Hin : In (Column.mk "c3" "b1" "Done" 2 (Some 1))
                   (Db.columns
                      (db (snd (moveCard "k1" "c3" 0
                                  (Sample.on_screen Sample.accepting
                                     "In Progress")))))).
  { vm_compute. auto. }
  specialize (H Hin eq_refl). vm_compute in H. apply H. reflexivity.
Qed.
(** ** The subtask automation: when it does not fire *)

Lemma find_subtask_some subtaskId card t :
  find_subtask subtaskId card = Some t -> lists_subtask subtaskId card.
Proof.
  unfold find_subtask, lists_subtask.
  destruct (CardWithLabels.subtasks card) as [subtasks|]; [|discriminate].
  intros H. apply find_some in H as [Hin Heq].
  apply String.eqb_eq in Heq. subst subtaskId. simpl. now apply in_map.
Qed.

Lemma find_subtask_none subtaskId card :
  find_subtask subtaskId card = None -> ~ lists_subtask subtaskId card.
Proof.
  unfold find_subtask, lists_subtask.
  destruct (CardWithLabels.subtasks card) as [subtasks|]; simpl; [|auto].
  intros H Hin. apply in_map_iff in Hin as (t & Hid & Hin).
  apply (find_none _ _ H) in Hin. simpl in Hin.
  apply String.eqb_neq in Hin. contradiction.
Qed.

(** What the two loops have found is a card of the board that lists the
    subtask, unless it is what they started with. *)
Lemma scan_cards_sound subtaskId cards found :
  scan_cards subtaskId cards found = found
  \/ exists card,
       In card cards /\ lists_subtask subtaskId card
       /\ scan_cards subtaskId cards found
          = (Some (CardWithLabels.id card),
             Js.or_nil (CardWithLabels.subtasks card)).
Proof.
  induction cards as [|card rest IH]; simpl; [now left|].
  destruct (find_subtask subtaskId card) as [t|] eqn:E.
  - right. exists card. split; [now left|]. split; [|reflexivity].
    eapply find_subtask_some; eauto.
  - destruct IH as [IH|(c & Hin & Hl & IH)]; [now left|].
    right. exists c. auto.
Qed.

Lemma scan_columns_sound subtaskId columns found :
  scan_columns subtaskId columns found = found
  \/ exists col card,
       In col columns /\ In card (ColumnWithCards.cards col)
       /\ lists_subtask subtaskId card
       /\ scan_columns subtaskId columns found
          = (Some (CardWithLabels.id card),
             Js.or_nil (CardWithLabels.subtasks card)).
Proof.
  revert found. induction columns as [|col rest IH]; intros found; simpl;
    [now left|].
  destruct (scan_cards_sound subtaskId (ColumnWithCards.cards col) found)
    as [Hsame|(card & Hin & Hl & Hfound)].
  - rewrite Hsame.
    destruct (Js.truthy_opt (fst found)); [now left|].
    destruct (IH found) as [H|(c & k & Hc & Hk & Hl & H)]; [now left|].
    right. exists c, k. repeat split; auto.
  - rewrite Hfound. simpl.
    destruct (Js.truthy (CardWithLabels.id card)).
    + right. exists col, card. repeat split; auto.
    + destruct (IH (Some (CardWithLabels.id card),
                    Js.or_nil (CardWithLabels.subtasks card)))
        as [H|(c & k & Hc & Hk & Hl' & H)].
      * right. exists col, card. rewrite H. repeat split; auto.
      * right. exists c, k. repeat split; auto.
Qed.

Section AutomationFacts.

Variable toLowerCase : string -> string.

Lemma siblings_complete_checked subtaskId card :
  forallb Subtask.is_completed
    (filter (fun s => negb (Subtask.id s =? subtaskId)%string)
            (Js.or_nil (CardWithLabels.subtasks card))) = true
  <-> siblings_complete subtaskId card.
Proof.
  unfold siblings_complete. rewrite forallb_forall. split.
  - intros H t Hin Hne. apply H. apply filter_In. split; [exact Hin|].
    now apply negb_true_iff, String.eqb_neq.
  - intros H t Hin. apply filter_In in Hin as [Hin Hne].
    apply negb_true_iff, String.eqb_neq in Hne. auto.
Qed.

(** Step 2 of [toggleSubtask] either does nothing, or is in the
    automation case and moves the card to the first matching column. *)
Lemma automation_cases subtaskId columns :
  automation toLowerCase subtaskId columns = ret None
  \/ exists card done,
       automation_case toLowerCase columns subtaskId
       /\ find (is_done_column toLowerCase) columns = Some done
       /\ automation toLowerCase subtaskId columns
          = (moveCard (CardWithLabels.id card) (ColumnWithCards.id done) 0 ;;
             ret (Some (automation_message (ColumnWithCards.title done)))).
Proof.
  unfold automation.
  destruct (scan_columns_sound subtaskId columns (None, []))
    as [Hnone|(col & card & Hcol & Hcard & Hlists & Hfound)].
  - rewrite Hnone. now left.
  - rewrite Hfound.
    destruct (Js.truthy (CardWithLabels.id card)
              && (0 <? List.length (Js.or_nil (CardWithLabels.subtasks card)))%nat);
      [|now left].
    destruct (forallb _ _) eqn:Hall; [|now left].
    apply siblings_complete_checked in Hall.
    destruct (find (is_done_column toLowerCase) columns) as [done|] eqn:Hdone;
      [|now left].
    destruct (find (holds_card (CardWithLabels.id card)) columns)
      as [current|] eqn:Hcurrent; [|now left].
    destruct (negb _) eqn:Hdiffer; [|now left].
    right. exists card, done. split; [|split; reflexivity].
    exists card, done, current.
    apply find_some in Hcurrent as [Hin Hholds].
    apply negb_true_iff, String.eqb_neq in Hdiffer.
    repeat split; eauto.
Qed.

End AutomationFacts.

(** The cases the claim lists are outside the automation case: no column
    title matches; or the one card that lists the subtask has an incomplete
    sibling; or every column that holds a card listing the subtask is the
    first matching column itself. *)
Lemma other_cases (toLowerCase : string -> string)
    (columns : list ColumnWithCards.t) (subtaskId : string) :
  (find (is_done_column toLowerCase) columns = None ->
   ~ automation_case toLowerCase columns subtaskId)
  /\ (forall card t,
         In t (Js.or_nil (CardWithLabels.subtasks card)) ->
         Subtask.id t <> subtaskId -> Subtask.is_completed t = false ->
         (forall col' card',
             In col' columns -> In card' (ColumnWithCards.cards col') ->
             lists_subtask subtaskId card' -> card' = card) ->
         ~ automation_case toLowerCase columns subtaskId)
  /\ (forall done,
         find (is_done_column toLowerCase) columns = Some done ->
         (forall col card current,
             In col columns -> In card (ColumnWithCards.cards col) ->
             lists_subtask subtaskId card ->
             In current columns ->
             holds_card (CardWithLabels.id card) current = true ->
             ColumnWithCards.id current = ColumnWithCards.id done) ->
         ~ automation_case toLowerCase columns subtaskId).
Proof.
  split; [|split].
  - intros Hnone (card & done & current & _ & _ & _ & Hdone & _).
    congruence.
  - intros card t Ht Hne Hopen Honly
      (card' & done & current & (col & Hcol & Hcard) & Hlists & Hsiblings & _).
    rewrite (Honly col card' Hcol Hcard Hlists) in Hsiblings.
    rewrite (Hsiblings t Ht Hne) in Hopen. discriminate.
  - intros done Hdone Hsame
      (card & done' & current & (col & Hcol & Hcard) & Hlists & _ & Hdone'
       & Hcurrent & Hholds & Hdiffer).
    rewrite Hdone in Hdone'. injection Hdone' as <-.
    apply Hdiffer. symmetry. eauto.
Qed.

(** C2: in every other case [toggleSubtask] moves nothing and returns no
    automation message.  The other cases are: the subtask is being marked
    incomplete, or the board is not in the automation case (no card lists
    the subtask, or a sibling subtask is incomplete, or no column title
    matches, or the first matching column is one that holds the card).  The
    card rows of the store, column and position included, are then what they
    were, whether or not the store accepts the update of the subtask. *)
Theorem toggleSubtask_otherwise_moves_nothing
    (toLowerCase : string -> string) s subtaskId isCompleted :
  isCompleted = false
  \/ ~ automation_case toLowerCase (columns (hook s)) subtaskId ->
  fst (toggleSubtask toLowerCase subtaskId isCompleted s)
  = Returned {| automationMessage := None |}
  /\ Db.cards (db (snd (toggleSubtask toLowerCase subtaskId isCompleted s)))
     = Db.cards (db s).
Proof.
  intros Hother.
  assert (Hnone : (if isCompleted
                   then automation toLowerCase subtaskId (columns (hook s))
                   else ret None) = ret None).
  { destruct isCompleted; [|reflexivity].
    destruct Hother as [Hfalse|Hnot]; [discriminate|].
    destruct (automation_cases toLowerCase subtaskId (columns (hook s)))
      as [H|(card & done & Hcase & _)]; [exact H|contradiction]. }
  change (wp (toggleSubtask toLowerCase subtaskId isCompleted)
            (fun r s' => r = Returned {| automationMessage := None |}
                         /\ Db.cards (db s') = Db.cards (db s)) s).
  unfold toggleSubtask.
  apply wp_try_catch, wp_bind, wp_get. cbv beta.
  rewrite Hnone.
  wp_steps. apply wp_request. wp_calls.
  - match goal with H : fetched _ _ |- _ => destruct H as (_ & Hdb & _) end.
    rewrite Hdb. split; reflexivity.
  - split; reflexivity.
Qed.

Lemma toggleSubtask_otherwise_moves_nothing_witness :
  let s := Sample.on_screen Sample.accepting "In Progress" in
  (false = false
   \/ ~ automation_case ascii_toLowerCase (columns (hook s)) "s1")
  /\ fst (toggleSubtask ascii_toLowerCase "s1" false s)
     = Returned {| automationMessage := None |}
  /\ Db.cards (db (snd (toggleSubtask ascii_toLowerCase "s1" false s)))
     = Db.cards (db s).
Proof.
  intros s. split; [now left|].
  apply (toggleSubtask_otherwise_moves_nothing ascii_toLowerCase s "s1" false).
  now left.
Defined.
(** ** The subtask automation: when it fires *)

Lemma scan_cards_complete subtaskId cards found card :
  In card cards -> lists_subtask subtaskId card ->
  exists c,
    In c cards /\ lists_subtask subtaskId c
    /\ scan_cards subtaskId cards found
       = (Some (CardWithLabels.id c), Js.or_nil (CardWithLabels.subtasks c)).
Proof.
  induction cards as [|c rest IH]; simpl; [contradiction|].
  intros Hin Hlists.
  destruct (find_subtask subtaskId c) as [t|] eqn:E.
  - exists c. split; [now left|]. split; [|reflexivity].
    eapply find_subtask_some; eauto.
  - destruct Hin as [->|Hin].
    + apply find_subtask_none in E. contradiction.
    + destruct (IH Hin Hlists) as (c' & Hc' & Hl & H).
      exists c'. auto.
Qed.

Lemma scan_columns_finds subtaskId columns col card :
  In col columns -> In card (ColumnWithCards.cards col) ->
  lists_subtask subtaskId card ->
  (forall col' card',
      In col' columns -> In card' (ColumnWithCards.cards col') ->
      lists_subtask subtaskId card' -> card' = card) ->
  Js.truthy (CardWithLabels.id card) = true ->
  forall found,
    Js.truthy_opt (fst found) = false ->
    scan_columns subtaskId columns found
    = (Some (CardWithLabels.id card), Js.or_nil (CardWithLabels.subtasks card)).
Proof.
  intros Hcol Hcard Hlists Honly Htruthy.
  induction columns as [|col0 rest IH]; intros found Hfalsy; simpl;
    [contradiction|].
  assert (Hfirst : forall c,
             In c (ColumnWithCards.cards col0) -> lists_subtask subtaskId c ->
             scan_cards subtaskId (ColumnWithCards.cards col0) found
             = (Some (CardWithLabels.id card),
                Js.or_nil (CardWithLabels.subtasks card))).
  { intros c Hc Hl.
    destruct (scan_cards_complete subtaskId _ found c Hc Hl)
      as (c' & Hc' & Hl' & H).
    rewrite H. now rewrite (Honly col0 c' (or_introl eq_refl) Hc' Hl'). }
  destruct (scan_cards_sound subtaskId (ColumnWithCards.cards col0) found)
    as [Hsame|(c & Hc & Hl & _)].
  - rewrite Hsame, Hfalsy.
    destruct Hcol as [->|Hcol].
    + rewrite (Hfirst card Hcard Hlists) in Hsame.
      rewrite <- Hsame in Hfalsy. simpl in Hfalsy. congruence.
    + apply IH; auto.
      intros col' card' Hcol'. apply Honly. now right.
  - rewrite (Hfirst c Hc Hl). simpl. now rewrite Htruthy.
Qed.

Lemma automation_fires (toLowerCase : string -> string)
    subtaskId columns col card done :
  In col columns -> In card (ColumnWithCards.cards col) ->
  lists_subtask subtaskId card ->
  siblings_complete subtaskId card ->
  find (is_done_column toLowerCase) columns = Some done ->
  ColumnWithCards.id done <> ColumnWithCards.id col ->
  (forall col' card',
      In col' columns -> In card' (ColumnWithCards.cards col') ->
      lists_subtask subtaskId card' -> card' = card) ->
  (forall col',
      In col' columns -> holds_card (CardWithLabels.id card) col' = true ->
      ColumnWithCards.id col' = ColumnWithCards.id col) ->
  CardWithLabels.id card <> "" ->
  automation toLowerCase subtaskId columns
  = (moveCard (CardWithLabels.id card) (ColumnWithCards.id done) 0 ;;
     ret (Some (automation_message (ColumnWithCards.title done)))).
Proof.
  intros Hcol Hcard Hlists Hsiblings Hdone Hdiffer Honly Hplace Hid.
  assert (Htruthy : Js.truthy (CardWithLabels.id card) = true).
  { unfold Js.truthy. now apply negb_true_iff, String.eqb_neq. }
  unfold automation.
  rewrite (scan_columns_finds subtaskId columns col card Hcol Hcard Hlists
             Honly Htruthy (None, []) eq_refl).
  rewrite Htruthy.
  assert (Hlen : (0 <? List.length (Js.or_nil (CardWithLabels.subtasks card)))%nat
                 = true).
  { unfold lists_subtask in Hlists.
    destruct (Js.or_nil (CardWithLabels.subtasks card)); [contradiction|].
    reflexivity. }
  rewrite Hlen. simpl andb. cbv iota.
  rewrite (proj2 (siblings_complete_checked subtaskId card) Hsiblings).
  rewrite Hdone.
  assert (Hholds : holds_card (CardWithLabels.id card) col = true).
  { unfold holds_card. apply existsb_exists. exists card.
    split; [exact Hcard|apply String.eqb_refl]. }
  destruct (find (holds_card (CardWithLabels.id card)) columns)
    as [current|] eqn:Hcurrent.
  - apply find_some in Hcurrent as [Hin Hc].
    rewrite (Hplace current Hin Hc).
    apply String.eqb_neq in Hdiffer. rewrite Hdiffer. reflexivity.
  - apply (find_none _ _ Hcurrent) in Hcol. congruence.
Qed.

Lemma automation_message_truthy title :
  Js.truthy (automation_message title) = true.
Proof. reflexivity. Qed.

(** C1, amended: when [toggleSubtask] marks a subtask complete, the subtask
    belongs to one card of the board, every other subtask of that card is
    complete, the first column of the board whose title matches differs from
    the card's column, and the store accepts the update of the subtask and
    the update of the card, then the card goes to that first matching column
    at position 0, [toggleSubtask] returns the automation message, and
    [handleToggleSubtask] fires the confetti and shows the message as a
    success toast. *)
Theorem toggleSubtask_automation (toLowerCase : string -> string)
    s subtaskId col card done generated generated' :
  In col (columns (hook s)) -> In card (ColumnWithCards.cards col) ->
  lists_subtask subtaskId card ->
  siblings_complete subtaskId card ->
  find (is_done_column toLowerCase) (columns (hook s)) = Some done ->
  ColumnWithCards.id done <> ColumnWithCards.id col ->
  (forall col' card',
      In col' (columns (hook s)) -> In card' (ColumnWithCards.cards col') ->
      lists_subtask subtaskId card' -> card' = card) ->
  (forall col',
      In col' (columns (hook s)) ->
      holds_card (CardWithLabels.id card) col' = true ->
      ColumnWithCards.id col' = ColumnWithCards.id col) ->
  CardWithLabels.id card <> "" ->
  service (env s) (requests s) = Accepted generated ->
  service (env s) (S (requests s)) = Accepted generated' ->
  let message := automation_message (ColumnWithCards.title done) in
  let s' := snd (toggleSubtask toLowerCase subtaskId true s) in
  fst (toggleSubtask toLowerCase subtaskId true s)
  = Returned {| automationMessage := Some message |}
  /\ Db.cards (db s')
     = Db.update_where
         (fun c => (Card.id c =? CardWithLabels.id card)%string)
         (moved (ColumnWithCards.id done) 0 (clock (env s)))
         (Db.cards (db s))
  /\ (forall c, In c (Db.cards (db s')) ->
                Card.id c = CardWithLabels.id card ->
                Card.column_id c = ColumnWithCards.id done
                /\ Card.position c = 0)
  /\ fst (handleToggleSubtask toLowerCase subtaskId true s) = Returned tt
  /\ trace (snd (handleToggleSubtask toLowerCase subtaskId true s))
     = trace s' ++ [ConfettiFire; ToastSuccess message].
Proof.
  intros Hcol Hcard Hlists Hsiblings Hdone Hdiffer Honly Hplace Hid
    Haccepted Haccepted' message s'.
  assert (Hmain :
            fst (toggleSubtask toLowerCase subtaskId true s)
            = Returned {| automationMessage := Some message |}
            /\ Db.cards (db s')
               = Db.update_where
                   (fun c => (Card.id c =? CardWithLabels.id card)%string)
                   (moved (ColumnWithCards.id done) 0 (clock (env s)))
                   (Db.cards (db s))).
  { subst s'.
    change (wp (toggleSubtask toLowerCase subtaskId true)
              (fun r s' =>
                 r = Returned {| automationMessage := Some message |}
                 /\ Db.cards (db s')
                    = Db.update_where
                        (fun c => (Card.id c =? CardWithLabels.id card)%string)
                        (moved (ColumnWithCards.id done) 0 (clock (env s)))
                        (Db.cards (db s))) s).
    unfold toggleSubtask.
    apply wp_try_catch, wp_bind, wp_get. cbv beta.
    rewrite (automation_fires toLowerCase subtaskId (columns (hook s)) col card
               done Hcol Hcard Hlists Hsiblings Hdone Hdiffer Honly Hplace Hid).
    wp_steps. wp_reply Haccepted. wp_steps.
    eapply moveCard_accepted; [exact Haccepted'|].
    intros s1 (_ & Hcards & _). wp_steps.
    split; [reflexivity|]. rewrite Hcards. reflexivity. }
  destruct Hmain as [Hresult Hcards].
  split; [exact Hresult|]. split; [exact Hcards|]. split.
  - intros c Hc Hcid. rewrite Hcards in Hc. unfold Db.update_where in Hc.
    apply in_map_iff in Hc as (old & Hc & _).
    destruct (Card.id old =? CardWithLabels.id card)%string eqn:E.
    + subst c. split; reflexivity.
    + subst c. apply String.eqb_neq in E. contradiction.
  - subst s'. unfold handleToggleSubtask, bind.
    destruct (toggleSubtask toLowerCase subtaskId true s) as [r s1].
    simpl in Hresult |- *. subst r. simpl.
    split; [reflexivity|]. now rewrite <- app_assoc.
Qed.

(** Picks, on a sample board, the column at index [i], its card at index
    [j] and the column at index [k]. *)
Ltac pick_on_board s i j k :=
  let view := eval vm_compute in (columns (hook s)) in
  let col := eval vm_compute in (nth_error view i) in
  let done := eval vm_compute in (nth_error view k) in
  lazymatch col with
  | Some ?col =>
      let card := eval vm_compute in
                    (nth_error (ColumnWithCards.cards col) j) in
      lazymatch card with
      | Some ?card =>
          lazymatch done with
          | Some ?done => exists col, card, done
          end
      end
  end.

(** Case analysis on membership in an explicit list. *)
Ltac in_sample H :=
  simpl in H;
  repeat match type of H with
         | _ \/ _ => destruct H as [H|H]
         | False => destruct H
         end.

(** The view of a sample state, computed once. *)
Ltac view_of s Hview :=
  let view := eval vm_compute in (columns (hook s)) in
  assert (Hview : columns (hook s) = view) by (vm_compute; reflexivity).

Lemma toggleSubtask_automation_witness :
  let s := Sample.on_screen Sample.accepting "In Progress" in
  exists col card done,
    In col (columns (hook s)) /\ In card (ColumnWithCards.cards col)
    /\ CardWithLabels.id card = "k1" /\ ColumnWithCards.title done = "Done"
    /\ lists_subtask "s1" card /\ siblings_complete "s1" card
    /\ find (is_done_column ascii_toLowerCase) (columns (hook s)) = Some done
    /\ fst (toggleSubtask ascii_toLowerCase "s1" true s)
       = Returned {| automationMessage := Some (automation_message "Done") |}
    /\ (forall c,
           In c (Db.cards (db (snd (toggleSubtask ascii_toLowerCase "s1" true s)))) ->
           Card.id c = "k1" -> Card.column_id c = "c3" /\ Card.position c = 0)
    /\ trace (snd (handleToggleSubtask ascii_toLowerCase "s1" true s))
       = trace (snd (toggleSubtask ascii_toLowerCase "s1" true s))
         ++ [ConfettiFire; ToastSuccess (automation_message "Done")].
Proof.
  intros s.
  pick_on_board s 0%nat 0%nat 2%nat.
  view_of s Hview.
  match goal with
  | |- In ?col _ /\ In ?card _ /\ _ /\ ColumnWithCards.title ?done = _ /\ _ =>
      assert (Hcol : In col (columns (hook s)))
        by (rewrite Hview; left; reflexivity);
      assert (Hcard : In card (ColumnWithCards.cards col))
        by (left; reflexivity);
      assert (Hlists : lists_subtask "s1" card) by (left; reflexivity);
      assert (Hsiblings : siblings_complete "s1" card)
        by (apply siblings_complete_checked; vm_compute; reflexivity);
      assert (Hdone : find (is_done_column ascii_toLowerCase) (columns (hook s))
                      = Some done) by (rewrite Hview; vm_compute; reflexivity);
      assert (Hdiffer : ColumnWithCards.id done <> ColumnWithCards.id col)
        by (vm_compute; discriminate);
      assert (Hid : CardWithLabels.id card <> "") by (vm_compute; discriminate);
      assert (Honly : forall col' card',
                 In col' (columns (hook s)) ->
                 In card' (ColumnWithCards.cards col') ->
                 lists_subtask "s1" card' -> card' = card)
        by (intros col' card' Hcol' Hcard' Hl; rewrite Hview in Hcol';
            in_sample Hcol'; subst col'; in_sample Hcard'; subst card';
            first [reflexivity
                  |unfold lists_subtask in Hl; in_sample Hl; discriminate Hl]);
      assert (Hplace : forall col',
                 In col' (columns (hook s)) ->
                 holds_card (CardWithLabels.id card) col' = true ->
                 ColumnWithCards.id col' = ColumnWithCards.id col)
        by (intros col' Hcol' Hholds; rewrite Hview in Hcol';
            in_sample Hcol'; subst col';
            first [reflexivity|discriminate Hholds]);
      destruct (toggleSubtask_automation ascii_toLowerCase s "s1" col card
                  done (Sample.generated 0) (Sample.generated 1)
                  Hcol Hcard Hlists Hsiblings Hdone Hdiffer Honly Hplace
                  Hid eq_refl eq_refl)
        as (Hresult & _ & Hmoved & _ & Htrace)
  end.
  split; [exact Hcol|]. split; [exact Hcard|].
  split; [exact eq_refl|]. split; [exact eq_refl|].
  split; [exact Hlists|]. split; [exact Hsiblings|]. split; [exact Hdone|].
  split; [exact Hresult|]. split; [exact Hmoved|exact Htrace].
Defined.

(** C1 fails as worded.  On the sample board whose middle column is called
    'Abandoned', the card of that column has one subtask.  Completing it
    completes the card, and the column 'Done' matches and is another column;
    but 'Abandoned' contains 'done' and comes first, so the column picked is
    the card's own, nothing moves and no message is returned. *)
Lemma automation_stays_in_first_match :
  ~ automation_moves_to_any_match ascii_toLowerCase.
Proof.
  intros H.
  pose (s := Sample.on_screen Sample.accepting "Abandoned").
  assert (Hpick : exists col card done,
             In col (columns (hook s)) /\ In card (ColumnWithCards.cards col)
             /\ lists_subtask "s3" card /\ siblings_complete "s3" card
             /\ In done (columns (hook s))
             /\ is_done_column ascii_toLowerCase done = true
             /\ ColumnWithCards.title done = "Done"
             /\ ColumnWithCards.id done <> ColumnWithCards.id col).
  { pick_on_board s 1%nat 0%nat 2%nat. view_of s Hview.
    split; [rewrite Hview; right; left; reflexivity|].
    split; [left; reflexivity|].
    split; [left; reflexivity|].
    split; [apply siblings_complete_checked; vm_compute; reflexivity|].
    split; [rewrite Hview; right; right; left; reflexivity|].
    split; [vm_compute; reflexivity|].
    split; [reflexivity|].
    vm_compute. discriminate. }
  destruct Hpick
    as (col & card & done & Hcol & Hcard & Hlists & Hsiblings & Hdone & Hmatch
        & _ & Hdiffer).
  destruct (H s "s3" col card done (Sample.generated 0) (Sample.generated 1)
              Hcol Hcard Hlists Hsiblings Hdone Hmatch Hdiffer eq_refl eq_refl)
    as [Hresult _].
  vm_compute in Hresult. discriminate Hresult.
Qed.
(** ** Refetching after a mutation *)

Ltac found_fetch :=
  eexists; split; [reflexivity|];
  repeat first [now left | right | apply in_or_app; right].

Ltac store_shown Hall :=
  match goal with
  | H : accepts_all _ -> shows_store ?s' |- shows_store ?s' =>
      apply H; eapply accepts_all_env; [|exact Hall];
      repeat match goal with
             | E : env _ = _ |- _ => rewrite E
             end;
      reflexivity
  end.

Ltac refetched Hall :=
  unpack_calls; split; [rewrite_traces; found_fetch|store_shown Hall].

Ltac no_fetch :=
  split; [reflexivity|];
  eexists; split; [reflexivity|];
  split; [repeat (constructor; [discriminate|]); first [assumption|constructor]
         |simpl; auto].

(** C3, amended: of the mutating operations, [addColumn], [moveCard],
    [addComment], [deleteComment], [uploadAttachment] and [toggleSubtask]
    call [fetchBoard] when they succeed, and the hook then shows the view
    model rebuilt from the store.  The other eight ([updateColumn],
    [deleteColumn], [reorderColumns], [addCard], [updateCard], [deleteCard],
    [assignCard], [deleteAttachment]) do not, and leave the view model as it
    was: they have written to a table whose change notifications the hook
    listens to, and the refetch is left to the notification. *)
Theorem refetch_after_mutation (toLowerCase : string -> string) op s :
  mutating op = true -> accepts_all s ->
  Js.truthy_opt (boardId (env s)) = true ->
  let s' := snd (run toLowerCase op s) in
  if refetches op
  then In FetchBoard (new_events s s') /\ shows_store s'
  else ~ In FetchBoard (new_events s s')
       /\ columns (hook s') = columns (hook s)
       /\ In (written_table op) subscribed_tables
       /\ In (Request (written_table op) true) (new_events s s').
Proof.
  intros Hmutating Hall Hboard s'. subst s'.
  assert (Hpositive : forall (m : M Value),
             wp m (fun _ s' =>
                     (exists evs,
                         trace s' = trace s ++ evs /\ In FetchBoard evs)
                     /\ shows_store s') s ->
             In FetchBoard (new_events s (snd (m s)))
             /\ shows_store (snd (m s))).
  { intros m ((evs & H & Hin) & Hshows). split; [|exact Hshows].
    now rewrite (new_events_of _ _ _ H). }
  assert (Hnegative : forall (m : M Value) t,
             In t subscribed_tables ->
             wp m (fun _ s' => hook s' = hook s
                               /\ exists evs,
                                    trace s' = trace s ++ evs
                                    /\ Forall not_a_fetch evs
                                    /\ In (Request t true) evs) s ->
             ~ In FetchBoard (new_events s (snd (m s)))
             /\ columns (hook (snd (m s))) = columns (hook s)
             /\ In t subscribed_tables
             /\ In (Request t true) (new_events s (snd (m s)))).
  { intros m t Ht (Hhook & evs & H & Hevs & Hin).
    rewrite (new_events_of _ _ _ H).
    split; [|split; [|split]].
    - now apply not_a_fetch_absent.
    - now rewrite Hhook.
    - exact Ht.
    - exact Hin. }
  destruct op; try discriminate Hmutating; simpl refetches; cbv iota.
  - (* addColumn *)
    apply Hpositive. unfold run, returning, addColumn.
    apply wp_bind, wp_bind, wp_get. cbv beta.
    destruct (boardId (env s)) as [board|]; [|discriminate].
    simpl in Hboard. rewrite Hboard. simpl negb. cbv iota.
    wp_go Hall. refetched Hall.
  - (* updateColumn *)
    apply (Hnegative _ Table.columns); [simpl; auto|].
    unfold run, returning, updateColumn.
    wp_go Hall. unpack_calls. rewrite_traces.
    no_fetch.
  - (* deleteColumn *)
    apply (Hnegative _ Table.columns); [simpl; auto|].
    unfold run, returning, deleteColumn.
    wp_go Hall. unpack_calls. rewrite_traces.
    no_fetch.
  - (* addCard *)
    apply (Hnegative _ Table.cards); [simpl; auto|].
    unfold run, returning, addCard.
    wp_go Hall. unpack_calls. rewrite_traces.
    all: no_fetch.
  - (* updateCard *)
    apply (Hnegative _ Table.cards); [simpl; auto|].
    unfold run, returning, updateCard.
    wp_go Hall. unpack_calls. rewrite_traces.
    no_fetch.
  - (* deleteCard *)
    apply (Hnegative _ Table.cards); [simpl; auto|].
    unfold run, returning, deleteCard.
    wp_go Hall. unpack_calls. rewrite_traces.
    no_fetch.
  - (* moveCard *)
    apply Hpositive. unfold run, returning.
    apply wp_bind.
    destruct (Hall (requests s)) as [generated Hg].
    eapply moveCard_accepted; [exact Hg|].
    intros s1 Hmoved. wp_steps. refetched Hall.
  - (* reorderColumns *)
    apply (Hnegative _ Table.columns); [simpl; auto|].
    unfold run, returning, reorderColumns.
    wp_go Hall. unpack_calls. rewrite_traces.
    no_fetch.
  - (* uploadAttachment *)
    apply Hpositive. unfold run, returning, uploadAttachment.
    wp_go Hall. refetched Hall.
  - (* deleteAttachment *)
    apply (Hnegative _ Table.attachments); [simpl; auto|].
    unfold run, returning, deleteAttachment.
    wp_go Hall. unpack_calls. rewrite_traces.
    no_fetch.
  - (* addComment *)
    apply Hpositive. unfold run, returning, addComment.
    wp_go Hall. refetched Hall.
  - (* deleteComment *)
    apply Hpositive. unfold run, returning, deleteComment.
    wp_go Hall. refetched Hall.
  - (* toggleSubtask *)
    apply Hpositive. unfold run, returning, toggleSubtask.
    apply wp_bind, wp_try_catch, wp_bind, wp_get. cbv beta.
    apply wp_bind. unfold write. apply wp_bind. wp_accept Hall.
    repeat (wp_straight; cbv beta iota).
    assert (Hstep : forall s1,
               env s1 = env s ->
               trace s1 = trace s ++ [Request Table.subtasks true] ->
               wp (if isCompleted
                   then automation toLowerCase subtaskId (columns (hook s))
                   else ret None)
                  (fun r s' =>
                     match r with
                     | Returned (Some _) =>
                         (exists evs, trace s' = trace s ++ evs
                                      /\ In FetchBoard evs)
                         /\ shows_store s'
                     | Returned None =>
                         env s' = env s
                         /\ trace s' = trace s ++ [Request Table.subtasks true]
                     | Thrown _ => False
                     end) s1).
    { intros s1 Henv Htrace.
      destruct isCompleted; [|split; [exact Henv|exact Htrace]].
      destruct (automation_cases toLowerCase subtaskId (columns (hook s)))
        as [->|(card & done & _ & _ & ->)]; [split; [exact Henv|exact Htrace]|].
      apply wp_bind.
      destruct (Hall (requests s1)) as [generated' Hg].
      eapply moveCard_accepted; [rewrite Henv; exact Hg|].
      intros s2 Hmoved. wp_steps. refetched Hall. }
    eapply wp_weaken; [apply Hstep; reflexivity|].
    intros [[message|]|e] s1 H; try contradiction.
    + wp_steps. exact H.
    + destruct H as [Henv Htrace]. wp_go Hall. refetched Hall.
  - (* assignCard *)
    apply (Hnegative _ Table.cards); [simpl; auto|].
    unfold run, returning, assignCard.
    wp_go Hall. unpack_calls. rewrite_traces. no_fetch.
Qed.

Lemma refetch_after_mutation_witness :
  let s := Sample.on_screen Sample.accepting "In Progress" in
  let op := op_addComment "k1" "looks good" in
  mutating op = true
  /\ accepts_all s
  /\ Js.truthy_opt (boardId (env s)) = true
  /\ In FetchBoard (new_events s (snd (run ascii_toLowerCase op s)))
  /\ shows_store (snd (run ascii_toLowerCase op s)).
Proof.
  intros s op.
  assert (Hall : accepts_all s)
    by (intros n; exists (Sample.generated n); reflexivity).
  split; [reflexivity|]. split; [exact Hall|]. split; [reflexivity|].
  exact (refetch_after_mutation ascii_toLowerCase op s eq_refl Hall eq_refl).
Defined.

(** C3 fails as worded: [updateCard] succeeds on the sample board and no
    refetch is called for; the view model still shows the old title. *)
Lemma updateCard_does_not_refetch : ~ every_mutation_refetches ascii_toLowerCase.
Proof.
  intros H.
  specialize (H (op_updateCard "k1" (mkCardUpdates (Some "renamed") None None None))
                (Sample.on_screen Sample.accepting "In Progress") eq_refl).
  assert (Haccepts : accepts_all (Sample.on_screen Sample.accepting "In Progress"))
    by (intros n; exists (Sample.generated n); reflexivity).
  specialize (H Haccepts eq_refl).
  vm_compute in H.
  repeat match type of H with
         | _ \/ _ => destruct H as [H|H]
         | _ = _ => discriminate H
         | False => exact H
         end.
Qed.
(** ** Errors of the external service *)

Lemma returns_returning {A : Type} (wrap : A -> Value) (m : M A) :
  returns m -> returns (returning wrap m).
Proof.
  intros H. unfold returning. apply returns_bind; [exact H|].
  intros a. apply returns_ret.
Qed.

Lemma operations_return (toLowerCase : string -> string) (op : Op) :
  rethrows op = false -> returns (run toLowerCase op).
Proof.
  intros Hop.
  destruct op; try discriminate Hop; unfold run; apply returns_returning.
  - apply fetchBoard_returns.
  - unfold addColumn. returns_auto.
  - unfold updateColumn. returns_auto.
  - unfold deleteColumn. returns_auto.
  - unfold addCard. returns_auto.
  - unfold updateCard. returns_auto.
  - unfold deleteCard. returns_auto.
  - unfold moveCard. returns_auto.
  - unfold reorderColumns. returns_auto.
  - unfold uploadAttachment. returns_auto.
  - unfold deleteAttachment. returns_auto.
  - unfold toggleSubtask. returns_auto.
  - unfold assignCard. returns_auto.
Qed.

Ltac caught :=
  simpl; repeat split; try reflexivity;
  match goal with
  | |- In _ (new_events ?s ?s') =>
      erewrite new_events_of;
      [|simpl; rewrite <- ?app_assoc; simpl; reflexivity];
      simpl; auto 10
  end.

(** The rejection of the first request of an operation. *)
Lemma first_request_caught (toLowerCase : string -> string) op s e :
  sends_requests op s = true ->
  service (env s) (requests s) = Rejected e ->
  let s' := snd (run toLowerCase op s) in
  error (hook s') = Some (Js.message_or e (failure_message op))
  /\ In (ConsoleError (console_label op) e) (new_events s s')
  /\ fst (run toLowerCase op s)
     = if rethrows op then Thrown e else Returned (failure_value op).
Proof.
  intros Hboard Hrejected s'. subst s'.
  change (wp (run toLowerCase op)
            (fun r s' =>
               error (hook s') = Some (Js.message_or e (failure_message op))
               /\ In (ConsoleError (console_label op) e) (new_events s s')
               /\ r = if rethrows op then Thrown e
                      else Returned (failure_value op)) s).
  destruct op; simpl in Hboard; unfold run, returning.
  - destruct (boardId (env s)) as [board|] eqn:Hid; [|discriminate].
    simpl in Hboard.
    unfold fetchBoard.
    repeat (wp_straight; cbv beta iota).
    simpl boardId. rewrite Hid, Hboard. simpl negb. cbv iota.
    repeat (wp_straight; cbv beta iota).
    wp_reply Hrejected. repeat (wp_straight; cbv beta iota). caught.
  - destruct (boardId (env s)) as [board|] eqn:Hid; [|discriminate].
    simpl in Hboard.
    unfold addColumn.
    repeat (wp_straight; cbv beta iota).
    rewrite Hid, Hboard. simpl negb. cbv iota.
    repeat (wp_straight; cbv beta iota).
    wp_reply Hrejected. repeat (wp_straight; cbv beta iota). caught.
  - unfold updateColumn. repeat (wp_straight; cbv beta iota).
    wp_reply Hrejected. repeat (wp_straight; cbv beta iota). caught.
  - unfold deleteColumn. repeat (wp_straight; cbv beta iota).
    wp_reply Hrejected. repeat (wp_straight; cbv beta iota). caught.
  - unfold addCard. repeat (wp_straight; cbv beta iota).
    wp_reply Hrejected. repeat (wp_straight; cbv beta iota). caught.
  - unfold updateCard. repeat (wp_straight; cbv beta iota).
    wp_reply Hrejected. repeat (wp_straight; cbv beta iota). caught.
  - unfold deleteCard. repeat (wp_straight; cbv beta iota).
    wp_reply Hrejected. repeat (wp_straight; cbv beta iota). caught.
  - unfold moveCard. repeat (wp_straight; cbv beta iota).
    wp_reply Hrejected. repeat (wp_straight; cbv beta iota). caught.
  - unfold reorderColumns. repeat (wp_straight; cbv beta iota).
    wp_reply Hrejected. repeat (wp_straight; cbv beta iota). caught.
  - unfold uploadAttachment. repeat (wp_straight; cbv beta iota).
    wp_reply Hrejected. repeat (wp_straight; cbv beta iota). caught.
  - unfold deleteAttachment. repeat (wp_straight; cbv beta iota).
    wp_reply Hrejected. repeat (wp_straight; cbv beta iota). caught.
  - unfold addComment. repeat (wp_straight; cbv beta iota).
    wp_reply Hrejected. repeat (wp_straight; cbv beta iota). caught.
  - unfold deleteComment. repeat (wp_straight; cbv beta iota).
    wp_reply Hrejected. repeat (wp_straight; cbv beta iota). caught.
  - unfold toggleSubtask. repeat (wp_straight; cbv beta iota).
    wp_reply Hrejected. repeat (wp_straight; cbv beta iota). caught.
  - unfold assignCard. repeat (wp_straight; cbv beta iota).
    wp_reply Hrejected. repeat (wp_straight; cbv beta iota). caught.
Qed.

(** The rejection of a later query of [fetchBoard]: of the query for the
    columns, and of the query for the cards when there are columns. *)
Lemma fetchBoard_later_query_caught s id row g0 e :
  boardId (env s) = Some id -> Js.truthy id = true ->
  query_board id (db s) = [row] ->
  service (env s) (requests s) = Accepted g0 ->
  (service (env s) (S (requests s)) = Rejected e
   \/ (exists g1,
         service (env s) (S (requests s)) = Accepted g1
         /\ (0 <? List.length (query_columns id (db s)))%nat = true
         /\ service (env s) (S (S (requests s))) = Rejected e)) ->
  let s' := snd (fetchBoard s) in
  error (hook s') = Some (Js.message_or e "Failed to fetch board")
  /\ In (ConsoleError "Error fetching board:" e) (new_events s s')
  /\ fst (fetchBoard s) = Returned tt.
Proof.
  intros Hid Htruthy Hrow H0 Hlater s'. subst s'.
  change (wp fetchBoard
            (fun r s' =>
               error (hook s') = Some (Js.message_or e "Failed to fetch board")
               /\ In (ConsoleError "Error fetching board:" e) (new_events s s')
               /\ r = Returned tt) s).
  unfold fetchBoard.
  repeat (wp_straight; cbv beta iota).
  simpl boardId. rewrite Hid, Htruthy. simpl negb. cbv iota.
  repeat (wp_straight; cbv beta iota).
  wp_reply H0.
  repeat (wp_straight; cbv beta iota).
  simpl db. rewrite Hrow. simpl single. cbv iota.
  repeat (wp_straight; cbv beta iota).
  destruct Hlater as [H1|(g1 & H1 & Hcolumns & H2)].
  - wp_reply H1. repeat (wp_straight; cbv beta iota). caught.
  - wp_reply H1. repeat (wp_straight; cbv beta iota).
    simpl db. rewrite length_map, Hcolumns. cbv iota.
    unfold fetch_cards_and_details.
    repeat (wp_straight; cbv beta iota).
    wp_reply H2. repeat (wp_straight; cbv beta iota). caught.
Qed.

(** The rejection of the row's insert or deletion, after the storage step
    of [uploadAttachment] or [deleteAttachment] was accepted. *)
Lemma attachment_row_caught (toLowerCase : string -> string) op s g0 e :
  (exists cardId file, op = op_uploadAttachment cardId file)
  \/ (exists attachmentId storagePath,
         op = op_deleteAttachment attachmentId storagePath) ->
  service (env s) (requests s) = Accepted g0 ->
  service (env s) (S (requests s)) = Rejected e ->
  let s' := snd (run toLowerCase op s) in
  error (hook s') = Some (Js.message_or e (failure_message op))
  /\ In (ConsoleError (console_label op) e) (new_events s s')
  /\ fst (run toLowerCase op s) = Returned (failure_value op).
Proof.
  intros Hop H0 H1 s'. subst s'.
  change (wp (run toLowerCase op)
            (fun r s' =>
               error (hook s') = Some (Js.message_or e (failure_message op))
               /\ In (ConsoleError (console_label op) e) (new_events s s')
               /\ r = Returned (failure_value op)) s).
  destruct Hop as [(cardId & file & ->)|(attachmentId & storagePath & ->)];
    unfold run, returning.
  - unfold uploadAttachment. repeat (wp_straight; cbv beta iota).
    wp_reply H0. repeat (wp_straight; cbv beta iota).
    wp_reply H1. repeat (wp_straight; cbv beta iota). caught.
  - unfold deleteAttachment. repeat (wp_straight; cbv beta iota).
    wp_reply H0. repeat (wp_straight; cbv beta iota).
    wp_reply H1. repeat (wp_straight; cbv beta iota). caught.
Qed.

(** What reaches the caller of [addComment] or [deleteComment] was stored
    and logged first. *)
Lemma thrown_after_report (toLowerCase : string -> string) op s e :
  rethrows op = true ->
  fst (run toLowerCase op s) = Thrown e ->
  let s' := snd (run toLowerCase op s) in
  error (hook s') = Some (Js.message_or e (failure_message op))
  /\ In (ConsoleError (console_label op) e) (new_events s s').
Proof.
  intros Hop. simpl.
  apply (wp_run (run toLowerCase op)
           (fun r s' =>
              r = Thrown e ->
              error (hook s') = Some (Js.message_or e (failure_message op))
              /\ In (ConsoleError (console_label op) e) (new_events s s'))).
  destruct op; try discriminate Hop; unfold run, returning.
  - unfold addComment. repeat (wp_straight; cbv beta iota).
    apply wp_request.
    destruct (service _ _) eqn:Hreply; cbv beta iota.
    + repeat (first [ wp_straight
                    | apply logActivity_wp; intros ? ?
                    | apply fetchBoard_wp; intros ? ? ];
              cbv beta iota).
      discriminate.
    + repeat (wp_straight; cbv beta iota).
      intros [= <-]. caught.
  - unfold deleteComment. repeat (wp_straight; cbv beta iota).
    apply wp_request.
    destruct (service _ _) eqn:Hreply; cbv beta iota.
    + repeat (first [ wp_straight
                    | apply fetchBoard_wp; intros ? ? ];
              cbv beta iota).
      discriminate.
    + repeat (wp_straight; cbv beta iota).
      intros [= <-]. caught.
Qed.

(** C5, amended: every data operation of the hook catches the errors of the
    external service that it reads.  Whatever the service answers, no
    operation but [addComment] and [deleteComment] lets an exception reach
    its caller, and what those two throw they have stored and logged.  When
    the service rejects a request whose error the operation reads (its
    first request; in [fetchBoard] also the queries for the columns and
    for the cards; in [uploadAttachment] and [deleteAttachment] also the
    insert or deletion of the row after the storage step) and has accepted
    the requests before it, the operation stores a message in the hook's
    error state and writes the error to the console; all but two then hand
    a failure value back: [false], [null], the empty result for
    [toggleSubtask], nothing for [fetchBoard]; [addComment] and
    [deleteComment] throw the error again to their caller.  ([fetchBoard]
    and [addColumn] send no request when the hook has no board id.) *)
Theorem operations_catch_errors (toLowerCase : string -> string) op s :
  (forall e,
      fst (run toLowerCase op s) = Thrown e ->
      let s' := snd (run toLowerCase op s) in
      rethrows op = true
      /\ error (hook s') = Some (Js.message_or e (failure_message op))
      /\ In (ConsoleError (console_label op) e) (new_events s s'))
  /\ (forall k e,
         sends_requests op s = true ->
         reads_error op s k = true ->
         (forall j, (j < k)%nat ->
                    exists generated,
                      service (env s) (j + requests s) = Accepted generated) ->
         service (env s) (k + requests s) = Rejected e ->
         let s' := snd (run toLowerCase op s) in
         error (hook s') = Some (Js.message_or e (failure_message op))
         /\ In (ConsoleError (console_label op) e) (new_events s s')
         /\ fst (run toLowerCase op s)
            = if rethrows op then Thrown e else Returned (failure_value op)).
Proof.
  split.
  - intros e Hthrown s'. subst s'.
    destruct (rethrows op) eqn:Hop.
    + split; [reflexivity|].
      now apply thrown_after_report.
    + destruct (operations_return toLowerCase op Hop s) as [v Hv].
      congruence.
  - intros k e Hboard Hreads Hbefore Hrejected.
    destruct k as [|k]; [now apply first_request_caught|].
    destruct (Hbefore 0%nat ltac:(lia)) as [g0 H0]. simpl in H0.
    destruct op; simpl in Hreads;
      try (destruct k as [|[|k]]; discriminate Hreads).
    + unfold board_row_found, board_has_columns in Hreads.
      simpl in Hboard.
      destruct (boardId (env s)) as [id|] eqn:Hid;
        [|destruct k as [|[|k]]; discriminate Hreads].
      simpl in Hboard.
      destruct (query_board id (db s)) as [|row [|]] eqn:Hrow;
        try (destruct k as [|[|k]]; discriminate Hreads).
      assert (Hlater :
                service (env s) (S (requests s)) = Rejected e
                \/ (exists g1,
                      service (env s) (S (requests s)) = Accepted g1
                      /\ (0 <? List.length (query_columns id (db s)))%nat = true
                      /\ service (env s) (S (S (requests s))) = Rejected e)).
      { destruct k as [|[|k]]; [| |discriminate Hreads]; simpl in Hrejected.
        - now left.
        - destruct (Hbefore 1%nat ltac:(lia)) as [g1 H1]. simpl in H1.
          right. exists g1. auto. }
      destruct (fetchBoard_later_query_caught s id row g0 e Hid Hboard Hrow
                  H0 Hlater) as (Hstored & Hlogged & Hreturned).
      unfold run, returning, bind.
      destruct (fetchBoard s) as [[[]|thrown] s1]; simpl in *;
        [auto|discriminate Hreturned].
    + destruct k as [|k]; [|destruct k; discriminate Hreads].
      simpl in Hrejected.
      apply (attachment_row_caught toLowerCase _ s g0 e); eauto.
    + destruct k as [|k]; [|destruct k; discriminate Hreads].
      simpl in Hrejected.
      apply (attachment_row_caught toLowerCase _ s g0 e); eauto.
Qed.

Lemma operations_catch_errors_witness :
  let s := Sample.on_screen (Sample.denying 1) "In Progress" in
  let op := op_deleteAttachment "a1" "k1/k3j9x2.pdf" in
  sends_requests op s = true
  /\ reads_error op s 1 = true
  /\ service (env s) (requests s) = Accepted (Sample.generated 0)
  /\ service (env s) (1 + requests s) = Rejected Sample.denial
  /\ error (hook (snd (run ascii_toLowerCase op s)))
     = Some "Failed to delete attachment"
  /\ In (ConsoleError "Error deleting attachment:" Sample.denial)
        (new_events s (snd (run ascii_toLowerCase op s)))
  /\ fst (run ascii_toLowerCase op s) = Returned (v_bool false).
Proof.
  intros s op.
  split; [reflexivity|]. split; [reflexivity|].
  split; [reflexivity|]. split; [reflexivity|].
  apply (proj2 (operations_catch_errors ascii_toLowerCase op s)
               1%nat Sample.denial eq_refl eq_refl);
    [|reflexivity].
  intros j Hj. exists (Sample.generated j).
  destruct j as [|j]; [reflexivity|lia].
Defined.

(** C5 fails as worded: when the store rejects the insert of a comment,
    [addComment] records and logs the error and then throws it again. *)
Lemma addComment_rethrows : ~ no_operation_rethrows ascii_toLowerCase.
Proof.
  intros H.
  destruct (H (op_addComment "k1" "looks good")
              (Sample.on_screen (Sample.rejecting 0) "In Progress"))
    as [v Hv].
  vm_compute in Hv. discriminate Hv.
Qed.

(* ================================================================== *)
(** * Further properties of the code around the claims *)
(** ** More rules of the program logic *)

Lemma wp_always {A : Type} (m : M A) (Q : Outcome A -> State -> Prop) s :
  (forall r s', Q r s') -> wp m Q s.
Proof. intros H. apply H. Qed.

(** Sequencing after a computation of which only a frame is known. *)
Lemma wp_frame_bind {A B : Type} (R : State -> State -> Prop)
    (m : M A) (k : A -> M B) Q s :
  keeps R m ->
  (forall a s', R s s' -> wp (k a) Q s') ->
  (forall e s', R s s' -> Q (Thrown e) s') ->
  wp (bind m k) Q s.
Proof.
  intros Hm Hk Ht. apply wp_bind. unfold wp.
  specialize (Hm s). destruct (m s) as [[a|e] s']; simpl in *.
  - now apply Hk.
  - now apply Ht.
Qed.

(** A query, without a case distinction on the answer. *)
Lemma wp_select {A : Type} (t : Table.t) (query : Db.t -> list A) Q s :
  Q (Returned (response (service (env s) (requests s)) (query (db s))))
    (asked t false s) ->
  wp (select t query) Q s.
Proof.
  intros H. unfold select. apply wp_bind, wp_request.
  fold (asked t false s).
  destruct (service (env s) (requests s)); simpl in *; exact H.
Qed.

Lemma wp_write (t : Table.t) (change : (nat -> string) -> Db.t -> Db.t) Q s :
  match service (env s) (requests s) with
  | Accepted generated =>
      Q (Returned (Data tt)) (with_db (change generated) (asked t true s))
  | Rejected e => Q (Returned (Error e)) (asked t true s)
  end ->
  wp (write t change) Q s.
Proof.
  intros H. unfold write. apply wp_bind, wp_request.
  fold (asked t true s).
  destruct (service (env s) (requests s)); simpl in *; exact H.
Qed.

(* ------------------------------------------------------------------ *)
(** ** [fetchBoard]: how it ends *)

(** X1: [fetchBoard] always ends with the loading flag off: with or without
    a board id, and whether its queries are answered or not. *)
Theorem fetchBoard_ends_loading (s : State) :
  loading (hook (snd (fetchBoard s))) = false.
Proof.
  change (wp fetchBoard (fun _ s' => loading (hook s') = false) s).
  unfold fetchBoard.
  repeat (first [ apply wp_finally; apply wp_always; intros ? ?
                | wp_step ];
          cbv beta iota).
  all: reflexivity.
Qed.

(** A computation of which only a frame is known. *)
Lemma wp_frame {A : Type} (R : State -> State -> Prop) (m : M A) Q s :
  keeps R m -> (forall r s', R s s' -> Q r s') -> wp m Q s.
Proof. intros Hm HQ. apply HQ, Hm. Qed.

(** The queries of [fetchBoard] leave what the hook shows as it is. *)
Lemma fetch_cards_and_details_shows boardId columnIds :
  keeps (unchanged shown) (fetch_cards_and_details boardId columnIds).
Proof. unfold fetch_cards_and_details. keeps_auto. Qed.

(** Symbolic execution in which the state changes of the hook are followed
    and every other computation is taken by its frame [R]. *)
Ltac wp_frames R :=
  repeat (cbv beta iota;
          lazymatch goal with
          | |- wp (bind _ _) _ _ => apply wp_bind
          | |- wp (ret _) _ _ => apply wp_ret
          | |- wp (throw _) _ _ => apply wp_throw
          | |- wp (try_catch _ _) _ _ => apply wp_try_catch
          | |- wp (finally _ _) _ _ => apply wp_finally
          | |- wp get _ _ => apply wp_get
          | |- wp (modify _) _ _ => apply wp_modify
          | |- wp (emit _) _ _ => unfold emit
          | |- wp (console_error _ _) _ _ => unfold console_error
          | |- wp (setBoard _) _ _ => unfold setBoard
          | |- wp (setColumns _) _ _ => unfold setColumns
          | |- wp (setLoading _) _ _ => unfold setLoading
          | |- wp (setError _) _ _ => unfold setError
          | |- wp _ _ _ =>
              eapply (wp_frame R);
              [ keeps_auto; try apply fetch_cards_and_details_shows
              | intros [?|?] ? ? ]
          end).

(** X2: a failed [fetchBoard] keeps the board on screen.  With a board id,
    [fetchBoard] ends either without an error message, or with one and with
    the columns it showed before; the store is never written to. *)
Theorem fetchBoard_failure_keeps_view (s : State) (board : string) :
  boardId (env s) = Some board -> Js.truthy board = true ->
  let s' := snd (fetchBoard s) in
  db s' = db s
  /\ (error (hook s') = None
      \/ (exists message, error (hook s') = Some message)
         /\ columns (hook s') = columns (hook s)).
Proof.
  intros Hid Htruthy s'. subst s'.
  split; [apply fetchBoard_only_reads|].
  change (wp fetchBoard
            (fun _ s' =>
               error (hook s') = None
               \/ (exists message, error (hook s') = Some message)
                  /\ columns (hook s') = columns (hook s)) s).
  unfold fetchBoard.
  repeat (wp_straight; cbv beta iota).
  simpl boardId. rewrite Hid, Htruthy. simpl negb.
  wp_frames (unchanged shown).
  all: unfold unchanged, shown in *; simpl in *.
  all: repeat match goal with
         | H : (_, _) = (_, _) |- _ => injection H as ? ?
         end.
  all: first [ left; congruence
             | right; split; [eexists; reflexivity|congruence] ].
Qed.

Lemma fetchBoard_failure_keeps_view_witness :
  let s := Sample.on_screen (Sample.rejecting 1) "Doing" in
  let s' := snd (fetchBoard s) in
  db s' = db s
  /\ (error (hook s') = None
      \/ (exists message, error (hook s') = Some message)
         /\ columns (hook s') = columns (hook s)).
Proof.
  exact (fetchBoard_failure_keeps_view
           (Sample.on_screen (Sample.rejecting 1) "Doing") "b1"
           eq_refl eq_refl).
Defined.

(** A query whose answer is known to be an acceptance. *)
Ltac wp_answered H :=
  apply wp_select;
  match goal with
  | |- context [service ?e ?n] =>
      let e' := eval simpl in e in
      let n' := eval simpl in n in
      change (service e n) with (service e' n')
  end;
  rewrite H; unfold response at 1; cbv beta iota.

(** Symbolic execution up to the next round trip. *)
Ltac wp_plain :=
  repeat (cbv beta iota;
          lazymatch goal with
          | |- wp (select _ _) _ _ => fail
          | |- wp (write _ _) _ _ => fail
          | |- wp (insert_returning _ _ _) _ _ => fail
          | |- wp (if ?x then _ else _) _ _ => destruct x eqn:?
          | |- wp (let '(_, _) := ?x in _) _ _ => destruct x eqn:?
          | |- wp (or_throw (Data _)) _ _ => unfold or_throw
          | |- wp (or_throw (single (Data [_]))) _ _ => unfold or_throw, single
          | |- wp (or_throw _) _ _ => fail
          | |- wp _ _ _ => wp_straight
          end).

(** Symbolic execution in which a query is one step, whatever its answer. *)
Ltac wp_queries :=
  repeat first [ progress wp_plain | apply wp_select ].

(** The cards of a combined view are the fetched cards, column by column,
    whatever details were fetched with them. *)
Lemma view_lists_cards columnsData cardsData cardLabelsData labelsData
    subtasksData attachmentsData commentsData activitiesData :
  map CardWithLabels.card
      (flat_map ColumnWithCards.cards
         (columnsWithCards columnsData cardsData cardLabelsData labelsData
            subtasksData attachmentsData commentsData activitiesData))
  = flat_map (fun column =>
                with_key Card.column_id (Column.id column) cardsData)
             columnsData.
Proof.
  rewrite view_cards, map_map. simpl. apply map_id.
Qed.

(** X3: the detail queries of [fetchBoard] cannot fail it.  When the board,
    its columns and their cards are answered, [fetchBoard] ends without an
    error message and shows the board with the columns and the cards the
    store has, whatever the service answers to the queries for subtasks,
    attachments, comments, activities, labels and card labels. *)
Theorem fetchBoard_ignores_detail_errors
    (s : State) (id : string) (row : Board.t) (g0 g1 g2 : nat -> string) :
  boardId (env s) = Some id -> Js.truthy id = true ->
  query_board id (db s) = [row] ->
  service (env s) (requests s) = Accepted g0 ->
  service (env s) (S (requests s)) = Accepted g1 ->
  service (env s) (S (S (requests s))) = Accepted g2 ->
  let s' := snd (fetchBoard s) in
  let columnsData := query_columns id (db s) in
  let cardsData := query_cards (map Column.id columnsData) (db s) in
  error (hook s') = None
  /\ board (hook s') = Some row
  /\ map ColumnWithCards.column (columns (hook s')) = columnsData
  /\ map CardWithLabels.card
         (flat_map ColumnWithCards.cards (columns (hook s')))
     = flat_map (fun column =>
                   with_key Card.column_id (Column.id column) cardsData)
                columnsData.
Proof.
  intros Hid Htruthy Hrow H0 H1 H2 s' columnsData cardsData. subst s'.
  change (wp fetchBoard
            (fun _ s' =>
               error (hook s') = None
               /\ board (hook s') = Some row
               /\ map ColumnWithCards.column (columns (hook s')) = columnsData
               /\ map CardWithLabels.card
                      (flat_map ColumnWithCards.cards (columns (hook s')))
                  = flat_map (fun column =>
                                with_key Card.column_id (Column.id column)
                                         cardsData)
                             columnsData) s).
  unfold fetchBoard, fetch_cards_and_details.
  repeat (wp_straight; cbv beta iota).
  simpl boardId. rewrite Hid, Htruthy. simpl negb. cbv iota.
  wp_plain. wp_answered H0.
  simpl db. rewrite Hrow.
  wp_plain. wp_answered H1.
  wp_plain.
  all: try wp_answered H2.
  all: wp_queries.
  all: simpl.
  all: subst columnsData cardsData.
  all: repeat split.
  all: try apply view_columns.
  all: try apply view_lists_cards.
  rewrite view_lists_cards.
  match goal with
  | H : (0 <? _)%nat = false |- _ => simpl in H
  end.
  destruct (query_columns id (db s)); [reflexivity|discriminate].
Qed.

Lemma fetchBoard_ignores_detail_errors_witness :
  let s := Sample.unloaded (Sample.rejecting 3) "Doing" in
  let s' := snd (fetchBoard s) in
  let columnsData := query_columns "b1" (db s) in
  let cardsData := query_cards (map Column.id columnsData) (db s) in
  service (env s) 3%nat = Rejected Sample.refusal
  /\ error (hook s') = None
  /\ board (hook s') = Some (Board.mk "b1" "Sprint" None)
  /\ map ColumnWithCards.column (columns (hook s')) = columnsData
  /\ map CardWithLabels.card
         (flat_map ColumnWithCards.cards (columns (hook s')))
     = flat_map (fun column =>
                   with_key Card.column_id (Column.id column) cardsData)
                columnsData.
Proof.
  split; [reflexivity|].
  exact (fetchBoard_ignores_detail_errors
           (Sample.unloaded (Sample.rejecting 3) "Doing") "b1"
           (Board.mk "b1" "Sprint" None)
           (Sample.generated 0) (Sample.generated 1) (Sample.generated 2)
           eq_refl eq_refl eq_refl eq_refl eq_refl eq_refl).
Defined.

(* ------------------------------------------------------------------ *)
(** ** The activity log inside the operations *)

(** X4: a failing activity log does not fail the operation.  Once the
    service has accepted the write of [addCard], [updateCard] or
    [assignCard], the operation hands back its success value and leaves the
    hook's state, error message included, as it was, whatever the service
    answers to the logging request that follows. *)
Theorem logging_failure_is_silent
    (toLowerCase : string -> string) (op : Op) (s : State)
    (generated : nat -> string) :
  logs_last op = true ->
  service (env s) (requests s) = Accepted generated ->
  let s' := snd (run toLowerCase op s) in
  (exists v, fst (run toLowerCase op s) = Returned v /\ v <> failure_value op)
  /\ hook s' = hook s.
Proof.
  intros Hlogs Haccepted s'. subst s'.
  change (wp (run toLowerCase op)
            (fun r s' =>
               (exists v, r = Returned v /\ v <> failure_value op)
               /\ hook s' = hook s) s).
  destruct op; try discriminate Hlogs;
    unfold run, returning, addCard, updateCard, assignCard.
  all: wp_steps; wp_reply Haccepted; wp_calls.
  all: unpack_calls.
  all: split; [eexists; split; [reflexivity|discriminate]|].
  all: repeat match goal with
         | H : hook _ = _ |- _ => rewrite H; clear H
         end.
  all: reflexivity.
Qed.

Lemma logging_failure_is_silent_witness :
  let s := Sample.on_screen (Sample.rejecting 1) "Doing" in
  let op := op_addCard "c1" "Write the report" in
  let s' := snd (run ascii_toLowerCase op s) in
  service (env s) 1%nat = Rejected Sample.refusal
  /\ (exists v, fst (run ascii_toLowerCase op s) = Returned v
                /\ v <> failure_value op)
  /\ hook s' = hook s.
Proof.
  split; [reflexivity|].
  exact (logging_failure_is_silent ascii_toLowerCase
           (op_addCard "c1" "Write the report")
           (Sample.on_screen (Sample.rejecting 1) "Doing")
           (Sample.generated 0) eq_refl eq_refl).
Defined.

(** A round trip whose answer is not known: both answers are followed. *)
Ltac wp_either :=
  apply wp_request;
  match goal with
  | |- context [service ?e ?n] =>
      let e' := eval simpl in e in
      let n' := eval simpl in n in
      change (service e n) with (service e' n');
      destruct (service e' n') eqn:?
  end;
  cbv beta iota.

(** X5: [moveCard] logs a move only when the column changes.  Once the
    service has accepted the update, [moveCard] returns [true]; it adds one
    [move_card] row to the activity log, naming the titles of the two
    columns, when the view on screen has the card in one column and the
    target is another column of the view (and the service accepts the row);
    in every other case the activity log is as before. *)
Theorem moveCard_logs_column_changes
    (s : State) (cardId targetColumnId : string) (newPosition : Z)
    (generated : nat -> string) :
  service (env s) (requests s) = Accepted generated ->
  let s' := snd (moveCard cardId targetColumnId newPosition s) in
  fst (moveCard cardId targetColumnId newPosition s) = Returned true
  /\ match find (holds_card cardId) (columns (hook s)),
           find (fun c => (ColumnWithCards.id c =? targetColumnId)%string)
                (columns (hook s)),
           service (env s) (S (requests s)) with
     | Some fromCol, Some toCol, Accepted _ =>
         if (ColumnWithCards.id fromCol =? ColumnWithCards.id toCol)%string
         then Db.activities (db s') = Db.activities (db s)
         else exists row,
             Db.activities (db s') = Db.activities (db s) ++ [row]
             /\ Activity.action_type row = "move_card"
             /\ Activity.card_id row = Some cardId
             /\ firstn 2 (Activity.details row)
                = [("fromColumn", JStr (ColumnWithCards.title fromCol));
                   ("toColumn", JStr (ColumnWithCards.title toCol))]
     | _, _, _ => Db.activities (db s') = Db.activities (db s)
     end.
Proof.
  intros Haccepted s'. subst s'.
  change (wp (moveCard cardId targetColumnId newPosition)
            (fun r s' =>
               r = Returned true
               /\ match find (holds_card cardId) (columns (hook s)),
                        find (fun c =>
                                (ColumnWithCards.id c =? targetColumnId)%string)
                             (columns (hook s)),
                        service (env s) (S (requests s)) with
                  | Some fromCol, Some toCol, Accepted _ =>
                      if (ColumnWithCards.id fromCol
                          =? ColumnWithCards.id toCol)%string
                      then Db.activities (db s') = Db.activities (db s)
                      else exists row,
                          Db.activities (db s') = Db.activities (db s) ++ [row]
                          /\ Activity.action_type row = "move_card"
                          /\ Activity.card_id row = Some cardId
                          /\ firstn 2 (Activity.details row)
                             = [("fromColumn",
                                 JStr (ColumnWithCards.title fromCol));
                                ("toColumn",
                                 JStr (ColumnWithCards.title toCol))]
                  | _, _, _ => Db.activities (db s') = Db.activities (db s)
                  end) s).
  unfold moveCard, logActivity.
  wp_steps. wp_reply Haccepted.
  repeat (first [ wp_step | wp_either | apply fetchBoard_wp; intros ? ? ];
          cbv beta iota).
  all: split; [reflexivity|].
  all: repeat match goal with
         | H : fetched _ _ |- _ => destruct H as (_ & H & _)
         end.
  all: repeat match goal with
         | H : db _ = _ |- _ => rewrite H; clear H
         end.
  all: simpl.
  all: repeat match goal with
         | H : negb _ = _ |- _ => apply (f_equal negb) in H; simpl in H;
                                  rewrite negb_involutive in H; rewrite H
         | |- context [match ?r with Accepted _ => ?a | Rejected _ => ?a end] =>
             destruct r
         end.
  all: try reflexivity.
  all: eexists; repeat split; reflexivity.
Qed.

Lemma moveCard_logs_column_changes_witness :
  let s := Sample.on_screen Sample.accepting "Doing" in
  let s' := snd (moveCard "k1" "c2" 0 s) in
  fst (moveCard "k1" "c2" 0 s) = Returned true
  /\ match find (holds_card "k1") (columns (hook s)),
           find (fun c => (ColumnWithCards.id c =? "c2")%string)
                (columns (hook s)),
           service (env s) (S (requests s)) with
     | Some fromCol, Some toCol, Accepted _ =>
         if (ColumnWithCards.id fromCol =? ColumnWithCards.id toCol)%string
         then Db.activities (db s') = Db.activities (db s)
         else exists row,
             Db.activities (db s') = Db.activities (db s) ++ [row]
             /\ Activity.action_type row = "move_card"
             /\ Activity.card_id row = Some "k1"
             /\ firstn 2 (Activity.details row)
                = [("fromColumn", JStr (ColumnWithCards.title fromCol));
                   ("toColumn", JStr (ColumnWithCards.title toCol))]
     | _, _, _ => Db.activities (db s') = Db.activities (db s)
     end.
Proof.
  exact (moveCard_logs_column_changes
           (Sample.on_screen Sample.accepting "Doing") "k1" "c2" 0
           (Sample.generated 0) eq_refl).
Defined.

(* ------------------------------------------------------------------ *)
(** ** Attachments: the file and its row *)

Lemma only_logged_keeps_files s s' :
  only_logged s s' ->
  Db.files (db s') = Db.files (db s)
  /\ Db.attachments (db s') = Db.attachments (db s).
Proof.
  intros (_ & _ & _ & Hdb & _).
  unfold unchanged, all_but_activities in Hdb. inversion Hdb. auto.
Qed.

Ltac unpack_files :=
  repeat match goal with
         | H : only_logged _ _ |- _ =>
             apply only_logged_keeps_files in H; destruct H as [? ?]
         | H : fetched _ _ |- _ => destruct H as (_ & H & _)
         end;
  repeat match goal with
         | H : db _ = _ |- _ => rewrite H; clear H
         | H : Db.files _ = _ |- _ => rewrite H; clear H
         | H : Db.attachments _ = _ |- _ => rewrite H; clear H
         end.

(** X6: [uploadAttachment] stores the file first and its row second, and
    takes nothing back.  A rejected upload leaves bucket and table as they
    were; an accepted upload puts the file at
    [<cardId>/<random>.<extension>], and when the insert of the row is then
    rejected the file stays in the bucket without a row; the result is
    [true] exactly when both were accepted. *)
Theorem uploadAttachment_stores_file_then_row
    (s : State) (cardId : string) (file : File) :
  let storagePath :=
    (cardId ++ "/" ++ random (env s) ++ "."
     ++ Js.after_last_dot (file_name file))%string in
  let s' := snd (uploadAttachment cardId file s) in
  let result := fst (uploadAttachment cardId file s) in
  match service (env s) (requests s) with
  | Rejected _ =>
      result = Returned false
      /\ Db.files (db s') = Db.files (db s)
      /\ Db.attachments (db s') = Db.attachments (db s)
  | Accepted _ =>
      Db.files (db s') = Db.files (db s) ++ [storagePath]
      /\ match service (env s) (S (requests s)) with
         | Rejected _ =>
             result = Returned false
             /\ Db.attachments (db s') = Db.attachments (db s)
         | Accepted generated =>
             result = Returned true
             /\ Db.attachments (db s')
                = Db.attachments (db s)
                  ++ [Attachment.mk (generated 0%nat) cardId (file_name file)
                        (file_type file) (file_size file) storagePath
                        (clock (env s))]
         end
  end.
Proof.
  intros storagePath s' result. subst storagePath s' result.
  change (wp (uploadAttachment cardId file)
            (fun r s' =>
               match service (env s) (requests s) with
               | Rejected _ =>
                   r = Returned false
                   /\ Db.files (db s') = Db.files (db s)
                   /\ Db.attachments (db s') = Db.attachments (db s)
               | Accepted _ =>
                   Db.files (db s')
                   = Db.files (db s)
                     ++ [(cardId ++ "/" ++ random (env s) ++ "."
                          ++ Js.after_last_dot (file_name file))%string]
                   /\ match service (env s) (S (requests s)) with
                      | Rejected _ =>
                          r = Returned false
                          /\ Db.attachments (db s') = Db.attachments (db s)
                      | Accepted generated =>
                          r = Returned true
                          /\ Db.attachments (db s')
                             = Db.attachments (db s)
                               ++ [Attachment.mk (generated 0%nat) cardId
                                     (file_name file) (file_type file)
                                     (file_size file)
                                     (cardId ++ "/" ++ random (env s) ++ "."
                                      ++ Js.after_last_dot (file_name file))%string
                                     (clock (env s))]
                      end
               end) s).
  unfold uploadAttachment.
  repeat (first [ wp_step | wp_either
                | apply fetchBoard_wp; intros ? ?
                | apply logActivity_wp; intros ? ? ];
          cbv beta iota).
  all: unpack_files.
  all: simpl; auto.
Qed.

(** X7: [deleteAttachment] removes the file first and the row second.  When
    the bucket refuses the removal, the row is not touched; when the row's
    deletion is refused after the file is gone, the row stays without its
    file; the result is [true] exactly when both were accepted. *)
Theorem deleteAttachment_removes_file_then_row
    (s : State) (attachmentId storagePath : string) :
  let s' := snd (deleteAttachment attachmentId storagePath s) in
  let result := fst (deleteAttachment attachmentId storagePath s) in
  match service (env s) (requests s) with
  | Rejected _ =>
      result = Returned false
      /\ Db.files (db s') = Db.files (db s)
      /\ Db.attachments (db s') = Db.attachments (db s)
  | Accepted _ =>
      Db.files (db s')
      = filter (fun p => negb (p =? storagePath)%string) (Db.files (db s))
      /\ match service (env s) (S (requests s)) with
         | Rejected _ =>
             result = Returned false
             /\ Db.attachments (db s') = Db.attachments (db s)
         | Accepted _ =>
             result = Returned true
             /\ Db.attachments (db s')
                = filter (fun a => negb (Attachment.id a =? attachmentId)%string)
                         (Db.attachments (db s))
         end
  end.
Proof.
  intros s' result. subst s' result.
  change (wp (deleteAttachment attachmentId storagePath)
            (fun r s' =>
               match service (env s) (requests s) with
               | Rejected _ =>
                   r = Returned false
                   /\ Db.files (db s') = Db.files (db s)
                   /\ Db.attachments (db s') = Db.attachments (db s)
               | Accepted _ =>
                   Db.files (db s')
                   = filter (fun p => negb (p =? storagePath)%string)
                            (Db.files (db s))
                   /\ match service (env s) (S (requests s)) with
                      | Rejected _ =>
                          r = Returned false
                          /\ Db.attachments (db s') = Db.attachments (db s)
                      | Accepted _ =>
                          r = Returned true
                          /\ Db.attachments (db s')
                             = filter (fun a =>
                                         negb (Attachment.id a
                                               =? attachmentId)%string)
                                      (Db.attachments (db s))
                      end
               end) s).
  unfold deleteAttachment.
  repeat (first [ wp_step | wp_either
                | apply logActivity_wp; intros ? ? ];
          cbv beta iota).
  all: unpack_files.
  all: simpl; auto.
Qed.

(** A dot at the head of a text, as [Js.includes] tests it. *)
Lemma dot_prefix (c : ascii) (rest : string) :
  String.prefix "." (String c rest) = (c =? ".")%char.
Proof.
  change (String.prefix "." (String c rest))
    with (match ascii_dec "." c with
          | left _ => String.prefix "" rest
          | right _ => false
          end).
  destruct (ascii_dec "." c) as [<-|Hc].
  - rewrite Ascii.eqb_refl. now destruct rest.
  - symmetry. apply Ascii.eqb_neq. congruence.
Qed.

(** X8: the extension of an uploaded file.  [name.split('.').pop()], the
    extension [uploadAttachment] puts in the storage path, has no dot in it
    and is the whole name when the name has no dot, and otherwise what
    follows the last dot of the name. *)
Theorem after_last_dot_is_the_extension (name : string) :
  Js.includes (Js.after_last_dot name) "." = false
  /\ (if Js.includes name "."
      then exists stem, name = (stem ++ "." ++ Js.after_last_dot name)%string
      else Js.after_last_dot name = name).
Proof.
  induction name as [|c rest [IHnodot IHsplit]]; [now split|].
  change (Js.after_last_dot (String c rest))
    with (if Js.includes rest "." then Js.after_last_dot rest
          else if (c =? ".")%char then rest else String c rest).
  change (Js.includes (String c rest) ".")
    with (String.prefix "." (String c rest) || Js.includes rest ".").
  rewrite dot_prefix.
  destruct (Js.includes rest ".") eqn:Hrest.
  - rewrite orb_true_r. split; [exact IHnodot|].
    destruct IHsplit as [stem Hstem].
    exists (String c stem). simpl. f_equal. exact Hstem.
  - rewrite orb_false_r. destruct (c =? ".")%char eqn:Hc.
    + apply Ascii.eqb_eq in Hc. subst c. split; [exact Hrest|].
      now exists EmptyString.
    + split; [|reflexivity].
      change (Js.includes (String c rest) ".")
        with (String.prefix "." (String c rest) || Js.includes rest ".").
      now rewrite dot_prefix, Hc, Hrest.
Qed.

(* ------------------------------------------------------------------ *)
(** ** [useBoards]: errors *)

(** X9: the operations of [useBoards] catch the errors of the service.
    [createBoard], [deleteBoard] and [updateBoard] never throw; when the
    service rejects their request they hand back [null] or [false], put the
    error's message (or their own fallback) in the error state of
    [useBoards], write one console line, and leave the store and the state
    of [useBoard] as they were. *)
Theorem boards_operations_catch_errors (op : BoardsOp) (s : State) :
  (exists v, fst (run_boards op s) = Returned v)
  /\ forall e,
       service (env s) (requests s) = Rejected e ->
       let s' := snd (run_boards op s) in
       fst (run_boards op s) = Returned (boards_failure_value op)
       /\ boards_error s'
          = Some (Js.message_or e (boards_failure_message op))
       /\ new_events s s'
          = [Request Table.boards true;
             ConsoleError (boards_console_label op) e]
       /\ db s' = db s
       /\ hook s' = hook s.
Proof.
  split.
  - assert (H : returns (run_boards op)).
    { destruct op; unfold run_boards, createBoard, deleteBoard, updateBoard;
        returns_auto. }
    exact (H s).
  - intros e Hrejected s'. subst s'.
    change (wp (run_boards op)
              (fun r s' =>
                 r = Returned (boards_failure_value op)
                 /\ boards_error s'
                    = Some (Js.message_or e (boards_failure_message op))
                 /\ new_events s s'
                    = [Request Table.boards true;
                       ConsoleError (boards_console_label op) e]
                 /\ db s' = db s
                 /\ hook s' = hook s) s).
    destruct op; unfold run_boards, createBoard, deleteBoard, updateBoard.
    all: repeat (wp_straight; cbv beta iota).
    all: wp_reply Hrejected.
    all: repeat (wp_straight; cbv beta iota).
    all: repeat split.
    all: apply new_events_of; simpl; rewrite <- app_assoc; reflexivity.
Qed.

Lemma boards_operations_catch_errors_witness :
  let s := Sample.on_screen (Sample.rejecting 0) "Doing" in
  let op := op_deleteBoard "b1" in
  let s' := snd (run_boards op s) in
  fst (run_boards op s) = Returned (v_done false)
  /\ boards_error s' = Some "permission denied"
  /\ new_events s s'
     = [Request Table.boards true;
        ConsoleError "Error deleting board:" Sample.refusal]
  /\ db s' = db s
  /\ hook s' = hook s.
Proof.
  intros s op.
  exact (proj2 (boards_operations_catch_errors op s) Sample.refusal eq_refl).
Defined.


(* ================================================================== *)
(** * The board component *)
(** ** Moving a card with the arrows *)

Lemma findIndex_none {A : Type} (p : A -> bool) (xs : list A) :
  (forall x, In x xs -> p x = false) -> findIndex p xs = -1.
Proof.
  induction xs as [|x xs IH]; intros H; [reflexivity|].
  simpl. rewrite (H x) by now left.
  rewrite IH by (intros y Hy; apply H; now right). reflexivity.
Qed.

Lemma findIndex_first {A : Type} (p : A -> bool) (before after : list A) x :
  (forall y, In y before -> p y = false) -> p x = true ->
  findIndex p (before ++ x :: after) = Z.of_nat (List.length before).
Proof.
  intros Hbefore Hx.
  induction before as [|y before IH]; simpl.
  - now rewrite Hx.
  - rewrite (Hbefore y) by now left.
    rewrite IH by (intros z Hz; apply Hbefore; now right).
    destruct (Z.of_nat (List.length before) =? -1) eqn:E; lia.
Qed.

Lemma at_index_app_after {A : Type} (before after : list A) x :
  at_index (before ++ x :: after) (Z.of_nat (List.length before) + 1)
  = hd_error after.
Proof.
  unfold at_index.
  destruct (Z.of_nat (List.length before) + 1 <? 0) eqn:E; [lia|].
  replace (Z.to_nat (Z.of_nat (List.length before) + 1))
    with (List.length before + 1)%nat by lia.
  rewrite nth_error_app2 by lia.
  replace (List.length before + 1 - List.length before)%nat with 1%nat by lia.
  now destruct after.
Qed.

Lemma at_index_app_before {A : Type} (before after : list A) x :
  before <> [] ->
  at_index (before ++ x :: after) (Z.of_nat (List.length before) - 1)
  = hd_error (rev before).
Proof.
  intros Hbefore.
  destruct (exists_last Hbefore) as (front & y & ->).
  rewrite rev_app_distr, length_app. simpl.
  unfold at_index.
  destruct (Z.of_nat (List.length front + 1) - 1 <? 0) eqn:E; [lia|].
  replace (Z.to_nat (Z.of_nat (List.length front + 1) - 1))
    with (List.length front) by lia.
  rewrite <- app_assoc. rewrite nth_error_app2 by lia.
  now rewrite Nat.sub_diag.
Qed.

(** The index arithmetic of the handler picks the neighbour of the first
    column that holds the card. *)
Lemma move_target_neighbour columns cardId direction before cur after :
  columns = before ++ cur :: after ->
  (forall c, In c before -> holds_card cardId c = false) ->
  holds_card cardId cur = true ->
  move_target columns cardId direction = neighbour direction before after.
Proof.
  intros -> Hbefore Hcur. unfold move_target, neighbour.
  rewrite (findIndex_first _ _ _ _ Hbefore Hcur).
  destruct (Z.of_nat (List.length before) =? -1) eqn:E; [lia|].
  rewrite length_app. simpl List.length.
  destruct direction.
  - destruct before as [|b before'].
    + reflexivity.
    + match goal with
      | |- (if ?guard then _ else _) = _ =>
          replace guard with false by (simpl List.length; lia)
      end.
      now apply at_index_app_before.
  - destruct after as [|a after'].
    + match goal with
      | |- (if ?guard then _ else _) = _ =>
          replace guard with true by (simpl List.length; lia)
      end.
      reflexivity.
    + match goal with
      | |- (if ?guard then _ else _) = _ =>
          replace guard with false by (simpl List.length; lia)
      end.
      apply at_index_app_after.
Qed.

Lemma move_target_none columns cardId direction :
  (forall c, In c columns -> holds_card cardId c = false) ->
  move_target columns cardId direction = None.
Proof.
  intros H. unfold move_target. now rewrite (findIndex_none _ _ H).
Qed.

Lemma handleMoveCardToColumn_run toLowerCase cardId direction s :
  handleMoveCardToColumn toLowerCase cardId direction s
  = match move_target (columns (hook s)) cardId direction with
    | None => (Returned tt, s)
    | Some targetColumn =>
        (success <- moveCard cardId (ColumnWithCards.id targetColumn) 0 ;;
         if success then
           checkCardCompletion toLowerCase (columns (hook s)) cardId
             (ColumnWithCards.id targetColumn) ;;
           emit (ToastSuccess
                   (moved_message (ColumnWithCards.title targetColumn)))
         else ret tt) s
    end.
Proof.
  unfold handleMoveCardToColumn, move_target.
  unfold bind at 1. unfold get. cbv beta iota zeta.
  destruct (findIndex (holds_card cardId) (columns (hook s)) =? -1);
    [reflexivity|].
  match goal with
  | |- (if ?guard then _ else _) _ = _ => destruct guard; [reflexivity|]
  end.
  now destruct (at_index _ _).
Qed.

Lemma moveCard_accepted_run cardId targetColumnId newPosition generated s :
  service (env s) (requests s) = Accepted generated ->
  fst (moveCard cardId targetColumnId newPosition s) = Returned true
  /\ card_moved cardId targetColumnId newPosition s
       (snd (moveCard cardId targetColumnId newPosition s)).
Proof.
  intros H.
  apply (wp_run (moveCard cardId targetColumnId newPosition)
           (fun r s' =>
              r = Returned true
              /\ card_moved cardId targetColumnId newPosition s s')).
  eapply moveCard_accepted; [exact H|]. now split.
Qed.

Lemma moveCard_rejected_run cardId targetColumnId newPosition e s :
  service (env s) (requests s) = Rejected e ->
  fst (moveCard cardId targetColumnId newPosition s) = Returned false
  /\ db (snd (moveCard cardId targetColumnId newPosition s)) = db s
  /\ columns (hook (snd (moveCard cardId targetColumnId newPosition s)))
     = columns (hook s)
  /\ trace (snd (moveCard cardId targetColumnId newPosition s))
     = trace s ++ [Request Table.cards true;
                   ConsoleError "Error moving card:" e].
Proof.
  intros H.
  apply (wp_run (moveCard cardId targetColumnId newPosition)
           (fun r s' =>
              r = Returned false /\ db s' = db s
              /\ columns (hook s') = columns (hook s)
              /\ trace s'
                 = trace s ++ [Request Table.cards true;
                               ConsoleError "Error moving card:" e])).
  unfold moveCard.
  wp_steps. wp_reply H. wp_steps.
  repeat split. simpl. now rewrite <- app_assoc.
Qed.

(** The events of [fetchBoard], [logActivity] and [moveCard] are requests,
    fetches and console lines: no toast, no confetti. *)
Lemma fetchBoard_quiet : keeps (grows quiet) fetchBoard.
Proof. unfold fetchBoard, fetch_cards_and_details. keeps_auto. Qed.

Lemma logActivity_quiet cardId actionType details :
  keeps (grows quiet) (logActivity cardId actionType details).
Proof. unfold logActivity. keeps_auto. Qed.

Lemma moveCard_quiet cardId targetColumnId newPosition :
  keeps (grows quiet) (moveCard cardId targetColumnId newPosition).
Proof.
  unfold moveCard. keeps_auto.
  all: first [apply fetchBoard_quiet | apply logActivity_quiet].
Qed.

Lemma bind_run {A B : Type} (m : M A) (k : A -> M B) s a :
  fst (m s) = Returned a -> bind m k s = k a (snd (m s)).
Proof.
  unfold bind. destruct (m s) as [r s1]. simpl. now intros ->.
Qed.

Lemma celebration_run toLowerCase columns cardId targetColumn s :
  let m :=
    checkCardCompletion toLowerCase columns cardId
      (ColumnWithCards.id targetColumn) ;;
    emit (ToastSuccess (moved_message (ColumnWithCards.title targetColumn))) in
  env (snd (m s)) = env s /\ db (snd (m s)) = db s
  /\ hook (snd (m s)) = hook s
  /\ trace (snd (m s))
     = trace s ++ celebration toLowerCase columns targetColumn
       ++ [ToastSuccess (moved_message (ColumnWithCards.title targetColumn))].
Proof.
  intros m. subst m.
  apply (wp_run _ (fun _ s' =>
                     env s' = env s /\ db s' = db s /\ hook s' = hook s
                     /\ trace s'
                        = trace s
                          ++ celebration toLowerCase columns targetColumn
                          ++ [ToastSuccess
                                (moved_message
                                   (ColumnWithCards.title targetColumn))])).
  unfold checkCardCompletion, celebration.
  wp_steps.
  all: repeat split; simpl; rewrite <- ?app_assoc; reflexivity.
Qed.

Lemma quiet_notices evs : Forall quiet evs -> notices evs = [].
Proof.
  induction 1 as [|e evs He _ IH]; [reflexivity|].
  unfold notices in *. simpl. unfold quiet in He. now rewrite He.
Qed.

Lemma celebration_notices toLowerCase columns targetColumn :
  notices (celebration toLowerCase columns targetColumn)
  = celebration toLowerCase columns targetColumn.
Proof.
  unfold celebration.
  destruct (findColumnById _ _); [|reflexivity].
  now destruct (Js.includes _ _).
Qed.

(** X10: the arrows move a card to the neighbouring column of the view and
    never past its ends.  When no column of the view holds the card,
    [handleMoveCardToColumn] does nothing.  Otherwise let the first column
    that holds it have the columns [before] on its left and [after] on its
    right: with no neighbour on the side asked for, nothing happens, no
    request is sent; with a neighbour, [moveCard] is called for the top of
    that column: when the service accepts, the card's row is in that column
    at position 0; when it rejects, store and columns are as before and
    the only events are the request and the console line. *)
Theorem handleMoveCardToColumn_moves_to_the_neighbour
    (toLowerCase : string -> string) (cardId : string)
    (direction : Direction) (s : State) :
  let s' := snd (handleMoveCardToColumn toLowerCase cardId direction s) in
  ((forall c, In c (columns (hook s)) -> holds_card cardId c = false) ->
   s' = s)
  /\ forall before cur after,
       columns (hook s) = before ++ cur :: after ->
       (forall c, In c before -> holds_card cardId c = false) ->
       holds_card cardId cur = true ->
       match neighbour direction before after with
       | None => s' = s
       | Some targetColumn =>
           match service (env s) (requests s) with
           | Accepted _ =>
               card_moved cardId (ColumnWithCards.id targetColumn) 0 s s'
           | Rejected e =>
               db s' = db s /\ columns (hook s') = columns (hook s)
               /\ new_events s s'
                  = [Request Table.cards true;
                     ConsoleError "Error moving card:" e]
           end
       end.
Proof.
  intros s'. subst s'. rewrite handleMoveCardToColumn_run. split.
  - intros Hnone. now rewrite (move_target_none _ _ _ Hnone).
  - intros before cur after Hcolumns Hbefore Hcur.
    rewrite (move_target_neighbour _ _ _ _ _ _ Hcolumns Hbefore Hcur).
    destruct (neighbour direction before after) as [targetColumn|];
      [|reflexivity].
    destruct (service (env s) (requests s)) as [generated|e] eqn:Hreply.
    + destruct (moveCard_accepted_run cardId
                  (ColumnWithCards.id targetColumn) 0 generated s Hreply)
        as [Hresult Hmoved].
      rewrite (bind_run _ _ _ _ Hresult).
      set (s1 := snd (moveCard cardId (ColumnWithCards.id targetColumn) 0 s))
        in *.
      destruct (celebration_run toLowerCase (columns (hook s)) cardId
                  targetColumn s1) as (Henv & Hdb & Hhook & Htrace).
      destruct Hmoved as (Henv1 & Hcards & Hcols & Hshows & evs & evs' & Ht & Hq).
      split; [congruence|]. split; [congruence|]. split; [congruence|].
      split.
      * intros Hall board b Hid Htruthy Hrow.
        rewrite Hhook. rewrite Hdb in *. rewrite Henv in Hid.
        now apply (Hshows Hall board b).
      * exists evs. eexists. split; [|exact Hq].
        rewrite Htrace, Ht. rewrite <- !app_assoc. simpl.
        rewrite <- !app_assoc. reflexivity.
    + destruct (moveCard_rejected_run cardId
                  (ColumnWithCards.id targetColumn) 0 e s Hreply)
        as (Hresult & Hdb & Hcols & Htrace).
      rewrite (bind_run _ _ _ _ Hresult). simpl.
      repeat split; auto. now apply new_events_of.
Qed.

Lemma handleMoveCardToColumn_moves_to_the_neighbour_witness :
  let s := Small.state Sample.accepting in
  card_moved "k1" "c2" 0 s
    (snd (handleMoveCardToColumn ascii_toLowerCase "k1" to_right s)).
Proof.
  exact (proj2 (handleMoveCardToColumn_moves_to_the_neighbour
                  ascii_toLowerCase "k1" to_right
                  (Small.state Sample.accepting))
               [] Small.todo [Small.finished] eq_refl
               (fun c H => match H with end) eq_refl).
Defined.

(** X11: what an arrow move celebrates.  When the handler has a target
    column: an accepted move raises the toast that names the column, and
    before it the confetti and the completion toast exactly when the title
    of the target, in lower case, contains "done"; a rejected move raises
    no toast and no confetti. *)
Theorem arrow_move_celebrates_done
    (toLowerCase : string -> string) (cardId : string)
    (direction : Direction) (s : State) before cur after targetColumn :
  columns (hook s) = before ++ cur :: after ->
  (forall c, In c before -> holds_card cardId c = false) ->
  holds_card cardId cur = true ->
  neighbour direction before after = Some targetColumn ->
  let s' := snd (handleMoveCardToColumn toLowerCase cardId direction s) in
  notices (new_events s s')
  = match service (env s) (requests s) with
    | Accepted _ =>
        celebration toLowerCase (columns (hook s)) targetColumn
        ++ [ToastSuccess (moved_message (ColumnWithCards.title targetColumn))]
    | Rejected _ => []
    end.
Proof.
  intros Hcolumns Hbefore Hcur Htarget s'. subst s'.
  rewrite handleMoveCardToColumn_run.
  rewrite (move_target_neighbour _ _ _ _ _ _ Hcolumns Hbefore Hcur), Htarget.
  destruct (service (env s) (requests s)) as [generated|e] eqn:Hreply.
  - destruct (moveCard_accepted_run cardId
                (ColumnWithCards.id targetColumn) 0 generated s Hreply)
      as [Hresult _].
    rewrite (bind_run _ _ _ _ Hresult).
    destruct (moveCard_quiet cardId (ColumnWithCards.id targetColumn) 0 s)
      as (evs & Hevs & Hquiet).
    set (s1 := snd (moveCard cardId (ColumnWithCards.id targetColumn) 0 s))
      in *.
    destruct (celebration_run toLowerCase (columns (hook s)) cardId
                targetColumn s1) as (_ & _ & _ & Htrace).
    erewrite new_events_of
      by (rewrite Htrace, Hevs, <- app_assoc; reflexivity).
    unfold notices. rewrite !filter_app.
    fold (notices evs). rewrite (quiet_notices _ Hquiet).
    fold (notices (celebration toLowerCase (columns (hook s)) targetColumn)).
    now rewrite celebration_notices.
  - destruct (moveCard_rejected_run cardId
                (ColumnWithCards.id targetColumn) 0 e s Hreply)
      as (Hresult & _ & _ & Htrace).
    rewrite (bind_run _ _ _ _ Hresult). simpl.
    now rewrite (new_events_of _ _ _ Htrace).
Qed.

Lemma arrow_move_celebrates_done_witness :
  let s := Small.state Sample.accepting in
  notices (new_events s
             (snd (handleMoveCardToColumn ascii_toLowerCase "k1" to_right s)))
  = [ConfettiFire; ToastSuccess "🎉 Görev tamamlandı!";
     ToastSuccess (moved_message "Done")].
Proof.
  exact (arrow_move_celebrates_done ascii_toLowerCase "k1" to_right
           (Small.state Sample.accepting) [] Small.todo [Small.finished]
           Small.finished eq_refl (fun c H => match H with end)
           eq_refl eq_refl).
Defined.

Section Rendering.

Variable toLowerCase : string -> string.
Variable startOfDay : string -> option Z.
Variable today : Z.
Variable nextWeek : Z.

Let filtered := filteredColumns toLowerCase startOfDay today nextWeek.

Lemma filteredColumns_length fs columns :
  List.length (filtered fs columns) = List.length columns.
Proof.
  unfold filtered, filteredColumns.
  destruct (_ && _); [reflexivity|apply length_map].
Qed.

(** X12: the arrows of a card are enabled exactly when the handler behind
    them has a target.  For a card shown in a column of the filtered board,
    with the columns [before] on its left and [after] on its right, and no
    card of that id further left: the arrow of a direction is enabled
    exactly when there is a neighbouring column on that side, which is then
    the target of [handleMoveCardToColumn]; when the arrow is disabled the
    handler would do nothing, so a click on the arrow of the card does what
    the handler of the board does. *)
Theorem arrows_enabled_iff_move_possible
    (fs : FilterState) (cardId : string) (direction : Direction) (s : State)
    before cur after :
  columns (hook s) = before ++ cur :: after ->
  (forall c, In c before -> holds_card cardId c = false) ->
  holds_card cardId cur = true ->
  let columnIndex := Z.of_nat (List.length before) in
  let totalColumns := Z.of_nat (List.length (filtered fs (columns (hook s)))) in
  let enabled := arrow_enabled direction columnIndex totalColumns in
  (enabled = true <->
   exists targetColumn,
     move_target (columns (hook s)) cardId direction = Some targetColumn)
  /\ (enabled = false ->
      snd (handleMoveCardToColumn toLowerCase cardId direction s) = s)
  /\ arrow_click direction columnIndex totalColumns
       (handleMoveCardToColumn toLowerCase cardId direction) s
     = handleMoveCardToColumn toLowerCase cardId direction s.
Proof.
  intros Hcolumns Hbefore Hcur columnIndex totalColumns enabled.
  assert (Henabled : enabled = true <-> neighbour direction before after <> None).
  { subst enabled columnIndex totalColumns.
    rewrite filteredColumns_length, Hcolumns, length_app. simpl List.length.
    unfold arrow_enabled, canMoveLeft, canMoveRight, neighbour.
    destruct direction.
    - destruct before as [|b before'] using rev_ind.
      + simpl. split; [discriminate|congruence].
      + rewrite rev_app_distr, length_app. simpl.
        split; [discriminate|intros _; lia].
    - destruct after as [|a after']; simpl.
      + split; [lia|congruence].
      + split; [discriminate|intros _; lia]. }
  rewrite (move_target_neighbour _ _ _ _ _ _ Hcolumns Hbefore Hcur).
  assert (Hidle : enabled = false ->
                  handleMoveCardToColumn toLowerCase cardId direction s
                  = (Returned tt, s)).
  { intros Hdisabled.
    rewrite handleMoveCardToColumn_run.
    rewrite (move_target_neighbour _ _ _ _ _ _ Hcolumns Hbefore Hcur).
    destruct (neighbour direction before after) as [target|]; [|reflexivity].
    assert (enabled = true) by (apply Henabled; discriminate). congruence. }
  split; [|split].
  - rewrite Henabled.
    destruct (neighbour direction before after) as [target|].
    + split; [intros _; now exists target|discriminate].
    + split; [congruence|intros [target Ht]; discriminate Ht].
  - intros Hdisabled. now rewrite (Hidle Hdisabled).
  - assert (Hclick :
              arrow_click direction columnIndex totalColumns
                (handleMoveCardToColumn toLowerCase cardId direction)
              = if enabled
                then handleMoveCardToColumn toLowerCase cardId direction
                else ret tt).
    { subst enabled. now destruct direction. }
    rewrite Hclick. destruct enabled eqn:He; [reflexivity|].
    now rewrite (Hidle eq_refl).
Qed.

(** X13: the counters of the filter bar.  The number of cards counted
    after filtering is never negative and never more than the total, for
    every filter state; with the default filter state the two are equal. *)
Theorem filteredCards_at_most_totalCards
    (fs : FilterState) (columns : list ColumnWithCards.t) :
  0 <= count_cards (filtered fs columns) <= totalCards columns
  /\ count_cards (filtered DEFAULT_FILTER_STATE columns) = totalCards columns.
Proof.
  assert (Hsum : forall (l : list ColumnWithCards.t) acc,
             fold_left
               (fun sum col =>
                  sum + Z.of_nat (List.length (ColumnWithCards.cards col)))
               l acc
             = acc + count_cards l).
  { unfold count_cards. induction l as [|col l IH]; intros acc; simpl.
    - lia.
    - rewrite IH, (IH (Z.of_nat _)). lia. }
  split; [|reflexivity].
  unfold totalCards, filtered, filteredColumns.
  destruct (_ && _).
  - split; [|lia]. unfold count_cards.
    induction columns as [|col l IH]; simpl; [lia|].
    rewrite Hsum. unfold count_cards in *. lia.
  - induction columns as [|col l IH]; simpl; [unfold count_cards; simpl; lia|].
    unfold count_cards in *. simpl.
    rewrite Hsum, (Hsum l). unfold count_cards.
    pose proof (filter_length_le
                  (cardPasses toLowerCase startOfDay today nextWeek fs)
                  (ColumnWithCards.cards col)).
    lia.
Qed.

End Rendering.

Lemma arrows_enabled_iff_move_possible_witness :
  let s := Small.state Sample.accepting in
  let enabled :=
    arrow_enabled to_left 0
      (Z.of_nat
         (List.length
            (filteredColumns ascii_toLowerCase (fun _ => None) 0 7
               DEFAULT_FILTER_STATE (columns (hook s))))) in
  (enabled = true <->
   exists targetColumn,
     move_target (columns (hook s)) "k1" to_left = Some targetColumn)
  /\ (enabled = false ->
      snd (handleMoveCardToColumn ascii_toLowerCase "k1" to_left s) = s)
  /\ arrow_click to_left 0
       (Z.of_nat
          (List.length
             (filteredColumns ascii_toLowerCase (fun _ => None) 0 7
                DEFAULT_FILTER_STATE (columns (hook s)))))
       (handleMoveCardToColumn ascii_toLowerCase "k1" to_left) s
     = handleMoveCardToColumn ascii_toLowerCase "k1" to_left s.
Proof.
  exact (arrows_enabled_iff_move_possible ascii_toLowerCase (fun _ => None)
           0 7 DEFAULT_FILTER_STATE "k1" to_left
           (Small.state Sample.accepting) [] Small.todo [Small.finished]
           eq_refl (fun c H => match H with end) eq_refl).
Defined.

(* ------------------------------------------------------------------ *)
(** ** Finding a card *)

Lemma findCard_flattened id columns :
  findCard id columns
  = find (fun c => (CardWithLabels.id c =? id)%string)
         (flat_map ColumnWithCards.cards columns).
Proof.
  induction columns as [|column rest IH]; [reflexivity|].
  simpl. rewrite IH.
  induction (ColumnWithCards.cards column) as [|c cards IHc]; [reflexivity|].
  simpl. now destruct (CardWithLabels.id c =? id)%string.
Qed.

(** X14: [findCard] finds a card exactly when the board has one.  What it
    returns is a card of some column of the view with the id asked for, the
    first in board order; it returns [null] only when no card of the view
    has that id. *)
Theorem findCard_sound_and_complete
    (id : string) (columns : list ColumnWithCards.t) :
  match findCard id columns with
  | Some card =>
      CardWithLabels.id card = id
      /\ (exists column,
             In column columns /\ In card (ColumnWithCards.cards column))
      /\ exists earlier later,
           flat_map ColumnWithCards.cards columns = earlier ++ card :: later
           /\ forall c, In c earlier -> CardWithLabels.id c <> id
  | None =>
      forall column card,
        In column columns -> In card (ColumnWithCards.cards column) ->
        CardWithLabels.id card <> id
  end.
Proof.
  rewrite findCard_flattened.
  set (shown := flat_map ColumnWithCards.cards columns).
  assert (Hshown : forall card,
             In card shown <->
             exists column,
               In column columns /\ In card (ColumnWithCards.cards column)).
  { intros card. apply in_flat_map. }
  clearbody shown.
  destruct (find _ shown) as [card|] eqn:Hfind.
  - pose proof (find_some _ _ Hfind) as [Hin Hid].
    apply String.eqb_eq in Hid.
    split; [exact Hid|]. split; [now apply Hshown|].
    clear Hshown Hin.
    induction shown as [|c shown IH]; [discriminate|].
    simpl in Hfind.
    destruct (CardWithLabels.id c =? id)%string eqn:Hc.
    + injection Hfind as ->. exists [], shown. split; [reflexivity|].
      intros ? [].
    + destruct (IH Hfind) as (earlier & later & -> & Hearlier).
      exists (c :: earlier), later. split; [reflexivity|].
      intros c' [<-|Hc']; [now apply String.eqb_neq|now apply Hearlier].
  - intros column card Hcolumn Hcard Hid.
    assert (Hin : In card shown) by (apply Hshown; eauto).
    pose proof (find_none _ _ Hfind card Hin) as Hno.
    simpl in Hno. apply String.eqb_neq in Hno. contradiction.
Qed.

(* ------------------------------------------------------------------ *)
(** ** Labels of a card *)

Lemma handleToggleLabel_run cardId labelId currentLabels s :
  let hasLabel :=
    existsb (fun l => (Label.id l =? labelId)%string) currentLabels in
  let s' := snd (handleToggleLabel cardId labelId currentLabels s) in
  fst (handleToggleLabel cardId labelId currentLabels s) = Returned tt
  /\ env s' = env s /\ requests s' = S (requests s) /\ hook s' = hook s
  /\ db s'
     = match service (env s) (requests s) with
       | Accepted _ =>
           if hasLabel
           then Db.with_card_labels
                  (Db.delete_where (is_card_label cardId labelId)) (db s)
           else insert_card_label cardId labelId (db s)
       | Rejected _ => db s
       end.
Proof.
  intros hasLabel s'. subst hasLabel s'.
  apply (wp_run (handleToggleLabel cardId labelId currentLabels)
           (fun r s' =>
              r = Returned tt
              /\ env s' = env s /\ requests s' = S (requests s)
              /\ hook s' = hook s
              /\ db s'
                 = match service (env s) (requests s) with
                   | Accepted _ =>
                       if existsb (fun l => (Label.id l =? labelId)%string)
                                  currentLabels
                       then Db.with_card_labels
                              (Db.delete_where (is_card_label cardId labelId))
                              (db s)
                       else insert_card_label cardId labelId (db s)
                   | Rejected _ => db s
                   end)).
  unfold handleToggleLabel.
  destruct (existsb _ currentLabels).
  all: apply wp_bind, wp_write.
  all: destruct (service (env s) (requests s)); wp_steps.
  all: repeat split.
Qed.

(** X15: toggling a label twice is a round trip.  For a card that does not
    carry the label, [handleToggleLabel] adds the card-label row; called
    again for the card that now carries it, it deletes the row, and the
    card-label table is as it was at the start (both requests accepted).
    The answers of the service are not looked at: the handler returns in
    every case and the hook's state is untouched. *)
Theorem handleToggleLabel_round_trip
    (s : State) (cardId labelId : string) (without carrying : list Label.t)
    (g0 g1 : nat -> string) :
  existsb (fun l => (Label.id l =? labelId)%string) without = false ->
  existsb (fun l => (Label.id l =? labelId)%string) carrying = true ->
  (forall cl, In cl (Db.card_labels (db s)) ->
              is_card_label cardId labelId cl = false) ->
  service (env s) (requests s) = Accepted g0 ->
  service (env s) (S (requests s)) = Accepted g1 ->
  let s1 := snd (handleToggleLabel cardId labelId without s) in
  let s2 := snd (handleToggleLabel cardId labelId carrying s1) in
  Db.card_labels (db s1)
  = Db.card_labels (db s) ++ [CardLabel.mk cardId labelId]
  /\ db s2 = db s
  /\ hook s2 = hook s.
Proof.
  intros Hwithout Hcarrying Hfresh H0 H1 s1 s2.
  destruct (handleToggleLabel_run cardId labelId without s)
    as (_ & Henv1 & Hreq1 & Hhook1 & Hdb1).
  destruct (handleToggleLabel_run cardId labelId carrying s1)
    as (_ & _ & _ & Hhook2 & Hdb2).
  fold s1 in Henv1, Hreq1, Hhook1, Hdb1. fold s2 in Hhook2, Hdb2.
  rewrite H0, Hwithout in Hdb1.
  rewrite Henv1, Hreq1, H1, Hcarrying in Hdb2.
  split; [now rewrite Hdb1|]. split; [|congruence].
  rewrite Hdb2, Hdb1.
  destruct (db s) as [b c k l card_labels st a cm ac f]. simpl in *.
  unfold insert_card_label, Db.with_card_labels, Db.delete_where. simpl.
  f_equal. rewrite filter_app. simpl.
  unfold is_card_label at 2. simpl. rewrite !String.eqb_refl. simpl.
  rewrite app_nil_r. apply filter_all_true.
  intros cl Hcl. now rewrite (Hfresh cl Hcl).
Qed.

Lemma handleToggleLabel_round_trip_witness :
  let s := Small.state Sample.accepting in
  let s1 := snd (handleToggleLabel "k1" "l1" [] s) in
  let s2 :=
    snd (handleToggleLabel "k1" "l1" [Label.mk "l1" "b1" "bug" "#ef4444"] s1) in
  Db.card_labels (db s1) = Db.card_labels (db s) ++ [CardLabel.mk "k1" "l1"]
  /\ db s2 = db s
  /\ hook s2 = hook s.
Proof.
  exact (handleToggleLabel_round_trip (Small.state Sample.accepting)
           "k1" "l1" [] [Label.mk "l1" "b1" "bug" "#ef4444"]
           (Sample.generated 0) (Sample.generated 1)
           eq_refl eq_refl (fun cl H => match H with end) eq_refl eq_refl).
Defined.

(* ------------------------------------------------------------------ *)
(** ** The forms for column titles *)

Lemma columns_titled_add d id board title position wip :
  columns_titled d -> Js.truthy title = true ->
  columns_titled
    (Db.with_columns
       (fun rows => rows ++ [Column.mk id board title position wip]) d).
Proof.
  intros Hd Htitle c Hc. simpl in Hc.
  apply in_app_or in Hc as [Hc|[<-|[]]]; [now apply Hd|exact Htitle].
Qed.

Lemma columns_titled_rename d (p : Column.t -> bool) title :
  columns_titled d -> Js.truthy title = true ->
  columns_titled
    (Db.with_columns
       (Db.update_where p
          (fun c => Column.mk (Column.id c) (Column.board_id c) title
                      (Column.position c) (Column.wip_limit c))) d).
Proof.
  intros Hd Htitle c Hc. simpl in Hc. unfold Db.update_where in Hc.
  apply in_map_iff in Hc as (c0 & <- & Hc0).
  destruct (p c0); [exact Htitle|now apply Hd].
Qed.

(** X16: the forms of the board never store a blank column title.  If no
    column of the store has an empty title, none has after
    [handleAddColumn], whatever was typed and whatever the service answers,
    and none has after the column's [handleTitleSave]: both send the
    trimmed title, and only when it is not empty. *)
Theorem column_forms_keep_titles_nonblank
    (trim : string -> string) (s : State) (ui : BoardUi.t)
    (column : ColumnWithCards.t) (columnUi : ColumnUi.t) :
  columns_titled (db s) ->
  columns_titled (db (snd (handleAddColumn trim ui s)))
  /\ columns_titled
       (db (snd (Column_handleTitleSave trim column
                   (Board_onUpdateTitle column) columnUi s))).
Proof.
  intros Htitled. split.
  - apply (wp_run (handleAddColumn trim ui)
             (fun _ s' => columns_titled (db s'))).
    unfold handleAddColumn.
    destruct (Js.truthy (trim (BoardUi.newColumnTitle ui))) eqn:Htitle;
      [|exact Htitled].
    unfold addColumn.
    repeat (first [ wp_step | wp_either | apply fetchBoard_wp; intros ? ? ];
            cbv beta iota).
    all: repeat match goal with
           | H : fetched _ _ |- _ => destruct H as (_ & H & _)
           end.
    all: simpl.
    all: repeat match goal with
           | H : db _ = _ |- _ => rewrite H; clear H
           end.
    all: simpl; try exact Htitled.
    all: now apply columns_titled_add.
  - apply (wp_run (Column_handleTitleSave trim column
                     (Board_onUpdateTitle column) columnUi)
             (fun _ s' => columns_titled (db s'))).
    unfold Column_handleTitleSave, Board_onUpdateTitle, updateColumn.
    destruct (Js.truthy (trim (ColumnUi.title columnUi))) eqn:Htitle;
      simpl andb.
    + repeat (first [ wp_step | wp_either ]; cbv beta iota).
      all: simpl; try exact Htitled.
      all: now apply columns_titled_rename.
    + wp_steps. exact Htitled.
Qed.

Lemma column_forms_keep_titles_nonblank_witness :
  let s := Small.state Sample.accepting in
  let typed := setNewColumnTitle "   " Small.ui in
  columns_titled (db (snd (handleAddColumn (fun _ => "") typed s)))
  /\ columns_titled
       (db (snd (Column_handleTitleSave (fun _ => "") Small.todo
                   (Board_onUpdateTitle Small.todo)
                   (ColumnUi.mk true "   " false "") s))).
Proof.
  apply (column_forms_keep_titles_nonblank (fun _ => "")
           (Small.state Sample.accepting)).
  intros c Hc. simpl in Hc.
  destruct Hc as [<-|[<-|[]]]; reflexivity.
Defined.

(* ------------------------------------------------------------------ *)
(** ** Toasts *)

Lemma addCard_quiet columnId title : keeps (grows quiet) (addCard columnId title).
Proof. unfold addCard. keeps_auto. all: apply logActivity_quiet. Qed.

Lemma addColumn_quiet title : keeps (grows quiet) (addColumn title).
Proof. unfold addColumn. keeps_auto. all: apply fetchBoard_quiet. Qed.

Lemma updateCard_quiet cardId updates :
  keeps (grows quiet) (updateCard cardId updates).
Proof. unfold updateCard. keeps_auto. all: apply logActivity_quiet. Qed.

Lemma deleteCard_quiet cardId : keeps (grows quiet) (deleteCard cardId).
Proof. unfold deleteCard. keeps_auto. Qed.

Lemma assignCard_quiet cardId userId :
  keeps (grows quiet) (assignCard cardId userId).
Proof. unfold assignCard. keeps_auto. all: apply logActivity_quiet. Qed.

Lemma addCard_result columnId title s :
  match service (env s) (requests s) with
  | Accepted _ => exists c, fst (addCard columnId title s) = Returned (Some c)
  | Rejected _ => fst (addCard columnId title s) = Returned None
  end.
Proof.
  apply (wp_run (addCard columnId title)
           (fun r _ =>
              match service (env s) (requests s) with
              | Accepted _ => exists c, r = Returned (Some c)
              | Rejected _ => r = Returned None
              end)).
  unfold addCard.
  repeat (first [ wp_step | wp_either | apply logActivity_wp; intros ? ? ];
          cbv beta iota).
  all: eauto.
Qed.

Lemma addColumn_result title board s :
  boardId (env s) = Some board -> Js.truthy board = true ->
  match service (env s) (requests s) with
  | Accepted _ => exists c, fst (addColumn title s) = Returned (Some c)
  | Rejected _ => fst (addColumn title s) = Returned None
  end.
Proof.
  intros Hid Htruthy.
  apply (wp_run (addColumn title)
           (fun r _ =>
              match service (env s) (requests s) with
              | Accepted _ => exists c, r = Returned (Some c)
              | Rejected _ => r = Returned None
              end)).
  unfold addColumn.
  apply wp_bind, wp_get. cbv beta. rewrite Hid, Htruthy. simpl negb. cbv iota.
  repeat (first [ wp_step | wp_either | apply fetchBoard_wp; intros ? ? ];
          cbv beta iota).
  all: eauto.
Qed.

(** The notices of a quiet computation followed by what its result calls
    for. *)
Lemma notices_after {A B : Type} (m : M A) (k : A -> M B) s a evs :
  keeps (grows quiet) m ->
  fst (m s) = Returned a ->
  trace (snd (k a (snd (m s)))) = trace (snd (m s)) ++ evs ->
  notices (new_events s (snd (bind m k s))) = notices evs.
Proof.
  intros Hquiet Hresult Hk.
  rewrite (bind_run _ _ _ _ Hresult).
  destruct (Hquiet s) as (evs0 & Hevs0 & Hq).
  erewrite new_events_of by (rewrite Hk, Hevs0, <- app_assoc; reflexivity).
  unfold notices. rewrite filter_app.
  fold (notices evs0). now rewrite (quiet_notices _ Hq).
Qed.

(** X17: the toasts of the two add forms follow the result.  "Kart
    eklendi" is raised exactly when the service accepted the insert of the
    card, and "Sütun eklendi" exactly when it accepted the insert of the
    column (of a board, for a title that is not blank); a rejected insert
    raises no toast. *)
Theorem add_toasts_follow_the_result
    (trim : string -> string) (s : State) (columnId title : string)
    (ui : BoardUi.t) (board : string) :
  boardId (env s) = Some board -> Js.truthy board = true ->
  Js.truthy (trim (BoardUi.newColumnTitle ui)) = true ->
  notices (new_events s (snd (handleAddCard columnId title s)))
  = match service (env s) (requests s) with
    | Accepted _ => [ToastSuccess "Kart eklendi"]
    | Rejected _ => []
    end
  /\ notices (new_events s (snd (handleAddColumn trim ui s)))
     = match service (env s) (requests s) with
       | Accepted _ => [ToastSuccess "Sütun eklendi"]
       | Rejected _ => []
       end.
Proof.
  intros Hid Htruthy Htitle. split.
  - unfold handleAddCard.
    pose proof (addCard_result columnId title s) as Hresult.
    destruct (service (env s) (requests s)).
    + destruct Hresult as [c Hc].
      now rewrite (notices_after _ _ s (Some c) [ToastSuccess "Kart eklendi"]
                     (addCard_quiet columnId title) Hc).
    + now rewrite (notices_after _ _ s None [] (addCard_quiet columnId title)
                     Hresult)
        by (simpl; now rewrite app_nil_r).
  - unfold handleAddColumn. rewrite Htitle.
    pose proof (addColumn_result (trim (BoardUi.newColumnTitle ui)) board s
                  Hid Htruthy) as Hresult.
    destruct (service (env s) (requests s)).
    + destruct Hresult as [c Hc].
      now rewrite (notices_after _ _ s (Some c) [ToastSuccess "Sütun eklendi"]
                     (addColumn_quiet _) Hc).
    + now rewrite (notices_after _ _ s None [] (addColumn_quiet _) Hresult)
        by (simpl; now rewrite app_nil_r).
Qed.

Lemma add_toasts_follow_the_result_witness :
  let s := Small.state (Sample.rejecting 0) in
  let ui := setNewColumnTitle "Review" Small.ui in
  notices (new_events s (snd (handleAddCard "c1" "Write" s))) = []
  /\ notices (new_events s (snd (handleAddColumn (fun t => t) ui s))) = [].
Proof.
  exact (add_toasts_follow_the_result (fun t => t)
           (Small.state (Sample.rejecting 0)) "c1" "Write"
           (setNewColumnTitle "Review" Small.ui) "b1"
           eq_refl eq_refl eq_refl).
Defined.

(** X18: the toasts of the card modal do not follow the result.  Saving,
    deleting and assigning from the card modal raise their success toast in
    every case; when the service has rejected the update of a save, the
    hook holds the error message and the toast is raised all the same. *)
Theorem modal_toasts_are_unconditional
    (s : State) (cardId : string) (updates : CardUpdates)
    (userId : option string) :
  notices (new_events s (snd (Board_onSave cardId updates s)))
  = [ToastSuccess "Kart güncellendi"]
  /\ notices (new_events s (snd (Board_onDelete cardId s)))
     = [ToastSuccess "Kart silindi"]
  /\ notices (new_events s (snd (Board_onAssign cardId userId s)))
     = [ToastSuccess (if Js.truthy_opt userId then "Kart atandı"
                      else "Atama kaldırıldı")]
  /\ forall e,
       service (env s) (requests s) = Rejected e ->
       error (hook (snd (Board_onSave cardId updates s)))
       = Some (Js.message_or e "Failed to update card").
Proof.
  assert (Hreturns : forall (op : Op) toLowerCase,
             rethrows op = false ->
             exists v, fst (run toLowerCase op s) = Returned v).
  { intros op toLowerCase Hop. apply (operations_return toLowerCase op Hop). }
  split; [|split; [|split]].
  - unfold Board_onSave.
    destruct (Hreturns (op_updateCard cardId updates) (fun t => t) eq_refl)
      as [v Hv].
    unfold run, returning in Hv.
    destruct (fst (updateCard cardId updates s)) as [b|e] eqn:Hb;
      [|unfold bind in Hv; destruct (updateCard cardId updates s) as [[?|?] ?];
        simpl in *; discriminate].
    now rewrite (notices_after _ _ s b [ToastSuccess "Kart güncellendi"]
                   (updateCard_quiet cardId updates) Hb).
  - unfold Board_onDelete.
    destruct (Hreturns (op_deleteCard cardId) (fun t => t) eq_refl) as [v Hv].
    unfold run, returning in Hv.
    destruct (fst (deleteCard cardId s)) as [b|e] eqn:Hb;
      [|unfold bind in Hv; destruct (deleteCard cardId s) as [[?|?] ?];
        simpl in *; discriminate].
    now rewrite (notices_after _ _ s b [ToastSuccess "Kart silindi"]
                   (deleteCard_quiet cardId) Hb).
  - unfold Board_onAssign.
    destruct (Hreturns (op_assignCard cardId userId) (fun t => t) eq_refl)
      as [v Hv].
    unfold run, returning in Hv.
    destruct (fst (assignCard cardId userId s)) as [b|e] eqn:Hb;
      [|unfold bind in Hv; destruct (assignCard cardId userId s) as [[?|?] ?];
        simpl in *; discriminate].
    rewrite (notices_after _ _ s b
               [ToastSuccess (if Js.truthy_opt userId then "Kart atandı"
                              else "Atama kaldırıldı")]
               (assignCard_quiet cardId userId) Hb) by reflexivity.
    unfold notices. simpl. reflexivity.
  - intros e Hrejected.
    apply (wp_run (Board_onSave cardId updates)
             (fun _ s' =>
                error (hook s')
                = Some (Js.message_or e "Failed to update card"))).
    unfold Board_onSave, updateCard.
    wp_steps. wp_reply Hrejected. wp_steps. reflexivity.
Qed.

(* ------------------------------------------------------------------ *)
(** ** Edits the hook is not told about *)

(** X27: label and subtask edits of the board bypass the hook.
    [handleToggleLabel] and [handleDeleteSubtask] write to the card-label
    and subtask tables directly: they send one request, never call
    [fetchBoard], raise no notice and leave the state of the hook, view
    included, as it was; and neither table is among the tables whose
    changes the hook subscribes to. *)
Theorem label_and_subtask_edits_bypass_the_hook
    (s : State) (cardId labelId subtaskId : string)
    (currentLabels : list Label.t) :
  let s1 := snd (handleToggleLabel cardId labelId currentLabels s) in
  let s2 := snd (handleDeleteSubtask subtaskId s) in
  hook s1 = hook s
  /\ new_events s s1 = [Request Table.card_labels true]
  /\ hook s2 = hook s
  /\ new_events s s2 = [Request Table.subtasks true]
  /\ ~ In Table.card_labels subscribed_tables
  /\ ~ In Table.subtasks subscribed_tables.
Proof.
  intros s1 s2. subst s1 s2.
  assert (H1 : wp (handleToggleLabel cardId labelId currentLabels)
                 (fun _ s' =>
                    hook s' = hook s
                    /\ trace s' = trace s ++ [Request Table.card_labels true])
                 s).
  { unfold handleToggleLabel.
    repeat (first [ wp_step | wp_either ]; cbv beta iota).
    all: now split. }
  assert (H2 : wp (handleDeleteSubtask subtaskId)
                 (fun _ s' =>
                    hook s' = hook s
                    /\ trace s' = trace s ++ [Request Table.subtasks true])
                 s).
  { unfold handleDeleteSubtask.
    repeat (first [ wp_step | wp_either ]; cbv beta iota).
    all: now split. }
  destruct H1 as [Hhook1 Htrace1]. destruct H2 as [Hhook2 Htrace2].
  split; [exact Hhook1|]. split; [now apply new_events_of|].
  split; [exact Hhook2|]. split; [now apply new_events_of|].
  split; simpl; intuition discriminate.
Qed.


(* ------------------------------------------------------------------ *)
(** ** The board's list of labels *)

Lemma handleDeleteLabel_run labelId ui s :
  handleDeleteLabel labelId ui s
  = (Returned
       (setBoardLabels
          (filter (fun l => negb (Label.id l =? labelId)%string)) ui),
     match service (env s) (requests s) with
     | Accepted _ =>
         with_db (delete_label labelId) (asked Table.labels true s)
     | Rejected _ => asked Table.labels true s
     end).
Proof.
  unfold handleDeleteLabel, write, bind, request, asked.
  destruct (service (env s) (requests s)); reflexivity.
Qed.

Lemma fetchLabels_answered ui s board generated :
  boardId (env s) = Some board -> Js.truthy board = true ->
  service (env s) (requests s) = Accepted generated ->
  fst (fetchLabels ui s)
  = Returned (setBoardLabels (fun _ => query_labels board (db s)) ui).
Proof.
  intros Hid Htruthy Haccepted.
  unfold fetchLabels, bind, get. cbv beta iota zeta.
  rewrite Hid, Htruthy. unfold negb. cbv beta iota.
  unfold select, bind, request. cbv beta. rewrite Haccepted. reflexivity.
Qed.

(** X28: deleting a label. [handleDeleteLabel] takes the label out of the
    board's own list whatever the service answered, while the store loses
    the label, and with it the card-label rows that name it, only when the
    delete was accepted. So after a rejected delete a label of the board is
    gone from the list although the store still has it, and the next
    answered [fetchLabels] shows it again. *)
Theorem handleDeleteLabel_drops_the_label_locally
    (s : State) (labelId : string) (ui : BoardUi.t) :
  let gone := fun l => negb (Label.id l =? labelId)%string in
  let ui' := setBoardLabels (filter gone) ui in
  let s' := snd (handleDeleteLabel labelId ui s) in
  fst (handleDeleteLabel labelId ui s) = Returned ui'
  /\ (forall l, In l (BoardUi.boardLabels ui')
                <-> In l (BoardUi.boardLabels ui) /\ Label.id l <> labelId)
  /\ (forall generated,
        service (env s) (requests s) = Accepted generated ->
        Db.labels (db s') = filter gone (Db.labels (db s))
        /\ (forall cl, In cl (Db.card_labels (db s'))
                       <-> In cl (Db.card_labels (db s))
                           /\ CardLabel.label_id cl <> labelId)
        /\ Db.cards (db s') = Db.cards (db s))
  /\ (forall e board generated l,
        service (env s) (requests s) = Rejected e ->
        boardId (env s) = Some board -> Js.truthy board = true ->
        service (env s) (S (requests s)) = Accepted generated ->
        In l (query_labels board (db s)) -> Label.id l = labelId ->
        db s' = db s
        /\ ~ In l (BoardUi.boardLabels ui')
        /\ exists ui'',
             fst (fetchLabels ui' s') = Returned ui''
             /\ In l (BoardUi.boardLabels ui'')).
Proof.
  intros gone ui' s'. subst s'. rewrite handleDeleteLabel_run.
  assert (Hgone : forall l, gone l = true <-> Label.id l <> labelId).
  { intros l. unfold gone. rewrite negb_true_iff. apply String.eqb_neq. }
  split; [reflexivity|]. split; [|split].
  - intros l. subst ui'. simpl. rewrite filter_In, Hgone. reflexivity.
  - intros generated Haccepted. simpl snd. rewrite Haccepted. simpl.
    split; [reflexivity|]. split; [|reflexivity].
    intros cl. unfold Db.delete_where. rewrite filter_In, negb_true_iff.
    now rewrite String.eqb_neq.
  - intros e board generated l Hrejected Hid Htruthy Hnext Hstored Hl.
    simpl snd. rewrite Hrejected.
    split; [reflexivity|]. split.
    + subst ui'. simpl. rewrite filter_In, Hgone. tauto.
    + eexists. split.
      * apply (fetchLabels_answered ui' _ board generated); simpl; assumption.
      * simpl. exact Hstored.
Qed.

Lemma handleDeleteLabel_drops_the_label_locally_witness :
  let s := Sample.unloaded (Sample.rejecting 0) "Doing" in
  let l := Label.mk "l1" "b1" "bug" "#ef4444" in
  let ui := setBoardLabels (fun _ => [l]) Small.ui in
  let ui' :=
    setBoardLabels
      (filter (fun l => negb (Label.id l =? "l1")%string)) ui in
  let s' := snd (handleDeleteLabel "l1" ui s) in
  In l (query_labels "b1" (db s))
  /\ db s' = db s
  /\ ~ In l (BoardUi.boardLabels ui')
  /\ exists ui'',
       fst (fetchLabels ui' s') = Returned ui''
       /\ In l (BoardUi.boardLabels ui'').
Proof.
  split; [left; reflexivity|].
  exact (proj2 (proj2 (proj2
           (handleDeleteLabel_drops_the_label_locally
              (Sample.unloaded (Sample.rejecting 0) "Doing") "l1"
              (setBoardLabels
                 (fun _ => [Label.mk "l1" "b1" "bug" "#ef4444"]) Small.ui))))
           Sample.refusal "b1" (Sample.generated 1)
           (Label.mk "l1" "b1" "bug" "#ef4444")
           eq_refl eq_refl eq_refl eq_refl (or_introl eq_refl) eq_refl).
Defined.

(* ================================================================== *)
(** * The column and the card *)

(** X19: the limit badges and the add button.  A column at its WIP limit
    counts as over the limit, so its add button is disabled.  A column one
    card short of its limit still offers the button; with one more card it
    is at its limit and the button is disabled. *)
Theorem near_limit_column_takes_one_more_card
    (column : ColumnWithCards.t) (card : CardWithLabels.t) :
  let fuller :=
    ColumnWithCards.mk (ColumnWithCards.column column)
                       (ColumnWithCards.cards column ++ [card]) in
  (isAtLimit column = true -> columnFooter column false = AddCardBtn true)
  /\ (isNearLimit column = true ->
      columnFooter column false = AddCardBtn false
      /\ isAtLimit column = false
      /\ isAtLimit fuller = true
      /\ columnFooter fuller false = AddCardBtn true).
Proof.
  intros fuller. subst fuller.
  unfold columnFooter, isAtLimit, isNearLimit, isOverLimit, cardCount.
  simpl. rewrite length_app. simpl List.length.
  destruct (Column.wip_limit (ColumnWithCards.column column)) as [limit|].
  - split.
    + intros H. f_equal. lia.
    + intros H. repeat split; try f_equal; lia.
  - split; discriminate.
Qed.

Lemma near_limit_column_takes_one_more_card_witness :
  let fuller :=
    ColumnWithCards.mk (ColumnWithCards.column Small.finished)
      (ColumnWithCards.cards Small.finished ++ [Small.shown_card "k3" "c2"]) in
  isNearLimit Small.finished = true
  /\ columnFooter Small.finished false = AddCardBtn false
  /\ isAtLimit Small.finished = false
  /\ isAtLimit fuller = true
  /\ columnFooter fuller false = AddCardBtn true.
Proof.
  split; [reflexivity|].
  exact (proj2 (near_limit_column_takes_one_more_card
                  Small.finished (Small.shown_card "k3" "c2"))
               eq_refl).
Defined.

Section DueDates.

Variable toLowerCase : string -> string.
Variable startOfDay : string -> option Z.
Variable today : Z.
Variable nextWeek : Z.
Variable toLocaleDateString : string -> string.

(** Whether the board keeps the card when only the date filter is set. *)
Let passes (f : DateFilter.t) (card : CardWithLabels.t) : bool :=
  cardPasses toLowerCase startOfDay today nextWeek
    (mkFilterState "" [] [] f) card.

(** X20: the due-date badge of a card and the date filter of the board
    agree, for dates the runtime can read.  A card without a badge is kept
    by the "no date" filter and by neither "overdue" nor "today".  A card
    with a badge is not kept by "no date", is kept by "today" exactly when
    the badge is marked today and, when its date is valid, by "overdue"
    exactly when the badge is marked overdue.  A due date the runtime
    cannot read gives a badge that is not marked overdue and a card the
    "overdue" filter keeps. *)
Theorem due_badge_agrees_with_date_filter (card : CardWithLabels.t) :
  let due := Card.due_date (CardWithLabels.card card) in
  match formatDueDate startOfDay today toLocaleDateString due with
  | None =>
      passes DateFilter.no_date card = true
      /\ passes DateFilter.overdue card = false
      /\ passes DateFilter.today card = false
  | Some badge =>
      passes DateFilter.no_date card = false
      /\ passes DateFilter.today card = DueDate.isToday badge
      /\ match due with
         | Some text =>
             match startOfDay text with
             | Some _ => passes DateFilter.overdue card = DueDate.isOverdue badge
             | None =>
                 passes DateFilter.overdue card = true
                 /\ DueDate.isOverdue badge = false
             end
         | None => False
         end
  end.
Proof.
  intros due. subst due. unfold passes, cardPasses, formatDueDate. simpl.
  destruct (Card.due_date (CardWithLabels.card card)) as [text|];
    [|now repeat split].
  simpl. destruct (Js.truthy text); simpl; [|now repeat split].
  destruct (startOfDay text) as [day|]; simpl.
  - repeat split.
    + now destruct (day =? today).
    + destruct (today <=? day) eqn:E1, (day <? today) eqn:E2; lia.
  - now repeat split.
Qed.

End DueDates.

(* ------------------------------------------------------------------ *)
(** ** The add-card form of a column *)

(** X25: from the add-card form to the store.  When what was typed trims
    to nothing, the form does nothing: no request, form and state as they
    were.  Otherwise the form is emptied and closed, and when the service
    accepts the insert the card table has one more row, last, with the
    trimmed text as its title, in the column of the form; when the service
    rejects it, the card table is as before. *)
Theorem add_card_form_stores_the_trimmed_title
    (trim : string -> string) (column : ColumnWithCards.t)
    (ui : ColumnUi.t) (s : State) :
  let typed := trim (ColumnUi.newCardTitle ui) in
  let submit := Column_handleAddCard trim (Board_onAddCard column) ui s in
  if Js.truthy typed then
    fst submit
    = Returned (ColumnUi.mk (ColumnUi.isEditing ui) (ColumnUi.title ui)
                            false "")
    /\ match service (env s) (requests s) with
       | Accepted _ =>
           exists row,
             Db.cards (db (snd submit)) = Db.cards (db s) ++ [row]
             /\ Card.title row = typed
             /\ Card.column_id row = ColumnWithCards.id column
       | Rejected _ => Db.cards (db (snd submit)) = Db.cards (db s)
       end
  else submit = (Returned ui, s).
Proof.
  intros typed submit. subst typed submit.
  unfold Column_handleAddCard.
  destruct (Js.truthy (trim (ColumnUi.newCardTitle ui))); [|reflexivity].
  apply (wp_run
           (Board_onAddCard column (trim (ColumnUi.newCardTitle ui)) ;;
            ret (ColumnUi.mk (ColumnUi.isEditing ui) (ColumnUi.title ui)
                             false ""))
           (fun r s' =>
              r = Returned (ColumnUi.mk (ColumnUi.isEditing ui)
                                        (ColumnUi.title ui) false "")
              /\ match service (env s) (requests s) with
                 | Accepted _ =>
                     exists row,
                       Db.cards (db s') = Db.cards (db s) ++ [row]
                       /\ Card.title row = trim (ColumnUi.newCardTitle ui)
                       /\ Card.column_id row = ColumnWithCards.id column
                 | Rejected _ => Db.cards (db s') = Db.cards (db s)
                 end)).
  unfold Board_onAddCard, handleAddCard, addCard.
  repeat (first [ wp_step | wp_either | apply logActivity_wp; intros ? ? ];
          cbv beta iota).
  all: unpack_calls.
  all: split; [reflexivity|].
  all: simpl.
  all: repeat match goal with
         | H : Db.cards _ = _ |- _ => rewrite H; clear H
         end.
  all: simpl; try reflexivity.
  all: eexists; repeat split.
Qed.

(* ------------------------------------------------------------------ *)
(** ** The subtask badge of a card *)

Lemma all_pass_iff_none_dropped {A : Type} (p : A -> bool) (l : list A) :
  (List.length (filter p l) =? List.length l)%nat = forallb p l.
Proof.
  induction l as [|x l IH]; [reflexivity|].
  simpl. destruct (p x); simpl.
  - exact IH.
  - pose proof (filter_length_le p l). apply Nat.eqb_neq. lia.
Qed.

(** X26: the subtask badge of a card.  The count of completed subtasks
    never exceeds the number of subtasks, and the badge is marked complete
    exactly when every subtask of the card is completed; a card whose
    subtasks are absent or empty shows no badge. *)
Theorem subtask_badge_counts_completed (card : CardWithLabels.t) :
  (completedSubtasks card
   <= List.length (Js.or_nil (CardWithLabels.subtasks card)))%nat
  /\ subtasks_complete card
     = forallb Subtask.is_completed (Js.or_nil (CardWithLabels.subtasks card))
  /\ (hasSubtasks card = false <->
      Js.or_nil (CardWithLabels.subtasks card) = []).
Proof.
  unfold completedSubtasks, subtasks_complete, hasSubtasks.
  split; [apply filter_length_le|].
  split; [apply all_pass_iff_none_dropped|].
  destruct (Js.or_nil (CardWithLabels.subtasks card)); simpl.
  - now split.
  - split; discriminate.
Qed.


(* ================================================================== *)
(** * The search modal *)

Lemma fold_left_push {A B : Type} (p : A -> bool) (f : A -> B)
    (l : list A) (acc : list B) :
  fold_left (fun acc x => if p x then acc ++ [f x] else acc) l acc
  = acc ++ map f (filter p l).
Proof.
  revert acc. induction l as [|x l IH]; intros acc; simpl.
  - now rewrite app_nil_r.
  - rewrite IH. destruct (p x); [|reflexivity].
    simpl. now rewrite <- app_assoc.
Qed.

Lemma fold_left_append {A B : Type} (g : A -> list B) (l : list A)
    (acc : list B) :
  fold_left (fun acc x => acc ++ g x) l acc = acc ++ flat_map g l.
Proof.
  revert acc. induction l as [|x l IH]; intros acc; simpl.
  - now rewrite app_nil_r.
  - rewrite IH. now rewrite <- app_assoc.
Qed.

Section Search.

Variable toLowerCase : string -> string.
Variable trim : string -> string.

(** Whether the search modal lists a card for a lower-cased query. *)
Let listed (searchQuery : string) (card : CardWithLabels.t) : bool :=
  Js.includes (toLowerCase (Card.title (CardWithLabels.card card))) searchQuery
  || match Card.description (CardWithLabels.card card) with
     | Some d => Js.includes (toLowerCase d) searchQuery
     | None => false
     end.

Lemma matchingCards_from searchQuery columns (found : list SearchResult.t) :
  fold_left
    (fun acc column =>
       fold_left
         (fun acc card =>
            if listed searchQuery card
            then acc ++ [SearchResult.mk card (ColumnWithCards.title column)]
            else acc)
         (ColumnWithCards.cards column) acc)
    columns found
  = found
    ++ flat_map (fun column =>
                   map (fun card =>
                          SearchResult.mk card (ColumnWithCards.title column))
                       (filter (listed searchQuery)
                               (ColumnWithCards.cards column)))
                columns.
Proof.
  revert found.
  induction columns as [|column rest IH]; intros found; simpl.
  - now rewrite app_nil_r.
  - rewrite IH. rewrite app_assoc. f_equal.
    apply (fold_left_push (listed searchQuery)
             (fun card => SearchResult.mk card (ColumnWithCards.title column))).
Qed.

Lemma matchingCards_listed searchQuery columns :
  matchingCards toLowerCase searchQuery columns
  = flat_map (fun column =>
                map (fun card =>
                       SearchResult.mk card (ColumnWithCards.title column))
                    (filter (listed searchQuery)
                            (ColumnWithCards.cards column)))
             columns.
Proof. apply (matchingCards_from searchQuery columns []). Qed.

Lemma matchingCards_on_board searchQuery columns :
  Forall (fun r =>
            exists column,
              In column columns
              /\ In (SearchResult.card r) (ColumnWithCards.cards column)
              /\ SearchResult.columnTitle r = ColumnWithCards.title column)
         (matchingCards toLowerCase searchQuery columns).
Proof.
  rewrite matchingCards_listed. apply Forall_forall. intros r Hr.
  apply in_flat_map in Hr as (column & Hcolumn & Hr).
  apply in_map_iff in Hr as (card & <- & Hcard).
  apply filter_In in Hcard as [Hcard _].
  exists column. simpl. auto.
Qed.

Section WithFilter.

Variable startOfDay : string -> option Z.
Variable today : Z.
Variable nextWeek : Z.

(** X21: the search modal lists what the board's search filter keeps.  For
    a query that is not blank, the cards the modal lists, in order, are the
    cards that [filteredColumns] keeps when only the search text is set,
    each listed with the title of its column, and the first result is
    selected; for a query that trims to nothing the modal lists no card. *)
Theorem search_lists_the_filtered_cards
    (query : string) (columns : list ColumnWithCards.t) (ui : SearchUi.t) :
  let ui' := SearchModal_setQuery toLowerCase trim columns query ui in
  (Js.truthy (trim query) = false -> SearchUi.results ui' = [])
  /\ (Js.truthy (trim query) = true -> Js.truthy query = true ->
      map SearchResult.card (SearchUi.results ui')
      = flat_map ColumnWithCards.cards
          (filteredColumns toLowerCase startOfDay today nextWeek
             (mkFilterState query [] [] DateFilter.all) columns)
      /\ SearchUi.selectedIndex ui' = 0)
  /\ Forall (fun r =>
               exists column,
                 In column columns
                 /\ In (SearchResult.card r) (ColumnWithCards.cards column)
                 /\ SearchResult.columnTitle r = ColumnWithCards.title column)
            (SearchUi.results ui').
Proof.
  intros ui'. subst ui'. unfold SearchModal_setQuery, SearchModal_search.
  simpl SearchUi.query.
  destruct (Js.truthy (trim query)) eqn:Htrim; simpl.
  - split; [discriminate|]. split; [|apply matchingCards_on_board].
    intros _ Hquery. split; [|reflexivity].
    rewrite matchingCards_listed.
    unfold filteredColumns. simpl. rewrite Hquery. simpl.
    rewrite flat_map_map, map_flat_map.
    apply flat_map_agree. intros column _. simpl.
    rewrite map_map. simpl. rewrite map_id.
    apply filter_ext. intros card.
    unfold cardPasses, listed. simpl. rewrite Hquery. simpl.
    destruct (Js.includes _ _); [reflexivity|].
    simpl. now destruct (Card.description _) as [d|]; [destruct (Js.includes _ _)|].
  - split; [reflexivity|]. split; [discriminate|constructor].
Qed.

End WithFilter.

Lemma search_effect_consistent columns ui board :
  0 <= SearchUi.selectedIndex ui ->
  search_consistent
    (columns, SearchModal_search toLowerCase trim columns ui, board).
Proof.
  intros Hsel. unfold search_consistent, SearchModal_search.
  destruct (negb (Js.truthy (trim (SearchUi.query ui)))); simpl.
  - split; [exact Hsel|]. split; [congruence|constructor].
  - split; [lia|]. split; [|apply matchingCards_on_board].
    intros Hsome.
    destruct (matchingCards toLowerCase _ columns); [congruence|].
    simpl. lia.
Qed.

Lemma step_consistent ev st :
  search_consistent st ->
  search_consistent (SearchModal_step toLowerCase trim ev st).
Proof.
  destruct st as [[columns ui] board]. intros Hst.
  pose proof Hst as (Hsel & Hbound & Hboard).
  destruct ev as [|value|key|i|columns'];
    unfold SearchModal_step; cbv beta iota.
  - destruct (BoardUi.isSearchOpen board); [exact Hst|].
    apply search_effect_consistent. simpl. lia.
  - destruct (BoardUi.isSearchOpen board); [|exact Hst].
    apply search_effect_consistent. exact Hsel.
  - destruct (BoardUi.isSearchOpen board); [|exact Hst].
    destruct key; unfold SearchModal_handleKeyDown; cbv beta iota zeta;
      try exact Hst.
    + split; [|split; [|exact Hboard]]; simpl;
        destruct (SearchUi.selectedIndex ui
                  <? Z.of_nat (List.length (SearchUi.results ui)) - 1)
          eqn:E; try lia; intros Hsome; try lia.
      now apply Hbound.
    + split; [|split; [|exact Hboard]]; simpl;
        destruct (0 <? SearchUi.selectedIndex ui) eqn:E; try lia;
        intros Hsome; specialize (Hbound Hsome); lia.
    + destruct (at_index _ _); exact Hst.
  - destruct (BoardUi.isSearchOpen board); [|exact Hst].
    destruct (nth_error _ _); exact Hst.
  - apply search_effect_consistent. exact Hsel.
Qed.

Lemma search_run_consistent events st :
  search_consistent st ->
  search_consistent (search_run toLowerCase trim events st).
Proof.
  unfold search_run. revert st.
  induction events as [|ev events IH]; intros st Hst; [exact Hst|].
  simpl. apply IH. now apply step_consistent.
Qed.

(** X22: the selection of the search modal stays on a result, and Enter
    opens a card of the board.  From the modal as it is mounted, after any
    sequence of openings, typed queries, key presses, clicks and refetches
    of the board, the selected index points at one of the listed results
    whenever there are any, and every listed card is a card of the current
    columns.  So when the modal shows results, pressing Enter closes it and
    selects the id of a card that [findCard] finds on the board. *)
Theorem search_selection_stays_on_a_result
    (events : list SearchEvent) (columns0 : list ColumnWithCards.t)
    (board0 : BoardUi.t) :
  let st :=
    search_run toLowerCase trim events
      (columns0, SearchUi.mk "" [] 0, board0) in
  search_consistent st
  /\ let '(columns, ui, board) := st in
     BoardUi.isSearchOpen board = true -> SearchUi.results ui <> [] ->
     let '(_, _, board') :=
       SearchModal_step toLowerCase trim (Pressed Enter) st in
     BoardUi.isSearchOpen board' = false
     /\ exists id,
          BoardUi.selectedCardId board' = Some id
          /\ findCard id columns <> None.
Proof.
  intros st.
  assert (Hst : search_consistent st).
  { apply search_run_consistent. simpl.
    split; [lia|]. split; [congruence|constructor]. }
  split; [exact Hst|].
  destruct st as [[columns ui] board]. intros Hopen Hsome.
  destruct Hst as (Hsel & Hbound & Hboard). specialize (Hbound Hsome).
  simpl. rewrite Hopen. unfold at_index.
  destruct (SearchUi.selectedIndex ui <? 0) eqn:E; [lia|].
  destruct (nth_error (SearchUi.results ui)
                      (Z.to_nat (SearchUi.selectedIndex ui)))
    as [result|] eqn:Hnth.
  - split; [reflexivity|].
    exists (CardWithLabels.id (SearchResult.card result)).
    split; [reflexivity|].
    apply nth_error_In in Hnth.
    rewrite Forall_forall in Hboard.
    destruct (Hboard result Hnth) as (column & Hcolumn & Hcard & _).
    rewrite findCard_flattened. intros Hnone.
    assert (Hin : In (SearchResult.card result)
                     (flat_map ColumnWithCards.cards columns))
      by (apply in_flat_map; eauto).
    pose proof (find_none _ _ Hnone _ Hin) as Hno.
    simpl in Hno. now rewrite String.eqb_refl in Hno.
  - apply nth_error_None in Hnth. lia.
Qed.

End Search.

(* ================================================================== *)
(** * The card modal *)

Lemma update_keeps_descriptions (p : Card.t -> bool) updates now rows :
  new_description updates = None ->
  map Card.description (Db.update_where p (apply_updates updates now) rows)
  = map Card.description rows.
Proof.
  intros Hnone. unfold Db.update_where. rewrite map_map.
  apply map_ext. intros c.
  destruct (p c); [|reflexivity].
  unfold apply_updates. simpl. now rewrite Hnone.
Qed.

Lemma updated_rows (p : Card.t -> bool) updates now rows :
  forall c, In c (Db.update_where p (apply_updates updates now) rows) ->
            (exists c0, In c0 rows /\ p c0 = true
                        /\ c = apply_updates updates now c0)
            \/ (In c rows /\ p c = false).
Proof.
  intros c Hc. unfold Db.update_where in Hc.
  apply in_map_iff in Hc as (c0 & <- & Hc0).
  destruct (p c0) eqn:Hp; [left|right; auto].
  exists c0. auto.
Qed.

Section Saving.

Variable toISOString : string -> option string.

Let save (card : CardWithLabels.t) :=
  CardModal_saveButton toISOString card Board_onSave Board_onClose.

(** X23: what the save button of the card modal can and cannot do.  On the
    draft as the modal opened it the button is disabled: a click sends
    nothing and the modal stays open.  After edits that left every field
    as the card has it, a click sends nothing to the service and closes the
    modal.  Emptying the description field of any draft and saving leaves
    the description of every stored card as it was: the modal cannot clear
    a description.  An edited draft that differs from the card, with a
    description and without a date, once the service accepts the update,
    gives its title, its priority and that description to the card and
    takes the due date away. *)
Theorem saving_the_card_modal
    (card : CardWithLabels.t) (d : CardDraft.t) (ui : BoardUi.t) (s : State) :
  save card (CardModal_open card) ui s
  = (Returned (CardModal_open card, ui), s)
  /\ (CardDraft.hasUnsavedChanges d = true ->
      draft_changed card d = false ->
      snd (save card d ui s) = s
      /\ exists d',
           fst (save card d ui s) = Returned (d', Board_onClose ui)
           /\ CardDraft.hasUnsavedChanges d' = false)
  /\ (let cleared := handleChange (change_description "") d in
      map Card.description (Db.cards (db (snd (save card cleared ui s))))
      = map Card.description (Db.cards (db s)))
  /\ (CardDraft.hasUnsavedChanges d = true ->
      Js.truthy (CardDraft.description d) = true ->
      draft_changed card d = true ->
      Js.truthy (CardDraft.dueDate d) = false ->
      forall generated,
        service (env s) (requests s) = Accepted generated ->
        forall c,
          In c (Db.cards (db (snd (save card d ui s)))) ->
          Card.id c = CardWithLabels.id card ->
          Card.title c = CardDraft.title d
          /\ Card.priority c = CardDraft.priority d
          /\ Card.description c = Some (CardDraft.description d)
          /\ Card.due_date c = None).
Proof.
  unfold save. split; [|split; [|split]].
  - reflexivity.
  - intros Hedited Hsame.
    unfold CardModal_saveButton, CardModal_handleSave.
    rewrite Hedited, Hsame.
    split; [reflexivity|]. eexists. split; reflexivity.
  - set (cleared := handleChange (change_description "") d).
    assert (Hempty : CardDraft.description cleared = "") by reflexivity.
    assert (Hedited : CardDraft.hasUnsavedChanges cleared = true)
      by reflexivity.
    clearbody cleared.
    apply (wp_run (CardModal_saveButton toISOString card Board_onSave
                     Board_onClose cleared ui)
             (fun _ s' =>
                map Card.description (Db.cards (db s'))
                = map Card.description (Db.cards (db s)))).
    unfold CardModal_saveButton. rewrite Hedited.
    unfold CardModal_handleSave, Board_onSave, updateCard.
    repeat (first [ wp_step | wp_either | apply logActivity_wp; intros ? ? ];
            cbv beta iota).
    all: unpack_calls.
    all: simpl.
    all: repeat match goal with
           | H : Db.cards _ = _ |- _ => rewrite H; clear H
           end.
    all: simpl; try reflexivity.
    all: apply update_keeps_descriptions.
    all: unfold draft_updates; simpl; now rewrite Hempty.
  - intros Hedited Htext Hchanged Hdate generated Haccepted.
    apply (wp_run (CardModal_saveButton toISOString card Board_onSave
                     Board_onClose d ui)
             (fun _ s' =>
                forall c,
                  In c (Db.cards (db s')) ->
                  Card.id c = CardWithLabels.id card ->
                  Card.title c = CardDraft.title d
                  /\ Card.priority c = CardDraft.priority d
                  /\ Card.description c = Some (CardDraft.description d)
                  /\ Card.due_date c = None)).
    unfold CardModal_saveButton. rewrite Hedited.
    unfold CardModal_handleSave, Board_onSave, updateCard.
    rewrite Hchanged, Hdate.
    wp_steps. wp_reply Haccepted.
    repeat (first [ wp_step | apply logActivity_wp; intros ? ? ];
            cbv beta iota).
    unpack_calls. simpl.
    repeat match goal with
           | H : Db.cards _ = _ |- _ => rewrite H; clear H
           end.
    simpl. intros c Hc Hid.
    apply updated_rows in Hc.
    destruct Hc as [(c0 & _ & _ & ->)|[_ Hno]];
      [unfold apply_updates, draft_updates; simpl; rewrite Htext;
       repeat split|].
    unfold CardWithLabels.id in Hid. rewrite Hid, String.eqb_refl in Hno.
    discriminate.
Qed.

End Saving.

Lemma saving_the_card_modal_witness :
  let card := Small.shown_card "k1" "c1" in
  let d := handleChange (change_description "notes") (CardModal_open card) in
  let same := handleChange (change_title "k1") (CardModal_open card) in
  let s := Small.state Sample.accepting in
  let click :=
    CardModal_saveButton (fun _ => None) card Board_onSave Board_onClose in
  (draft_changed card same = false
   /\ snd (click same Small.ui s) = s
   /\ exists d',
        fst (click same Small.ui s) = Returned (d', Board_onClose Small.ui)
        /\ CardDraft.hasUnsavedChanges d' = false)
  /\ draft_changed card d = true
  /\ Forall (fun c =>
               Card.id c = "k1" ->
               Card.title c = "k1"
               /\ Card.priority c = medium
               /\ Card.description c = Some "notes"
               /\ Card.due_date c = None)
            (Db.cards (db (snd (click d Small.ui s)))).
Proof.
  split; [split; [reflexivity|]|split; [reflexivity|]].
  - exact (proj1 (proj2 (saving_the_card_modal (fun _ => None)
                           (Small.shown_card "k1" "c1")
                           (handleChange (change_title "k1")
                              (CardModal_open (Small.shown_card "k1" "c1")))
                           Small.ui (Small.state Sample.accepting)))
             eq_refl eq_refl).
  - apply Forall_forall. intros c Hc Hid.
    exact (proj2 (proj2 (proj2
             (saving_the_card_modal (fun _ => None)
                (Small.shown_card "k1" "c1")
                (handleChange (change_description "notes")
                   (CardModal_open (Small.shown_card "k1" "c1")))
                Small.ui (Small.state Sample.accepting))))
             eq_refl eq_refl eq_refl eq_refl (Sample.generated 0) eq_refl
             c Hc Hid).
Defined.

(* ================================================================== *)
(** * The keyboard shortcuts *)

(** X24: typing in a field triggers no shortcut but Escape.  Escape calls
    the escape handler, when one is given, wherever the focus is, and the
    default action of the key is kept.  While an input, a text area or an
    editable element has the focus, no other key calls a handler or
    prevents the default action.  The default action is prevented only
    outside such fields and only with Ctrl or Cmd held, the slash key of
    the search apart; a handler other than the escape handler runs only
    when the default action is prevented; and the default action is
    prevented whether or not the component gave the handler: with no
    handler given nothing happens, and the key is swallowed all the same. *)
Theorem shortcuts_spare_text_fields {St : Type}
    (handlers : ShortcutHandlers.t St) (event : KeyboardEvent.t) (st : St) :
  let isInputFocused :=
    (KeyboardEvent.target_tagName event =? "INPUT")%string
    || (KeyboardEvent.target_tagName event =? "TEXTAREA")%string
    || KeyboardEvent.target_isContentEditable event in
  (KeyboardEvent.key event = "Escape" ->
   handleKeyDown handlers event st
   = (call_if_given (ShortcutHandlers.onEscape handlers) st, false))
  /\ (isInputFocused = true -> KeyboardEvent.key event <> "Escape" ->
      handleKeyDown handlers event st = (st, false))
  /\ (snd (handleKeyDown handlers event st) = true ->
      isInputFocused = false
      /\ KeyboardEvent.key event <> "Escape"
      /\ (KeyboardEvent.ctrlKey event || KeyboardEvent.metaKey event = true
          \/ KeyboardEvent.key event = "/"))
  /\ (snd (handleKeyDown handlers event st) = false ->
      KeyboardEvent.key event <> "Escape" ->
      fst (handleKeyDown handlers event st) = st)
  /\ handleKeyDown no_handlers event st
     = (st, snd (handleKeyDown handlers event st)).
Proof.
  intros isInputFocused. subst isInputFocused. unfold handleKeyDown.
  destruct event as [key ctrl meta shift tag editable]. simpl.
  destruct (key =? "Escape")%string eqn:Hescape.
  - apply String.eqb_eq in Hescape. simpl.
    split; [reflexivity|].
    split; [intros _ Hkey; contradiction|].
    split; [discriminate|].
    split; [intros _ Hkey; contradiction|reflexivity].
  - apply String.eqb_neq in Hescape.
    split; [congruence|].
    destruct ((tag =? "INPUT")%string || (tag =? "TEXTAREA")%string
              || editable).
    + repeat split; try discriminate.
    + split; [discriminate|].
      destruct (key =? "/")%string eqn:Hslash;
        [apply String.eqb_eq in Hslash|apply String.eqb_neq in Hslash].
      all: destruct (ctrl || meta); simpl.
      all: destruct (key =? "b")%string, (key =? "n")%string,
             (key =? "k")%string, (key =? "d")%string, (key =? "z")%string,
             (key =? "y")%string, shift;
        simpl.
      all: split;
        [ first [discriminate
                |intros _; split; [reflexivity|]; split; [assumption|];
                 first [left; reflexivity|right; assumption]]
        | split; [first [discriminate|reflexivity]|reflexivity] ].
Qed.
